(** * DDEX XML validator: business rules and result assembly

    A shallow embedding of [ddex_validator] (models.py, constants.py,
    utils.py, rules.py, validator.py) and the properties of its
    specification that were checked against it.

    Conventions of the embedding.
    - A Python [str] is a Rocq [string] holding its UTF-8 encoding; every
      pattern of constants.py accepts ASCII text only, so lengths and
      indices are taken on ASCII strings wherever the source takes them.
    - A parsed lxml tree is an [Element] value; an element object of the
      tree is a [Handle], the list of child positions leading from the
      element up to the root, so that [getparent()] is the tail of the
      list and two handles are the same object iff they are equal.
    - A Python [float] is an IEEE 754 binary64 value, as [SpecFloat]
      specifies it; an exception a function lets through is a text on the
      left of a sum, [inl str_e], holding [str(e)].
    - What the validator obtains from its collaborators (the XML parser, the
      XSD engine, the file system, the clock, the settings of the
      interpreter) is an explicit input. *)

From Stdlib Require Import ZArith QArith Ascii String DecimalString.
From Stdlib Require SpecFloat.
From stdpp Require Import base option list strings gmap.

Close Scope Q_scope.
Open Scope Z_scope.

(* ================================================================== *)
(** * Python string primitives                                         *)
(* ================================================================== *)

Module Py.

Definition chr (n : nat) : ascii := ascii_of_nat n.

Fixpoint of_bytes (l : list nat) : string :=
  match l with
  | [] => EmptyString
  | b :: l' => String (chr b) (of_bytes l')
  end.

(** [s.startswith(p)], returning what follows the prefix. *)
Fixpoint strip_prefix (p s : string) : option string :=
  match p, s with
  | EmptyString, _ => Some s
  | String a p', String b s' =>
      if Ascii.eqb a b then strip_prefix p' s' else None
  | String _ _, EmptyString => None
  end.

Definition startswith (s p : string) : bool :=
  match strip_prefix p s with Some _ => true | None => false end.

(** [sub in s]. *)
Fixpoint contains (sub s : string) : bool :=
  if startswith s sub then true
  else match s with
       | EmptyString => false
       | String _ s' => contains sub s'
       end.

(** [s.split(c)] for a one-character separator: the first piece and the
    pieces after it (the result of [split] is never empty). *)
Fixpoint split_pieces (c : ascii) (s : string) : string * list string :=
  match s with
  | EmptyString => (EmptyString, [])
  | String a s' =>
      let '(w, ws) := split_pieces c s' in
      if Ascii.eqb a c then (EmptyString, w :: ws) else (String a w, ws)
  end.

Definition split (c : ascii) (s : string) : list string :=
  let '(w, ws) := split_pieces c s in w :: ws.

(** [s.replace(c, empty)] for a one-character [c]. *)
Fixpoint remove_char (c : ascii) (s : string) : string :=
  match s with
  | EmptyString => EmptyString
  | String a s' =>
      if Ascii.eqb a c then remove_char c s' else String a (remove_char c s')
  end.

(** The characters [str.isspace] accepts, in UTF-8. *)
Definition whitespace : list string :=
  map of_bytes
    ([ [9%nat]; [10%nat]; [11%nat]; [12%nat]; [13%nat];
       [28%nat]; [29%nat]; [30%nat]; [31%nat]; [32%nat];
       [194; 133]%nat; [194; 160]%nat; [225; 154; 128]%nat ]
     ++ map (fun k => [226; 128; 128 + k]%nat) (seq 0 11)
     ++ [ [226; 128; 168]%nat; [226; 128; 169]%nat; [226; 128; 175]%nat;
          [226; 129; 159]%nat; [227; 128; 128]%nat ]).

Fixpoint first_prefix (ps : list string) (s : string) : option string :=
  match ps with
  | [] => None
  | p :: ps' =>
      match strip_prefix p s with
      | Some r => Some r
      | None => first_prefix ps' s
      end
  end.

Fixpoint lstrip_with (ws : list string) (fuel : nat) (s : string) : string :=
  match fuel with
  | O => s
  | S fuel' =>
      match first_prefix ws s with
      | Some r => lstrip_with ws fuel' r
      | None => s
      end
  end.

Definition lstrip (s : string) : string :=
  lstrip_with whitespace (String.length s) s.

Definition rstrip (s : string) : string :=
  String.rev
    (lstrip_with (map String.rev whitespace) (String.length s) (String.rev s)).

(** [s.strip()]. *)
Definition strip (s : string) : string := rstrip (lstrip s).

(** Truth value of an [Optional[str]]: [None] and the empty string are
    false. *)
Definition truthy (o : option string) : option string :=
  match o with
  | Some EmptyString => None
  | _ => o
  end.

Definition is_digit (c : ascii) : bool :=
  let n := nat_of_ascii c in (48 <=? n)%nat && (n <=? 57)%nat.

(** [int(c)] on a one-character string: [None] stands for [ValueError]. *)
Definition int_char (c : ascii) : option Z :=
  if is_digit c then Some (Z.of_nat (nat_of_ascii c) - 48) else None.

Fixpoint int_digits (acc : Z) (s : string) : option Z :=
  match s with
  | EmptyString => Some acc
  | String c s' =>
      match int_char c with
      | Some d => int_digits (10 * acc + d) s'
      | None => None
      end
  end.

(** [int(s)] on text made of decimal digits, which is all the callers
    pass; anything else is [ValueError]. *)
Definition int (s : string) : option Z :=
  match s with
  | EmptyString => None
  | _ => int_digits 0 s
  end.

(** [int(s)] under the interpreter's limit on the number of digits of a
    text it converts ([sys.get_int_max_str_digits()]: 4300 unless it is
    changed; 0 when there is no limit, as in the interpreters that do not
    have the setting): a longer text is [ValueError]. *)
Definition int_limited (max_str_digits : nat) (s : string) : option Z :=
  if (0 <? max_str_digits)%nat && (max_str_digits <? String.length s)%nat
  then None
  else int s.

(** Python floats: IEEE 754 binary64. *)
Definition pyfloat : Type := SpecFloat.spec_float.

Definition prec : Z := 53.

Definition emax : Z := 1024.

(** The float of an integer that a float represents exactly, such as the
    constants the source compares with. *)
Definition float_const (n : Z) : pyfloat :=
  SpecFloat.binary_normalize prec emax n 0 false.

(** The conversion of an [int] operand that meets a float operand: the
    nearest float, ties to even; [None] stands for [OverflowError], which
    Python raises where the nearest float would be an infinity. *)
Definition float_of_int (n : Z) : option pyfloat :=
  match SpecFloat.binary_normalize prec emax n 0 false with
  | SpecFloat.S754_infinity _ => None
  | f => Some f
  end.

(** The float nearest to [n / 10^k] for [n >= 0], ties to even; an
    infinity when it is out of range. *)
Definition float_of_decimal (n : Z) (k : nat) : pyfloat :=
  match n with
  | Zpos m =>
      let '(mz, ez, lz) :=
        SpecFloat.SFdiv_core_binary prec emax (Zpos m) 0 (10 ^ Z.of_nat k) 0 in
      SpecFloat.binary_round_aux prec emax false mz ez lz
  | _ => SpecFloat.S754_zero false
  end.

Definition float_add (x y : pyfloat) : pyfloat := SpecFloat.SFadd prec emax x y.

(** [x < y] *)
Definition float_lt (x y : pyfloat) : bool := SpecFloat.SFltb x y.

(** [float(s)] on text made of decimal digits and dots, which is all the
    caller passes: digits with at most one dot and at least one digit,
    read as a decimal number and rounded to the nearest float. *)
Definition float (s : string) : option pyfloat :=
  match split "." s with
  | [a] => z ← int a; Some (float_of_decimal z 0)
  | [a; b] =>
      match a, b with
      | EmptyString, EmptyString => None
      | _, _ =>
          z ← int_digits 0 (a +:+ b);
          Some (float_of_decimal z (String.length b))
      end
  | _ => None
  end.

(** [s[i]]; [None] stands for [IndexError]. *)
Definition index (s : string) (i : nat) : option ascii := String.get i s.

(** [s[a:b]] for [0 <= a <= b]. *)
Definition slice (a b : nat) (s : string) : string :=
  String.substring a (b - a) s.

(** [range(start, stop, step)] for a positive step. *)
Fixpoint range_fuel (fuel start stop step : nat) : list nat :=
  match fuel with
  | O => []
  | S fuel' =>
      if (start <? stop)%nat
      then start :: range_fuel fuel' (start + step) stop step
      else []
  end.

Definition range (start stop step : nat) : list nat :=
  range_fuel stop start stop step.

(** [sum(f(i) for i in l)] where [f] may raise. *)
Fixpoint sum_of (f : nat -> option Z) (l : list nat) : option Z :=
  match l with
  | [] => Some 0
  | i :: l' =>
      match f i with
      | Some x =>
          match sum_of f l' with
          | Some y => Some (x + y)
          | None => None
          end
      | None => None
      end
  end.

(** [str(n)] for a natural number. *)
Definition str_nat (n : nat) : string :=
  NilEmpty.string_of_uint (Nat.to_uint n).

(** [sep.join(parts)]. *)
Fixpoint join (sep : string) (parts : list string) : string :=
  match parts with
  | [] => EmptyString
  | [p] => p
  | p :: ps => p +:+ sep +:+ join sep ps
  end.

End Py.

(* ================================================================== *)
(** * Regular expressions (the subset constants.py and rules.py use)   *)
(* ================================================================== *)

Module Re.

Inductive regex : Type :=
| Void
| Eps
| Range (lo hi : ascii)
| Cat (r1 r2 : regex)
| Alt (r1 r2 : regex)
| Star (r : regex).

Definition Chr (c : ascii) : regex := Range c c.

Definition Opt (r : regex) : regex := Alt Eps r.

Definition Plus (r : regex) : regex := Cat r (Star r).

Fixpoint Lit (s : string) : regex :=
  match s with
  | EmptyString => Eps
  | String c s' => Cat (Chr c) (Lit s')
  end.

(** [r{n}] *)
Fixpoint Rep (n : nat) (r : regex) : regex :=
  match n with
  | O => Eps
  | S n' => Cat r (Rep n' r)
  end.

(** [r{n,m}] *)
Definition RepRange (n m : nat) (r : regex) : regex :=
  Cat (Rep n r) (Rep (m - n) (Opt r)).

Fixpoint nullable (r : regex) : bool :=
  match r with
  | Void => false
  | Eps => true
  | Range _ _ => false
  | Cat r1 r2 => nullable r1 && nullable r2
  | Alt r1 r2 => nullable r1 || nullable r2
  | Star _ => true
  end.

Definition in_range (lo hi c : ascii) : bool :=
  (nat_of_ascii lo <=? nat_of_ascii c)%nat
  && (nat_of_ascii c <=? nat_of_ascii hi)%nat.

Definition cat (r1 r2 : regex) : regex :=
  match r1, r2 with
  | Void, _ => Void
  | _, Void => Void
  | Eps, _ => r2
  | _, _ => Cat r1 r2
  end.

Definition alt (r1 r2 : regex) : regex :=
  match r1, r2 with
  | Void, _ => r2
  | _, Void => r1
  | _, _ => Alt r1 r2
  end.

(** Brzozowski derivative. *)
Fixpoint deriv (c : ascii) (r : regex) : regex :=
  match r with
  | Void => Void
  | Eps => Void
  | Range lo hi => if in_range lo hi c then Eps else Void
  | Cat r1 r2 =>
      alt (cat (deriv c r1) r2) (if nullable r1 then deriv c r2 else Void)
  | Alt r1 r2 => alt (deriv c r1) (deriv c r2)
  | Star r1 => cat (deriv c r1) (Star r1)
  end.

(** The whole of [s] is in the language of [r]. *)
Fixpoint fullmatch (r : regex) (s : string) : bool :=
  match s with
  | EmptyString => nullable r
  | String c s' => fullmatch (deriv c r) s'
  end.

Definition newline : ascii := Py.chr 10.

(** [re.compile("^r$").match(s)]: in Python [$] also matches just before
    a newline that ends the string. *)
Definition match_ (r : regex) (s : string) : bool :=
  fullmatch r s || fullmatch (Cat r (Chr newline)) s.

(** Longest prefix of characters satisfying [cls], and what follows. *)
Fixpoint span (cls : ascii -> bool) (s : string) : string * string :=
  match s with
  | EmptyString => (EmptyString, EmptyString)
  | String c s' =>
      if cls c
      then let '(run, rest) := span cls s' in (String c run, rest)
      else (EmptyString, s)
  end.

(** [re.search("([cls]+)t", s)], returning [group(1)] of the leftmost
    match, for a terminator [t] outside the class. *)
Fixpoint search_run (cls : ascii -> bool) (t : ascii) (s : string)
  : option string :=
  match s with
  | EmptyString => None
  | String _ s' =>
      match span cls s with
      | (String c run, String b _) =>
          if Ascii.eqb b t then Some (String c run) else search_run cls t s'
      | _ => search_run cls t s'
      end
  end.

End Re.

(* ================================================================== *)
(** * constants.py                                                     *)
(* ================================================================== *)

Section Patterns.
Import Re.

Let AZ := Range "A" "Z".
Let AF := Range "A" "F".
Let D09 := Range "0" "9".
Let AZ09 := Alt AZ D09.
Let AF09 := Alt AF D09.

(** [^A1[A-Z0-9]{5}[A-Z0-9]{10}[A-Z0-9]$] *)
Definition PATTERN_GRID : regex :=
  Cat (Lit "A1") (Cat (Rep 5 AZ09) (Cat (Rep 10 AZ09) AZ09)).

(** [^[A-Z]{2}[A-Z0-9]{3}[0-9]{7}$] *)
Definition PATTERN_ISRC : regex :=
  Cat (Rep 2 AZ) (Cat (Rep 3 AZ09) (Rep 7 D09)).

(** [^[A-F0-9]{12}$] *)
Definition PATTERN_ISAN : regex := Rep 12 AF09.

(** [^[A-F0-9]{24}$] *)
Definition PATTERN_VISAN : regex := Rep 24 AF09.

(** [^[0-9]{12,13}$] *)
Definition PATTERN_ICPN : regex := RepRange 12 13 D09.

(** [^PT(([0-9]+H)?([0-9]+M)?([0-9]+(\.[0-9]+)?S)?)$] *)
Definition PATTERN_DURATION : regex :=
  Cat (Lit "PT")
    (Cat (Opt (Cat (Plus D09) (Chr "H")))
       (Cat (Opt (Cat (Plus D09) (Chr "M")))
          (Opt (Cat (Plus D09)
                  (Cat (Opt (Cat (Chr ".") (Plus D09))) (Chr "S")))))).
End Patterns.

(* ================================================================== *)
(** * models.py                                                        *)
(* ================================================================== *)

Inductive SeverityLevel : Type := ERROR | WARNING | INFO.

#[global] Instance SeverityLevel_eq_dec : EqDecision SeverityLevel.
Proof. solve_decision. Defined.

Record ValidationIssue : Type := mkIssue {
  severity : SeverityLevel;
  message : string;
  line_number : option Z;
  column_number : option Z;
  element_path : option string;
  error_code : option string;
  context : option string;
  suggestion : option string
}.

#[global] Instance ValidationIssue_eq_dec : EqDecision ValidationIssue.
Proof. solve_decision. Defined.

(** [issue.severity = s], the one field the validator assigns to after
    construction. *)
Definition set_severity (s : SeverityLevel) (i : ValidationIssue)
  : ValidationIssue :=
  mkIssue s (message i) (line_number i) (column_number i) (element_path i)
    (error_code i) (context i) (suggestion i).

Record ValidationResult : Type := mkResult {
  is_valid : bool;
  errors : list ValidationIssue;
  warnings : list ValidationIssue;
  info : list ValidationIssue;
  message_type : option string;
  ddex_version : option string;
  validation_time : option Q;
  file_path : option string;
  file_size : option Z
}.

(** [result.file_path = p; result.file_size = n] *)
Definition set_file (p : string) (n : Z) (r : ValidationResult)
  : ValidationResult :=
  mkResult (is_valid r) (errors r) (warnings r) (info r) (message_type r)
    (ddex_version r) (validation_time r) (Some p) (Some n).

(** [ValidationResult.failure(error_message, error_code)] *)
Definition failure (error_message : string) (code : option string)
  : ValidationResult :=
  let error :=
    mkIssue ERROR error_message None None None
      (Some (default "VALIDATION_FAILED" (Py.truthy code))) None None in
  mkResult false [error] [] [] None None None None None.

(* ================================================================== *)
(** * The parsed document                                              *)
(* ================================================================== *)

Local Set Warnings "-register-all".

(** An element as lxml exposes it: its namespace URI and local name (the
    two parts of [.tag]), its attributes, [.text] (the text before the
    first child, [None] when there is none) and its child elements.
    Comments and processing instructions are no elements: no query of
    rules.py selects them and their [.tag] equals no element's. *)
Inductive Element : Type :=
  Elem { ns : option string;
         localname : string;
         attrib : list (string * string);
         text : option string;
         children : list Element }.

(** [element.tag], in lxml's [{uri}local] form. *)
Definition tag (e : Element) : string :=
  match ns e with
  | Some uri => "{" +:+ uri +:+ "}" +:+ localname e
  | None => localname e
  end.

(** [element.get(name)] *)
Fixpoint get (name : string) (attrs : list (string * string)) : option string :=
  match attrs with
  | [] => None
  | (k, v) :: attrs' => if decide (k = name) then Some v else get name attrs'
  end.

(** An element object: child positions from the element up to the root. *)
Definition Handle : Type := list nat.

(** Follow child positions downwards, outermost first. *)
Fixpoint descend (e : Element) (path : list nat) : option Element :=
  match path with
  | [] => Some e
  | i :: path' =>
      match children e !! i with
      | Some c => descend c path'
      | None => None
      end
  end.

Definition deref (root : Element) (h : Handle) : option Element :=
  descend root (rev h).

(** An element object together with the element it denotes. *)
Definition Node : Type := Handle * Element.

(** The elements strictly below [e], in document order, each with its
    handle: what [.//*] selects from [e]. *)
Fixpoint descendants (h : Handle) (e : Element) : list Node :=
  (fix go (cs : list Element) (i : nat) {struct cs} : list Node :=
     match cs with
     | [] => []
     | c :: cs' => (i :: h, c) :: descendants (i :: h) c ++ go cs' (S i)
     end) (children e) 0%nat.

(** [root.xpath(".//N1 | .//*[local-name()='N1'] | ...")]: the union of the
    two forms selects the descendants whose local name is one of the
    names, in document order. *)
Definition xpath_local (names : list string) (h : Handle) (e : Element)
  : list Node :=
  filter (fun n => localname n.2 ∈ names) (descendants h e).

(** [root.xpath(".//*[@A] | .//*[local-name()='N']")] *)
Definition xpath_attr_or_local (a n : string) (h : Handle) (e : Element)
  : list Node :=
  filter (fun x => is_Some (get a (attrib x.2)) \/ localname x.2 = n)
    (descendants h e).

(* ================================================================== *)
(** * rules.py: element paths                                          *)
(* ================================================================== *)

(** [if '}' in tag: tag = tag.split('}')[1]] *)
Definition strip_namespace (t : string) : option string :=
  if Py.contains "}" t then Py.split "}" t !! 1%nat else Some t.

(** [[e for e in parent if e.tag == t]], each child as its position. *)
Definition siblings_with_tag (t : string) (parent : Element) : list nat :=
  (filter (fun jc => tag jc.2 = t) (imap pair (children parent))).*1.

(** [l.index(x)]; [None] stands for [ValueError]. *)
Fixpoint list_index (x : nat) (l : list nat) : option nat :=
  match l with
  | [] => None
  | y :: l' => if decide (y = x) then Some 0%nat else S <$> list_index x l'
  end.

(** The [while current is not None] loop of [_get_element_path].  The
    parent of the element [i :: parent] is [parent], of which it is the
    child at position [i]; the root [[]] has no parent. *)
Fixpoint path_loop (root : Element) (current : Handle)
    (path_parts : list string) : option (list string) :=
  e ← deref root current;
  t ← strip_namespace (tag e);
  match current with
  | [] => Some (t :: path_parts)
  | i :: parent =>
      p ← deref root parent;
      let siblings := siblings_with_tag (tag e) p in
      t' ← (if decide (1 < length siblings)%nat
            then index ← list_index i siblings;
                 Some (t +:+ "[" +:+ Py.str_nat (index + 1) +:+ "]")
            else Some t);
      path_loop root parent (t' :: path_parts)
  end.

Definition _get_element_path (root : Element) (element : Handle)
  : option string :=
  path_parts ← path_loop root element [];
  Some ("/" +:+ Py.join "/" path_parts).

(* ================================================================== *)
(** * rules.py: the checkers                                           *)
(* ================================================================== *)

Section Rules.

(** [datetime.now().year] at the time of the validation. *)
Variable now_year : Z.

(** [sys.get_int_max_str_digits()], or 0 where there is no limit. *)
Variable int_max_str_digits : nat.

(** How Python prints a float inside a message. *)
Variable float_str : Py.pyfloat -> string.

(** The document being validated; every handle is relative to it. *)
Variable root : Element.

Definition path_of (n : Node) : option string := _get_element_path root n.1.

(** [_validate_icpn_checksum], on ASCII text, which is what [check_icpn]
    passes after the pattern test.  (On other text the source counts the
    characters, not the bytes, and its [int] reads every decimal digit of
    Unicode; the properties of this function are stated for ASCII text.)
    [None] inside stands for the [ValueError] or [IndexError] that the
    source turns into [False]. *)
Definition _validate_icpn_checksum (icpn : string) : bool :=
  let digit := fun i => c ← Py.index icpn i; Py.int_char c in
  let result :=
    if decide (String.length icpn = 12%nat) then
      odd_sum ← Py.sum_of digit (Py.range 0 11 2);
      even_sum ← Py.sum_of digit (Py.range 1 11 2);
      let total := odd_sum * 3 + even_sum in
      let check_digit := (10 - total mod 10) mod 10 in
      last ← digit 11%nat;
      Some (bool_decide (check_digit = last))
    else if decide (String.length icpn = 13%nat) then
      odd_sum ← Py.sum_of digit (Py.range 0 12 2);
      even_sum ← Py.sum_of digit (Py.range 1 12 2);
      let total := odd_sum + even_sum * 3 in
      let check_digit := (10 - total mod 10) mod 10 in
      last ← digit 12%nat;
      Some (bool_decide (check_digit = last))
    else Some false in
  default false result.

Definition digit_or_dot (c : ascii) : bool :=
  Py.is_digit c || Ascii.eqb c ".".

(** [_parse_duration_to_seconds], on ASCII text, which is what
    [validate_durations] passes after the pattern test (there the digits
    of the searches are 0 to 9).  On the right, [None] is the [None] of
    the source, also returned when [int] or [float] raises [ValueError];
    on the left is the [OverflowError] that the sum of the last line
    raises, and the function lets through, when the hours and minutes in
    seconds are too large an [int] to meet the float of the seconds. *)
Definition _parse_duration_to_seconds (duration : string)
  : string + option Py.pyfloat :=
  match Py.strip_prefix "PT" duration with
  | None => inr None
  | Some duration =>
      match
        hours ← match Re.search_run Py.is_digit "H" duration with
                | Some g => Py.int_limited int_max_str_digits g
                | None => Some 0
                end;
        minutes ← match Re.search_run Py.is_digit "M" duration with
                  | Some g => Py.int_limited int_max_str_digits g
                  | None => Some 0
                  end;
        seconds ← match Re.search_run digit_or_dot "S" duration with
                  | Some g => Py.float g
                  | None => Some (Py.float_const 0)
                  end;
        Some (hours * 3600 + minutes * 60, seconds)
      with
      | None => inr None
      | Some (whole, seconds) =>
          match Py.float_of_int whole with
          | Some f => inr (Some (Py.float_add f seconds))
          | None => inl "int too large to convert to float"
          end
      end
  end.

Definition check_grid (grid : Node) : list ValidationIssue :=
  match Py.truthy (text grid.2) with
  | Some t =>
      if Re.match_ PATTERN_GRID (Py.strip t) then []
      else [ mkIssue ERROR ("無效的GRid格式: " +:+ t) None None
               (path_of grid) (Some "INVALID_GRID")
               (Some ("GRid值: '" +:+ Py.strip t +:+ "'"))
               (Some "GRid格式應為: A1 + 5個字元 + 10個字元 + 1個字元 (例如: A1B2C3D4E5F6G7H8I9J0K1)") ]
  | None =>
      [ mkIssue ERROR "GRid元素不能為空" None None
          (path_of grid) (Some "EMPTY_GRID") None
          (Some "請提供有效的GRid值") ]
  end.

Definition check_isrc (isrc : Node) : list ValidationIssue :=
  match Py.truthy (text isrc.2) with
  | Some t =>
      let isrc_value := Py.strip t in
      if Re.match_ PATTERN_ISRC isrc_value then
        let year_code := Py.slice 5 7 isrc_value in
        match Py.int year_code with
        | Some year =>
            let current_year := now_year mod 100 in
            if decide (year > current_year + 10) then
              [ mkIssue WARNING ("ISRC年份代碼可能不正確: " +:+ year_code) None None
                  (path_of isrc) (Some "SUSPICIOUS_ISRC_YEAR")
                  (Some ("年份代碼: " +:+ year_code))
                  (Some "請確認ISRC的年份代碼是否正確") ]
            else []
        | None => []
        end
      else
        [ mkIssue ERROR ("無效的ISRC格式: " +:+ isrc_value) None None
            (path_of isrc) (Some "INVALID_ISRC")
            (Some ("ISRC值: '" +:+ isrc_value +:+ "'"))
            (Some "ISRC格式應為: 2個國家代碼 + 3個註冊者代碼 + 7個數字 (例如: USRC17607839)") ]
  | None =>
      [ mkIssue ERROR "ISRC元素不能為空" None None
          (path_of isrc) (Some "EMPTY_ISRC") None
          (Some "請提供有效的ISRC值") ]
  end.

Definition check_isan (isan : Node) : list ValidationIssue :=
  match Py.truthy (text isan.2) with
  | Some t =>
      let isan_value := Py.remove_char "-" (Py.strip t) in
      if Re.match_ PATTERN_ISAN isan_value then []
      else [ mkIssue ERROR ("無效的ISAN格式: " +:+ t) None None
               (path_of isan) (Some "INVALID_ISAN")
               (Some ("ISAN值: '" +:+ Py.strip t +:+ "'"))
               (Some "ISAN格式應為12個十六進制字符 (例如: 0000-3BAB-9352-0000)") ]
  | None => []
  end.

Definition check_visan (visan : Node) : list ValidationIssue :=
  match Py.truthy (text visan.2) with
  | Some t =>
      let visan_value := Py.remove_char "-" (Py.strip t) in
      if Re.match_ PATTERN_VISAN visan_value then []
      else [ mkIssue ERROR ("無效的V-ISAN格式: " +:+ t) None None
               (path_of visan) (Some "INVALID_VISAN")
               (Some ("V-ISAN值: '" +:+ Py.strip t +:+ "'"))
               (Some "V-ISAN格式應為24個十六進制字符") ]
  | None => []
  end.

Definition check_icpn (icpn : Node) : list ValidationIssue :=
  match Py.truthy (text icpn.2) with
  | Some t =>
      let icpn_value := Py.strip t in
      if Re.match_ PATTERN_ICPN icpn_value then
        if _validate_icpn_checksum icpn_value then []
        else [ mkIssue WARNING ("ICPN校驗碼可能不正確: " +:+ icpn_value) None None
                 (path_of icpn) (Some "INVALID_ICPN_CHECKSUM")
                 (Some ("ICPN值: '" +:+ icpn_value +:+ "'"))
                 (Some "請檢查ICPN的校驗碼是否正確") ]
      else
        [ mkIssue ERROR ("無效的ICPN格式: " +:+ icpn_value) None None
            (path_of icpn) (Some "INVALID_ICPN")
            (Some ("ICPN值: '" +:+ icpn_value +:+ "'"))
            (Some "ICPN應為12位數字(UPC)或13位數字(EAN)") ]
  | None => []
  end.

(** [validate_identifiers]: five loops, each appending to [issues] in
    document order. *)
Definition validate_identifiers : list ValidationIssue :=
  flat_map check_grid (xpath_local ["GRid"] [] root)
  ++ flat_map check_isrc (xpath_local ["ISRC"] [] root)
  ++ flat_map check_isan (xpath_local ["ISAN"] [] root)
  ++ flat_map check_visan (xpath_local ["VISAN"] [] root)
  ++ flat_map check_icpn (xpath_local ["ICPN"] [] root).

(** The body of the loop of [validate_durations]: the issues it appends,
    or the exception it lets through. *)
Definition check_duration (duration : Node) : string + list ValidationIssue :=
  match Py.truthy (text duration.2) with
  | Some t =>
      let duration_value := Py.strip t in
      if Re.match_ PATTERN_DURATION duration_value then
        match _parse_duration_to_seconds duration_value with
        | inl str_e => inl str_e
        | inr (Some total_seconds) =>
            if Py.float_lt (Py.float_const 7200) total_seconds then
              inr [ mkIssue WARNING
                      ("時間長度異常長: " +:+ duration_value +:+ " ("
                       +:+ float_str total_seconds +:+ "秒)") None None
                      (path_of duration) (Some "UNUSUALLY_LONG_DURATION")
                      (Some ("總秒數: " +:+ float_str total_seconds))
                      (Some "請確認時間長度是否正確") ]
            else if Py.float_lt total_seconds (Py.float_const 1) then
              inr [ mkIssue WARNING ("時間長度異常短: " +:+ duration_value)
                      None None
                      (path_of duration) (Some "UNUSUALLY_SHORT_DURATION")
                      (Some ("總秒數: " +:+ float_str total_seconds))
                      (Some "請確認時間長度是否正確") ]
            else inr []
        | inr None => inr []
        end
      else
        inr [ mkIssue ERROR ("無效的時間長度格式: " +:+ duration_value) None None
                (path_of duration) (Some "INVALID_DURATION")
                (Some ("Duration值: '" +:+ duration_value +:+ "'"))
                (Some "時間長度格式應為ISO 8601 (例如: PT3M45S 表示3分45秒)") ]
  | None => inr []
  end.

(** A [for] loop whose body may raise: the issues of the elements in
    order, or the first exception, with which the issues are lost. *)
Fixpoint for_each (body : Node -> string + list ValidationIssue)
    (elements : list Node) : string + list ValidationIssue :=
  match elements with
  | [] => inr []
  | element :: rest =>
      match body element with
      | inl str_e => inl str_e
      | inr new =>
          match for_each body rest with
          | inl str_e => inl str_e
          | inr issues => inr (new ++ issues)
          end
      end
  end.

(** [validate_durations] *)
Definition validate_durations : string + list ValidationIssue :=
  for_each check_duration (xpath_local ["Duration"] [] root).

Definition check_release (release : Node) : list ValidationIssue :=
  let has_resources :=
    xpath_local ["ResourceList"; "ResourceGroupList"] release.1 release.2 in
  let has_resource_refs :=
    xpath_local ["ReleaseResourceReference"] release.1 release.2 in
  match has_resources, has_resource_refs with
  | [], [] =>
      [ mkIssue WARNING "Release缺少ResourceList、ResourceGroupList或ReleaseResourceReference"
          None None (path_of release) (Some "MISSING_RESOURCES") None
          (Some "Release應該包含資源引用或資源列表") ]
  | _, _ => []
  end.

Definition check_sound_recording (sr : Node) : list ValidationIssue :=
  match xpath_local ["Duration"] sr.1 sr.2 with
  | [] =>
      [ mkIssue WARNING "SoundRecording建議包含Duration" None None
          (path_of sr) (Some "MISSING_DURATION") None
          (Some "為了更好的用戶體驗，建議為SoundRecording提供Duration") ]
  | _ => []
  end.

Definition check_deal (deal : Node) : list ValidationIssue :=
  match xpath_local ["UseType"] deal.1 deal.2 with
  | [] =>
      [ mkIssue ERROR "Deal缺少UseType" None None
          (path_of deal) (Some "MISSING_USE_TYPE") None
          (Some "每個Deal必須指定UseType") ]
  | _ => []
  end
  ++
  match xpath_local ["TerritoryCode"; "Territory"] deal.1 deal.2 with
  | [] =>
      [ mkIssue ERROR "Deal缺少Territory" None None
          (path_of deal) (Some "MISSING_TERRITORY") None
          (Some "每個Deal必須指定適用的Territory") ]
  | _ => []
  end.

(** The first loop of [_validate_resource_references]:
    [resource_refs.add(ref_elem.text.strip())] for the elements with text. *)
Definition add_ref (resource_refs : gset string) (ref_elem : Node) : gset string :=
  match Py.truthy (text ref_elem.2) with
  | Some t => {[ Py.strip t ]} ∪ resource_refs
  | None => resource_refs
  end.

(** The second loop: [resource_anchors.add(anchor_value)] for the elements
    whose [ResourceReference] attribute is set and not empty. *)
Definition add_anchor (resource_anchors : gset string) (anchor_elem : Node)
  : gset string :=
  match Py.truthy (get "ResourceReference" (attrib anchor_elem.2)) with
  | Some anchor_value => {[ anchor_value ]} ∪ resource_anchors
  | None => resource_anchors
  end.

Definition resource_refs : gset string :=
  fold_left add_ref
    (xpath_local ["ReleaseResourceReference"; "ResourceReference"] [] root) ∅.

Definition resource_anchors : gset string :=
  fold_left add_anchor
    (xpath_attr_or_local "ResourceReference" "ResourceReference" [] root) ∅.

Definition undefined_reference_issue (undefined_ref : string) : ValidationIssue :=
  mkIssue ERROR ("引用了未定義的資源: " +:+ undefined_ref) None None None
    (Some "UNDEFINED_RESOURCE_REFERENCE")
    (Some ("資源引用: " +:+ undefined_ref))
    (Some "請確認資源引用對應的資源已定義").

Definition unused_resource_issue (unused_anchor : string) : ValidationIssue :=
  mkIssue WARNING ("定義了未使用的資源: " +:+ unused_anchor) None None None
    (Some "UNUSED_RESOURCE")
    (Some ("資源錨點: " +:+ unused_anchor))
    (Some "考慮移除未使用的資源定義").

(** [_validate_resource_references].  Python leaves the iteration order of
    a set unspecified; [elements] fixes one. *)
Definition _validate_resource_references : list ValidationIssue :=
  let undefined_refs := resource_refs ∖ resource_anchors in
  let unused_anchors := resource_anchors ∖ resource_refs in
  map undefined_reference_issue (elements undefined_refs)
  ++ map unused_resource_issue (elements unused_anchors).

Definition duplicate_isrc_issue (isrc : Node) (isrc_value : string)
  : ValidationIssue :=
  mkIssue ERROR ("重複的ISRC: " +:+ isrc_value) None None
    (path_of isrc) (Some "DUPLICATE_ISRC")
    (Some ("ISRC值: '" +:+ isrc_value +:+ "'"))
    (Some "每個ISRC在訊息中應該是唯一的").

Definition duplicate_grid_issue (grid : Node) (grid_value : string)
  : ValidationIssue :=
  mkIssue ERROR ("重複的GRid: " +:+ grid_value) None None
    (path_of grid) (Some "DUPLICATE_GRID")
    (Some ("GRid值: '" +:+ grid_value +:+ "'"))
    (Some "每個GRid在訊息中應該是唯一的").

(** One iteration of a loop of [_validate_duplicate_identifiers]: the
    dictionary of the values seen so far and the issues list. *)
Definition duplicate_step (mk : Node -> string -> ValidationIssue)
    (st : gmap string Node * list ValidationIssue) (elem : Node)
  : gmap string Node * list ValidationIssue :=
  match Py.truthy (text elem.2) with
  | Some t =>
      let value := Py.strip t in
      match st.1 !! value with
      | Some _ => (st.1, st.2 ++ [mk elem value])
      | None => (<[value := elem]> st.1, st.2)
      end
  | None => st
  end.

(** [_validate_duplicate_identifiers] *)
Definition _validate_duplicate_identifiers : list ValidationIssue :=
  let issues := [] in
  let issues :=
    (fold_left (duplicate_step duplicate_isrc_issue)
       (xpath_local ["ISRC"] [] root) (∅, issues)).2 in
  let issues :=
    (fold_left (duplicate_step duplicate_grid_issue)
       (xpath_local ["GRid"] [] root) (∅, issues)).2 in
  issues.

(** [validate_business_logic] *)
Definition validate_business_logic : list ValidationIssue :=
  flat_map check_release (xpath_local ["Release"] [] root)
  ++ flat_map check_sound_recording (xpath_local ["SoundRecording"] [] root)
  ++ flat_map check_deal (xpath_local ["Deal"] [] root)
  ++ _validate_resource_references
  ++ _validate_duplicate_identifiers.

End Rules.

(* ================================================================== *)
(** * utils.py and validator.py                                        *)
(* ================================================================== *)

(** What [etree.fromstring(xml_content.encode('utf-8'))] does on a given
    text: it returns the root (with its [nsmap], in iteration order) or
    raises.  The three calls made during one validation read the same
    text and have the same outcome. *)
Inductive ParseOutcome : Type :=
| Parsed (root : Element) (nsmap : list (option string * string))
| XMLSyntaxError (str_e : string)
| ParseException (str_e : string).

(** The loop over [nsmap.items()] of [detect_ddex_version]. *)
Fixpoint version_of_nsmap (nsmap : list (option string * string))
  : option string :=
  match nsmap with
  | [] => None
  | (_, uri) :: nsmap' =>
      if Py.contains "ddex.net/xml/ern" uri then
        if Py.contains "382" uri then Some "3.8.2"
        else if Py.contains "41" uri then Some "4.1"
        else version_of_nsmap nsmap'
      else version_of_nsmap nsmap'
  end.

Definition detect_ddex_version (xml_content : ParseOutcome) : option string :=
  match xml_content with
  | Parsed root nsmap =>
      match version_of_nsmap nsmap with
      | Some v => Some v
      | None => Py.truthy (get "MessageSchemaVersionId" (attrib root))
      end
  | _ => None
  end.

Definition detect_message_type (xml_content : ParseOutcome) : option string :=
  match xml_content with
  | Parsed root _ => strip_namespace (tag root)
  | _ => None
  end.

(** What the lxml fallback of [_validate_schema] meets. *)
Inductive LxmlOutcome : Type :=
| LxmlValid
| LxmlDocumentInvalid (str_e : string) (error_log : list (string * Z * Z))
| LxmlException.

(** What [_validate_schema] meets when it looks for the schema, loads it
    and runs it on the text. *)
Inductive SchemaOutcome : Type :=
| SchemaPathMissing (schema_dir : string)
| SchemaLoadException (str_e schema_path : string)
| SchemaValid
| SchemaException (error_msg : string) (line column : option Z)
    (schema_basename : string)
| SchemaEngineException (str_e schema_basename : string)
    (fallback : LxmlOutcome).

(** The result of one checker: the issues it returns, or the text of the
    exception it raises. *)
Definition Outcome : Type := string + list ValidationIssue.

(** The [try] block of [_validate_business_rules]: the checkers run in
    order and extend [issues]; the first exception ends the block and the
    handler appends one processing error. *)
Fixpoint run_checkers (steps : list Outcome) (issues : list ValidationIssue)
  : list ValidationIssue :=
  match steps with
  | [] => issues
  | inr new :: steps' => run_checkers steps' (issues ++ new)
  | inl str_e :: _ =>
      issues ++
      [ mkIssue ERROR ("業務規則驗證過程中發生錯誤: " +:+ str_e) None None None
          (Some "BUSINESS_RULE_PROCESSING_ERROR") None
          (Some "請檢查XML結構是否符合DDEX規範") ]
  end.

(** One iteration of the loop of [validate_string] that sorts the
    business issues into the three lists. *)
Definition classify (strict_mode : bool)
    (lists : list ValidationIssue * list ValidationIssue * list ValidationIssue)
    (issue : ValidationIssue)
  : list ValidationIssue * list ValidationIssue * list ValidationIssue :=
  let '(errors, warnings, info) := lists in
  match severity issue with
  | ERROR => (errors ++ [issue], warnings, info)
  | WARNING =>
      if strict_mode
      then (errors ++ [set_severity ERROR issue], warnings, info)
      else (errors, warnings ++ [issue], info)
  | INFO => (errors, warnings, info ++ [issue])
  end.

Definition critical_error_codes : list string :=
  ["SCHEMA_NOT_FOUND"; "SCHEMA_LOAD_ERROR"; "XML_SYNTAX_ERROR"; "XML_PARSE_ERROR"].

(** [_has_critical_errors] *)
Definition _has_critical_errors (errors : list ValidationIssue) : bool :=
  existsb (fun error =>
             match error_code error with
             | Some c => bool_decide (c ∈ critical_error_codes)
             | None => false
             end) errors.

(** The fields of [DDEXXMLValidator] that the validation reads; the schema
    location is accounted for by the [SchemaOutcome]. *)
Record DDEXXMLValidator : Type := {
  enable_business_rules : bool;
  strict_mode : bool
}.

(** What reading the file does in [validate_file]. *)
Inductive FileOutcome : Type :=
| FileMissing
| FileRead (file_size : Z) (xml_content : ParseOutcome)
| FileDecodeError (retry : option (Z * ParseOutcome))
| FileException (str_e : string).

Section Validator.

Variable now_year : Z.
Variable int_max_str_digits : nat.
Variable float_str : Py.pyfloat -> string.

(** The other checkers of rules.py, as what they return or raise on a
    document: the assembly of the result does not depend on what they
    are.  They are embedded further down. *)
Variable validate_dates : Element -> Outcome.
Variable validate_territories : Element -> Outcome.
Variable validate_languages : Element -> Outcome.
Variable validate_required_elements : Element -> string -> Outcome.
Variable validate_technical_details : Element -> Outcome.

(** The two text helpers of [_validate_schema]; they only fill the
    [element_path] and [suggestion] fields of a schema error. *)
Variable _extract_element_path : string -> option string.
Variable _generate_suggestion : string -> option string.

Definition schema_error (msg : string) (line column : option Z)
    (path : option string) (basename : string) (sug : option string)
  : ValidationIssue :=
  mkIssue ERROR ("XSD驗證失敗: " +:+ msg) line column path
    (Some "SCHEMA_VALIDATION_ERROR") (Some ("使用XSD: " +:+ basename)) sug.

(** [_validate_schema]; in a message Python prints a missing version as
    [None]. *)
Definition _validate_schema (ddex_version : option string) (o : SchemaOutcome)
  : list ValidationIssue :=
  match o with
  | SchemaPathMissing schema_dir =>
      [ mkIssue ERROR ("找不到DDEX版本 " +:+ default "None" ddex_version
                       +:+ " 的XSD檔案") None None None
          (Some "SCHEMA_NOT_FOUND") (Some ("搜尋路徑: " +:+ schema_dir))
          (Some "請確認XSD檔案存在於正確的目錄中，或使用 -Schema 參數指定XSD檔案路徑") ]
  | SchemaLoadException str_e schema_path =>
      [ mkIssue ERROR ("載入XSD檔案失敗: " +:+ str_e) None None None
          (Some "SCHEMA_LOAD_ERROR") (Some ("XSD路徑: " +:+ schema_path))
          (Some "請檢查XSD檔案是否存在且格式正確") ]
  | SchemaValid => []
  | SchemaException error_msg line column basename =>
      [ schema_error error_msg line column (_extract_element_path error_msg)
          basename (_generate_suggestion error_msg) ]
  | SchemaEngineException str_e basename fallback =>
      match fallback with
      | LxmlValid => []
      | LxmlDocumentInvalid str_lxml [] =>
          [ schema_error str_lxml None None None basename None ]
      | LxmlDocumentInvalid _ error_log =>
          map (fun entry : string * Z * Z =>
                 let '(msg, line, column) := entry in
                 schema_error msg (Some line) (Some column) None basename
                   (_generate_suggestion msg)) error_log
      | LxmlException => [ schema_error str_e None None None basename None ]
      end
  end.

(** [_validate_business_rules] *)
Definition _validate_business_rules (root : Element)
    (message_type : option string) : list ValidationIssue :=
  run_checkers
    ([ inr (validate_identifiers now_year root);
       validate_durations int_max_str_digits float_str root;
       validate_dates root;
       validate_territories root;
       validate_languages root ]
     ++ match Py.truthy message_type with
        | Some mt => [ validate_required_elements root mt ]
        | None => []
        end
     ++ [ inr (validate_business_logic root);
          validate_technical_details root ])
    [].

Definition version_info (ddex_version : string) : ValidationIssue :=
  mkIssue INFO ("檢測到DDEX版本: " +:+ ddex_version) None None None
    (Some "DDEX_VERSION_DETECTED") None None.

Definition message_type_info (message_type : string) : ValidationIssue :=
  mkIssue INFO ("檢測到訊息類型: " +:+ message_type) None None None
    (Some "MESSAGE_TYPE_DETECTED") None None.

(** [validate_string], on a text given by what parsing it yields, with the
    outcome of the schema step and the time the call takes.  The handler
    that reports [BUSINESS_RULE_ERROR] is not reached:
    [_validate_business_rules] catches what its checkers raise. *)
Definition validate_string (self : DDEXXMLValidator)
    (xml_content : ParseOutcome) (schema : SchemaOutcome) (elapsed : Q)
    (enable : option bool) : ValidationResult :=
  let use_business_rules :=
    match enable with
    | Some b => b
    | None => enable_business_rules self
    end in
  let ddex_version := detect_ddex_version xml_content in
  let message_type := detect_message_type xml_content in
  match xml_content with
  | XMLSyntaxError str_e =>
      failure ("XML語法錯誤: " +:+ str_e) (Some "XML_SYNTAX_ERROR")
  | ParseException str_e =>
      failure ("XML解析失敗: " +:+ str_e) (Some "XML_PARSE_ERROR")
  | Parsed root _ =>
      let schema_errors := _validate_schema ddex_version schema in
      let errors := [] ++ schema_errors in
      let '(errors, warnings, info) :=
        if use_business_rules && negb (_has_critical_errors schema_errors)
        then fold_left (classify (strict_mode self))
               (_validate_business_rules root message_type) (errors, [], [])
        else (errors, [], []) in
      let info :=
        match Py.truthy ddex_version with
        | Some v => info ++ [version_info v]
        | None => info
        end in
      let info :=
        match Py.truthy message_type with
        | Some mt => info ++ [message_type_info mt]
        | None => info
        end in
      mkResult (bool_decide (length errors = 0%nat)) errors warnings info
        message_type ddex_version (Some elapsed) None None
  end.

(** [validate_file], on a path given by what reading it yields. *)
Definition validate_file (self : DDEXXMLValidator) (xml_file_path : string)
    (file : FileOutcome) (schema : SchemaOutcome) (elapsed : Q)
    (enable : option bool) : ValidationResult :=
  match file with
  | FileMissing =>
      failure ("檔案不存在: " +:+ xml_file_path) (Some "FILE_NOT_FOUND")
  | FileRead file_size xml_content =>
      set_file xml_file_path file_size
        (validate_string self xml_content schema elapsed enable)
  | FileDecodeError (Some (file_size, xml_content)) =>
      set_file xml_file_path file_size
        (validate_string self xml_content schema elapsed enable)
  | FileDecodeError None =>
      failure ("無法讀取檔案，編碼錯誤: " +:+ xml_file_path)
        (Some "FILE_ENCODING_ERROR")
  | FileException str_e =>
      failure ("讀取檔案時發生錯誤: " +:+ str_e) (Some "FILE_READ_ERROR")
  end.

End Validator.

(* ================================================================== *)
(** * The result assembly in closed form                               *)
(* ================================================================== *)

(** What strict mode puts into [errors] for a list of business issues. *)
Definition promoted (l : list ValidationIssue) : list ValidationIssue :=
  flat_map (fun i => match severity i with
                     | ERROR => [i]
                     | WARNING => [set_severity ERROR i]
                     | INFO => []
                     end) l.

Definition with_severity (s : SeverityLevel) (l : list ValidationIssue)
  : list ValidationIssue :=
  filter (fun i => severity i = s) l.

(** The detection notices [validate_string] appends for a parsed text. *)
Definition detection_info (xml_content : ParseOutcome) : list ValidationIssue :=
  match Py.truthy (detect_ddex_version xml_content) with
  | Some v => [version_info v]
  | None => []
  end
  ++
  match Py.truthy (detect_message_type xml_content) with
  | Some mt => [message_type_info mt]
  | None => []
  end.

(** The shape the specification gives to the result of a step that is
    fatal to the call: one error, not valid, no warning and no info. *)
Definition single_error_result (code : string) (r : ValidationResult) : Prop :=
  (exists e, errors r = [e] /\ severity e = ERROR /\ error_code e = Some code)
  /\ is_valid r = false
  /\ warnings r = []
  /\ info r = [].

(** The shape of the result when the schema is not found or cannot be
    loaded: one error, not valid, no warning; the info list holds the
    detection notices. *)
Definition schema_failure_result (code : string) (xml_content : ParseOutcome)
    (r : ValidationResult) : Prop :=
  (exists e, errors r = [e] /\ severity e = ERROR /\ error_code e = Some code)
  /\ is_valid r = false
  /\ warnings r = []
  /\ info r = detection_info xml_content.

(** The elements below the children [cs] of the element [h], the first
    child being at position [i]: the unfolding of [descendants]. *)
Fixpoint forest (h : Handle) (cs : list Element) (i : nat) : list Node :=
  match cs with
  | [] => []
  | c :: cs' => (i :: h, c) :: descendants (i :: h) c ++ forest h cs' (S i)
  end.

(* ================================================================== *)
(** * The element path as the specification words it                   *)
(* ================================================================== *)

(** How many of the elements [cs] carry the tag [t]. *)
Definition same_tag_count (t : string) (cs : list Element) : nat :=
  length (filter (fun c => tag c = t) cs).

(** The path segment of the child [c] at position [i] of [parent]: its
    local name, followed by [[n]] when the parent has more than one child
    with the tag of [c], [n] counting these children from 1 up to [c]. *)
Definition segment (parent : Element) (i : nat) (c : Element) : string :=
  if decide (1 < same_tag_count (tag c) (children parent))%nat
  then localname c +:+ "["
       +:+ Py.str_nat (same_tag_count (tag c) (take (S i) (children parent)))
       +:+ "]"
  else localname c.

(** The segments met when walking down from [e] along child positions. *)
Fixpoint segments (e : Element) (path : list nat) : list string :=
  match path with
  | [] => []
  | i :: path' =>
      match children e !! i with
      | Some c => segment e i c :: segments c path'
      | None => []
      end
  end.

(** The path of the element [h]: a slash before every segment, from the
    root (which has no siblings, hence no suffix) down to the element. *)
Definition path_spec (root : Element) (h : Handle) : string :=
  "/" +:+ Py.join "/" (localname root :: segments root (rev h)).

(** No closing brace inside a namespace URI or a local name, so that
    [{uri}local] splits in one way only. *)
Definition wf_name (e : Element) : bool :=
  negb (Py.contains "}" (localname e))
  && match ns e with
     | Some uri => negb (Py.contains "}" uri)
     | None => true
     end.

Fixpoint wf_tree (e : Element) : bool :=
  wf_name e && forallb wf_tree (children e).

(* ================================================================== *)
(** * Vocabulary of the properties of the cross-document checks        *)
(* ================================================================== *)

(** The value the loops of rules.py read from an element: its text with
    the surrounding whitespace removed, when the text is set and not
    empty. *)
Definition value_of (n : Node) : option string :=
  Py.strip <$> Py.truthy (text n.2).


(** A [DUPLICATE_ISRC] error reported for the value [v]. *)
Definition is_duplicate_isrc (v : string) (i : ValidationIssue) : Prop :=
  severity i = ERROR
  /\ error_code i = Some "DUPLICATE_ISRC"
  /\ context i = Some ("ISRC值: '" +:+ v +:+ "'").

#[global] Instance is_duplicate_isrc_dec v i : Decision (is_duplicate_isrc v i).
Proof. unfold is_duplicate_isrc. apply _. Defined.

(** The values referenced by the document: the values of its
    [ReleaseResourceReference] and [ResourceReference] elements. *)
Definition referenced (root : Element) (v : string) : Prop :=
  Exists (fun n => value_of n = Some v)
    (xpath_local ["ReleaseResourceReference"; "ResourceReference"] [] root).

(** The values defined by the document: the [ResourceReference]
    attributes, set and not empty, of the elements below the root. *)
Definition defined (root : Element) (v : string) : Prop :=
  Exists (fun n => Py.truthy (get "ResourceReference" (attrib n.2)) = Some v)
    (descendants [] root).

(** An [UNDEFINED_RESOURCE_REFERENCE] error reported for the value [v]. *)
Definition is_undefined_reference (v : string) (i : ValidationIssue) : Prop :=
  severity i = ERROR
  /\ error_code i = Some "UNDEFINED_RESOURCE_REFERENCE"
  /\ context i = Some ("資源引用: " +:+ v).

(** An [UNUSED_RESOURCE] warning reported for the value [v]. *)
Definition is_unused_resource (v : string) (i : ValidationIssue) : Prop :=
  severity i = WARNING
  /\ error_code i = Some "UNUSED_RESOURCE"
  /\ context i = Some ("資源錨點: " +:+ v).

#[global] Instance is_undefined_reference_dec v i :
  Decision (is_undefined_reference v i).
Proof. unfold is_undefined_reference. apply _. Defined.

#[global] Instance is_unused_resource_dec v i :
  Decision (is_unused_resource v i).
Proof. unfold is_unused_resource. apply _. Defined.

(* ================================================================== *)
(** * The ICPN check digit as the specification words it               *)
(* ================================================================== *)

(** The digit at position [i] (counted from 0) of a string of digits. *)
Definition digit_at (s : string) (i : nat) : Z :=
  default 0 (c ← Py.index s i; Py.int_char c).

(** The sum of the digits at the given positions. *)
Definition digits_sum (s : string) (positions : list nat) : Z :=
  foldr (fun i acc => digit_at s i + acc) 0 positions.

(** For 12 digits: weight 3 on the even positions 0 to 10, weight 1 on
    the odd positions 1 to 9. *)
Definition upc_check_digit (s : string) : Z :=
  (10 - (3 * digits_sum s [0; 2; 4; 6; 8; 10]%nat
         + digits_sum s [1; 3; 5; 7; 9]%nat) mod 10) mod 10.

(** For 13 digits: weight 1 on the even positions, weight 3 on the odd
    positions, over positions 0 to 11. *)
Definition ean_check_digit (s : string) : Z :=
  (10 - (digits_sum s [0; 2; 4; 6; 8; 10]%nat
         + 3 * digits_sum s [1; 3; 5; 7; 9; 11]%nat) mod 10) mod 10.

Fixpoint all_digits (s : string) : bool :=
  match s with
  | EmptyString => true
  | String c s' => Py.is_digit c && all_digits s'
  end.

(* ================================================================== *)
(** * Sample documents                                                 *)
(* ================================================================== *)

Definition leaf (n : string) (t : option string) : Element := Elem None n [] t [].

(** Two sound recordings with the same ISRC, in the ERN namespace. *)
Definition two_recordings_doc : Element :=
  Elem (Some "http://ddex.net/xml/ern/382") "NewReleaseMessage" [] None
    [ Elem None "ResourceList" [] None
        [ Elem None "SoundRecording" [] None [leaf "ISRC" (Some "USRC17607839")];
          Elem None "Video" [] None [];
          Elem None "SoundRecording" [] None [leaf "ISRC" (Some "USRC17607839")] ] ].

(** Resources [A1] and [A2] defined, [A1] and [A3] referenced, and one
    ISRC value three times. *)
Definition references_doc : Element :=
  Elem None "NewReleaseMessage" [] None
    [ Elem None "SoundRecording" [("ResourceReference", "A1")] None
        [leaf "ISRC" (Some "USRC17607839"); leaf "ISRC" (Some " USRC17607839 ")];
      Elem None "SoundRecording" [("ResourceReference", "A2")] None
        [leaf "ISRC" (Some "USRC17607839")];
      Elem None "Release" [] None
        [leaf "ReleaseResourceReference" (Some "A1");
         leaf "ReleaseResourceReference" (Some "A3")] ].

(** The scenarios of the specification on identifiers and durations. *)
Definition scenario_doc (name text_ : string) : Element :=
  Elem None "NewReleaseMessage" [] None
    [ Elem None "SoundRecording" [] None [leaf name (Some text_)] ].

(** A document whose identifier elements are all empty. *)
Definition empty_identifiers_doc : Element :=
  Elem None "Release" [] None
    [ leaf "GRid" None; leaf "ISRC" None; leaf "ISAN" None;
      leaf "VISAN" None; leaf "ICPN" None ].

(** A document with one ICPN whose check digit is wrong and one
    duration without components. *)
Definition sample_release : Element :=
  Elem None "Release" [] None
    [ leaf "ICPN" (Some "036000291453"); leaf "Duration" (Some "PT") ].

(** A document that is only a root element. *)
Definition bare_message : ParseOutcome :=
  Parsed (Elem None "NewReleaseMessage" [] None []) [].

(** Checkers that find nothing, to run the validator on sample inputs. *)
Definition no_issue : Element -> Outcome := fun _ => inr [].

Definition no_required_issue : Element -> string -> Outcome := fun _ _ => inr [].

Definition no_text : string -> option string := fun _ => None.

(** The validator on sample inputs: the year 2026, a float printer that
    prints nothing and the checkers above. *)
Definition sample_validate_string :=
  validate_string 2026 4300 (fun _ => "") no_issue no_issue no_issue
    no_required_issue no_issue no_text no_text.

(* ================================================================== *)
(** * Further vocabulary for the cross-document checks                 *)
(* ================================================================== *)


(** A [DUPLICATE_GRID] error reported for the value [v]. *)
Definition is_duplicate_grid (v : string) (i : ValidationIssue) : Prop :=
  severity i = ERROR
  /\ error_code i = Some "DUPLICATE_GRID"
  /\ context i = Some ("GRid值: '" +:+ v +:+ "'").

#[global] Instance is_duplicate_grid_dec v i : Decision (is_duplicate_grid v i).
Proof. unfold is_duplicate_grid. apply _. Defined.


(** The error [_validate_business_rules] appends when a checker raises. *)
Definition processing_error (str_e : string) : ValidationIssue :=
  mkIssue ERROR ("業務規則驗證過程中發生錯誤: " +:+ str_e) None None None
    (Some "BUSINESS_RULE_PROCESSING_ERROR") None
    (Some "請檢查XML結構是否符合DDEX規範").

(** The schema outcomes for which no schema file could be used. *)
Definition schema_unavailable (o : SchemaOutcome) : bool :=
  match o with
  | SchemaPathMissing _ | SchemaLoadException _ _ => true
  | _ => false
  end.

(* ================================================================== *)
(** * What the patterns accept                                         *)
(* ================================================================== *)

(** The language of a regular expression. *)
Inductive lang : Re.regex -> string -> Prop :=
| lang_eps : lang Re.Eps ""
| lang_range lo hi c :
    Re.in_range lo hi c = true -> lang (Re.Range lo hi) (String c "")
| lang_cat r1 r2 s1 s2 :
    lang r1 s1 -> lang r2 s2 -> lang (Re.Cat r1 r2) (s1 +:+ s2)
| lang_alt_l r1 r2 s : lang r1 s -> lang (Re.Alt r1 r2) s
| lang_alt_r r1 r2 s : lang r2 s -> lang (Re.Alt r1 r2) s
| lang_star_nil r : lang (Re.Star r) ""
| lang_star_cons r s1 s2 :
    lang r s1 -> lang (Re.Star r) s2 -> lang (Re.Star r) (s1 +:+ s2).

Definition is_upper (c : ascii) : bool := Re.in_range "A" "Z" c.
Definition is_lower (c : ascii) : bool := Re.in_range "a" "z" c.
Definition is_upper_or_digit (c : ascii) : bool := is_upper c || Py.is_digit c.
Definition is_hex_upper (c : ascii) : bool := Re.in_range "A" "F" c || Py.is_digit c.
Definition is_char (a c : ascii) : bool := Re.in_range a a c.

(** The classes of the characters of a fixed text. *)
Fixpoint literal (w : string) : list (ascii -> bool) :=
  match w with
  | EmptyString => []
  | String a w' => is_char a :: literal w'
  end.

(** The text has as many characters as there are classes and each
    character is in the class at its position. *)
Fixpoint classes_match (cls : list (ascii -> bool)) (s : string) : bool :=
  match cls, s with
  | [], EmptyString => true
  | f :: cls', String c s' => f c && classes_match cls' s'
  | _, _ => false
  end.

(** The text has one of the given shapes. *)
Definition shape_matches (shapes : list (list (ascii -> bool))) (s : string)
  : bool :=
  existsb (fun cls => classes_match cls s) shapes.

(** The same, or one of the shapes followed by a line feed: Python's [$]
    also accepts a line feed that ends the text. *)
Definition line_matches (shapes : list (list (ascii -> bool))) (s : string)
  : bool :=
  shape_matches shapes s
  || shape_matches (map (fun cls => cls ++ [is_char Re.newline]) shapes) s.

(** A regular expression that stands for one character: its class. *)
Fixpoint char_class (r : Re.regex) : option (ascii -> bool) :=
  match r with
  | Re.Range lo hi => Some (Re.in_range lo hi)
  | Re.Alt r1 r2 =>
      match char_class r1, char_class r2 with
      | Some f1, Some f2 => Some (fun c => f1 c || f2 c)
      | _, _ => None
      end
  | _ => None
  end.

(** The shapes of a regular expression without repetition. *)
Fixpoint shapes_of (r : Re.regex) : option (list (list (ascii -> bool))) :=
  match char_class r with
  | Some f => Some [[f]]
  | None =>
      match r with
      | Re.Eps => Some [[]]
      | Re.Cat r1 r2 =>
          match shapes_of r1, shapes_of r2 with
          | Some l1, Some l2 =>
              Some (flat_map (fun a => map (fun b => a ++ b) l2) l1)
          | _, _ => None
          end
      | Re.Alt r1 r2 =>
          match shapes_of r1, shapes_of r2 with
          | Some l1, Some l2 => Some (l1 ++ l2)
          | _, _ => None
          end
      | _ => None
      end
  end.

(* ================================================================== *)
(** * constants.py: the patterns of dates and codes                    *)
(* ================================================================== *)

Section CodePatterns.
Import Re.

Let AZ := Range "A" "Z".
Let az := Range "a" "z".
Let D09 := Range "0" "9".

(** [^[0-9]{4}(-[0-9]{2}(-[0-9]{2})?)?$] *)
Definition PATTERN_DATE : regex :=
  Cat (Rep 4 D09)
    (Opt (Cat (Chr "-")
            (Cat (Rep 2 D09) (Opt (Cat (Chr "-") (Rep 2 D09)))))).

(** [^[0-9]{4}-[0-9]{2}-[0-9]{2}T[0-9]{2}:[0-9]{2}:[0-9]{2}(\.[0-9]+)?(Z|[+-][0-9]{2}:[0-9]{2})$] *)
Definition PATTERN_DATETIME : regex :=
  Cat (Rep 4 D09)
    (Cat (Chr "-") (Cat (Rep 2 D09) (Cat (Chr "-") (Cat (Rep 2 D09)
    (Cat (Chr "T") (Cat (Rep 2 D09) (Cat (Chr ":") (Cat (Rep 2 D09)
    (Cat (Chr ":") (Cat (Rep 2 D09)
    (Cat (Opt (Cat (Chr ".") (Plus D09)))
       (Alt (Chr "Z")
          (Cat (Alt (Chr "+") (Chr "-"))
             (Cat (Rep 2 D09) (Cat (Chr ":") (Rep 2 D09)))))))))))))))).

(** [^[A-Z]{2}$|^Worldwide$] *)
Definition PATTERN_TERRITORY : regex := Alt (Rep 2 AZ) (Lit "Worldwide").

(** [^[a-z]{2,3}(-[A-Z]{2})?$] *)
Definition PATTERN_LANGUAGE : regex :=
  Cat (RepRange 2 3 az) (Opt (Cat (Chr "-") (Rep 2 AZ))).
End CodePatterns.

(* ================================================================== *)
(** * rules.py: dates, territories, languages, required elements       *)
(* ================================================================== *)

(** A calendar date: year, month, day. *)
Definition date : Type := Z * Z * Z.

Definition is_leap (y : Z) : bool :=
  (y mod 4 =? 0) && (negb (y mod 100 =? 0) || (y mod 400 =? 0)).

Definition days_in_month (y m : Z) : Z :=
  if m =? 2 then (if is_leap y then 29 else 28)
  else if (m =? 4) || (m =? 6) || (m =? 9) || (m =? 11) then 30
  else 31.

(** [datetime(y, m, d)]; [None] stands for [ValueError]. *)
Definition datetime (y m d : Z) : option date :=
  if (1 <=? y) && (y <=? 9999) && (1 <=? m) && (m <=? 12)
     && (1 <=? d) && (d <=? days_in_month y m)
  then Some (y, m, d) else None.

(** The day field of [%d] in a text of 10 characters: two digits, or a
    space and a digit that is not 0. *)
Definition day_field (s : string) : option Z :=
  if decide (Py.slice 8 9 s = " ") then
    d ← Py.int (Py.slice 9 10 s);
    if decide (d = 0) then None else Some d
  else Py.int (Py.slice 8 10 s).

(** [datetime.strptime(s, fmt)] for the formats [%Y], [%Y-%m] and
    [%Y-%m-%d] ([fields] is 1, 2 or 3), on ASCII text of 4, 7 or 10
    characters, which is what the caller passes: a year of four digits,
    a month of two, a day of two digits or of a space and a digit; any
    other field, a separator that is not a dash, a month or a day out of
    range all raise [ValueError]. *)
Definition strptime (fields : nat) (s : string) : option date :=
  y ← Py.int (Py.slice 0 4 s);
  match fields with
  | 1%nat => datetime y 1 1
  | 2%nat =>
      if decide (Py.slice 4 5 s = "-") then
        m ← Py.int (Py.slice 5 7 s); datetime y m 1
      else None
  | _ =>
      if decide (Py.slice 4 5 s = "-" /\ Py.slice 7 8 s = "-") then
        m ← Py.int (Py.slice 5 7 s);
        d ← day_field s;
        datetime y m d
      else None
  end.

(** [a > b] on dates. *)
Definition date_gt (a b : date) : bool :=
  let '(y1, m1, d1) := a in
  let '(y2, m2, d2) := b in
  (y2 <? y1) || ((y1 =? y2) && ((m2 <? m1) || ((m1 =? m2) && (d2 <? d1)))).

(** [tag.split('}')[-1] if '}' in tag else tag] *)
Definition tag_name_of (t : string) : string :=
  if Py.contains "}" t then List.last (Py.split "}" t) "" else t.

Section DateAndCodeRules.

(** [datetime.now().date()] at the time of the validation. *)
Variable today : date.

Variable root : Element.

(** [_is_future_date] *)
Definition _is_future_date (date_str : string) : bool :=
  let date_obj :=
    if decide (String.length date_str = 4%nat) then strptime 1 date_str
    else if decide (String.length date_str = 7%nat) then strptime 2 date_str
    else if decide (String.length date_str = 10%nat) then strptime 3 date_str
    else None in
  match date_obj with
  | Some d => date_gt d today
  | None => false
  end.

Definition check_date (date_elem : Node) : list ValidationIssue :=
  match Py.truthy (text date_elem.2) with
  | Some t =>
      let date_value := Py.strip t in
      if Re.match_ PATTERN_DATE date_value then
        if _is_future_date date_value then
          let tag_name := tag_name_of (tag date_elem.2) in
          if decide (tag_name ∈ ["CreationDate"; "OriginalReleaseDate"]) then
            [ mkIssue WARNING (tag_name +:+ "是未來日期: " +:+ date_value)
                None None (path_of root date_elem) (Some "FUTURE_DATE")
                (Some ("日期值: '" +:+ date_value +:+ "'"))
                (Some "請確認日期是否正確") ]
          else []
        else []
      else
        [ mkIssue ERROR ("無效的日期格式: " +:+ date_value) None None
            (path_of root date_elem) (Some "INVALID_DATE")
            (Some ("日期值: '" +:+ date_value +:+ "'"))
            (Some "日期格式應為YYYY-MM-DD或YYYY-MM或YYYY") ]
  | None => []
  end.

Definition check_datetime (dt_elem : Node) : list ValidationIssue :=
  match Py.truthy (text dt_elem.2) with
  | Some t =>
      let dt_value := Py.strip t in
      if Re.match_ PATTERN_DATETIME dt_value then []
      else
        [ mkIssue ERROR ("無效的日期時間格式: " +:+ dt_value) None None
            (path_of root dt_elem) (Some "INVALID_DATETIME")
            (Some ("DateTime值: '" +:+ dt_value +:+ "'"))
            (Some "日期時間格式應為ISO 8601 (例如: 2024-01-15T10:30:00Z)") ]
  | None => []
  end.

(** [validate_dates] *)
Definition validate_dates : list ValidationIssue :=
  flat_map check_date
    (xpath_local ["ReleaseDate"; "OriginalReleaseDate"; "CreationDate";
                  "StartDate"; "EndDate"] [] root)
  ++ flat_map check_datetime (xpath_local ["MessageCreatedDateTime"] [] root).

Definition check_territory (territory : Node) : list ValidationIssue :=
  match Py.truthy (text territory.2) with
  | Some t =>
      let territory_value := Py.strip t in
      if Re.match_ PATTERN_TERRITORY territory_value then []
      else
        [ mkIssue WARNING ("可能無效的地區代碼: " +:+ territory_value) None None
            (path_of root territory) (Some "INVALID_TERRITORY")
            (Some ("地區代碼: '" +:+ territory_value +:+ "'"))
            (Some "地區代碼應為ISO 3166-1 Alpha-2格式或'Worldwide'") ]
  | None => []
  end.

(** [validate_territories] *)
Definition validate_territories : list ValidationIssue :=
  flat_map check_territory (xpath_local ["Territory"; "TerritoryCode"] [] root).

Definition check_language (lang_elem : Node) : list ValidationIssue :=
  match Py.truthy (text lang_elem.2) with
  | Some t =>
      let lang_value := Py.strip t in
      if Re.match_ PATTERN_LANGUAGE lang_value then []
      else
        [ mkIssue WARNING ("可能無效的語言代碼: " +:+ lang_value) None None
            (path_of root lang_elem) (Some "INVALID_LANGUAGE")
            (Some ("語言代碼: '" +:+ lang_value +:+ "'"))
            (Some "語言代碼應為ISO 639-1或ISO 639-2格式") ]
  | None => []
  end.

(** [validate_languages] *)
Definition validate_languages : list ValidationIssue :=
  flat_map check_language
    (xpath_local ["LanguageOfPerformance"; "LanguageOfDubbing";
                  "LanguageOfSubtitles"] [] root).

Definition missing_message_header (message_type : string) : ValidationIssue :=
  mkIssue ERROR "缺少必要的MessageHeader元素" None None None
    (Some "MISSING_MESSAGE_HEADER") None
    (Some (message_type +:+ "必須包含MessageHeader元素")).

Definition required_header_elements : list string :=
  [ "MessageThreadId"; "MessageId"; "MessageSender"; "MessageRecipient";
    "MessageCreatedDateTime" ].

(** One turn of the loop over [required_header_elements]. *)
Definition check_header_element (header : Node) (req_elem : string)
  : list ValidationIssue :=
  match xpath_local [req_elem] header.1 header.2 with
  | [] =>
      [ mkIssue ERROR ("MessageHeader缺少必要元素: " +:+ req_elem) None None
          (Some "MessageHeader") (Some "MISSING_HEADER_ELEMENT")
          (Some ("缺少元素: " +:+ req_elem))
          (Some ("請在MessageHeader中添加" +:+ req_elem +:+ "元素")) ]
  | _ => []
  end.

(** [validate_required_elements] *)
Definition validate_required_elements (message_type : string)
  : list ValidationIssue :=
  if decide (message_type = "NewReleaseMessage") then
    match xpath_local ["MessageHeader"] [] root with
    | [] => [ missing_message_header "NewReleaseMessage" ]
    | header :: _ => flat_map (check_header_element header) required_header_elements
    end
    ++ match xpath_local ["ReleaseList"] [] root with
       | [] =>
           [ mkIssue ERROR "缺少必要的ReleaseList元素" None None None
               (Some "MISSING_RELEASE_LIST") None
               (Some "NewReleaseMessage必須包含ReleaseList元素") ]
       | _ => []
       end
    ++ match xpath_local ["ResourceList"] [] root with
       | [] =>
           [ mkIssue WARNING "建議包含ResourceList元素" None None None
               (Some "MISSING_RESOURCE_LIST") None
               (Some "通常NewReleaseMessage應該包含ResourceList元素") ]
       | _ => []
       end
  else if decide (message_type = "CatalogListMessage") then
    match xpath_local ["MessageHeader"] [] root with
    | [] => [ missing_message_header "CatalogListMessage" ]
    | _ => []
    end
  else [].

End DateAndCodeRules.

(* ================================================================== *)
(** * rules.py: technical details                                      *)
(* ================================================================== *)

Section TechnicalDetails.

Variable float_str : Py.pyfloat -> string.

(** [float(text)] on the text of a BitRate element, which may be any
    text; [None] stands for [ValueError]. *)
Variable float_of_text : string -> option Py.pyfloat.

Variable root : Element.

Definition check_bitrate (bitrate : Node) : list ValidationIssue :=
  match Py.truthy (text bitrate.2) with
  | Some t =>
      match float_of_text t with
      | Some br_value =>
          if Py.float_lt br_value (Py.float_const 64)
             || Py.float_lt (Py.float_const 320) br_value
          then
            [ mkIssue WARNING ("音頻BitRate可能不合理: " +:+ float_str br_value)
                None None (path_of root bitrate) (Some "UNUSUAL_BITRATE")
                (Some ("BitRate值: " +:+ float_str br_value))
                (Some "音頻BitRate通常在64-320 kbps範圍內") ]
          else []
      | None =>
          [ mkIssue ERROR ("無效的BitRate值: " +:+ t) None None
              (path_of root bitrate) (Some "INVALID_BITRATE") None
              (Some "BitRate應為數字值") ]
      end
  | None => []
  end.

(** [validate_technical_details] *)
Definition validate_technical_details : list ValidationIssue :=
  flat_map
    (fun details =>
       flat_map check_bitrate (xpath_local ["BitRate"] details.1 details.2))
    (xpath_local ["TechnicalSoundRecordingDetails"] [] root).

End TechnicalDetails.

(* ================================================================== *)
(** * validator.py with the checkers of rules.py                       *)
(* ================================================================== *)

Section WholeValidator.

Variable now_year : Z.
Variable today : date.
Variable int_max_str_digits : nat.
Variable float_str : Py.pyfloat -> string.
Variable float_of_text : string -> option Py.pyfloat.
Variables _extract_element_path _generate_suggestion : string -> option string.

(** [_validate_business_rules] with every checker of rules.py in its
    place; of these, only [validate_durations] can raise. *)
Definition business_rules (root : Element) (message_type : option string)
  : list ValidationIssue :=
  _validate_business_rules now_year int_max_str_digits float_str
    (fun root => inr (validate_dates today root))
    (fun root => inr (validate_territories root))
    (fun root => inr (validate_languages root))
    (fun root mt => inr (validate_required_elements root mt))
    (fun root => inr (validate_technical_details float_str float_of_text root))
    root message_type.

(** [validate_string] with every checker of rules.py in its place. *)
Definition validate_string_with_rules : DDEXXMLValidator -> ParseOutcome ->
    SchemaOutcome -> Q -> option bool -> ValidationResult :=
  validate_string now_year int_max_str_digits float_str
    (fun root => inr (validate_dates today root))
    (fun root => inr (validate_territories root))
    (fun root => inr (validate_languages root))
    (fun root mt => inr (validate_required_elements root mt))
    (fun root => inr (validate_technical_details float_str float_of_text root))
    _extract_element_path _generate_suggestion.

End WholeValidator.

(** The validator with its rules on sample inputs: 4 November 2026, the
    default limit on the digits of an [int], a float printer that prints
    nothing, a [float] that reads no text. *)
Definition sample_validate_with_rules :=
  validate_string_with_rules 2026 (2026, 11, 4) 4300 (fun _ => "")
    (fun _ => None) no_text no_text.

(* ================================================================== *)
(** * models.py: accessors and statistics                              *)
(* ================================================================== *)

(** [ValidationResult.total_issues] *)
Definition total_issues (self : ValidationResult) : nat :=
  (length (errors self) + length (warnings self) + length (info self))%nat.

(** [ValidationResult.get_issues_by_severity] *)
Definition get_issues_by_severity (self : ValidationResult)
    (sev : SeverityLevel) : list ValidationIssue :=
  match sev with
  | ERROR => errors self
  | WARNING => warnings self
  | INFO => info self
  end.

(** [ValidationResult.get_issues_by_error_code] *)
Definition get_issues_by_error_code (self : ValidationResult)
    (code : string) : list ValidationIssue :=
  let all_issues := errors self ++ warnings self ++ info self in
  filter (fun issue => error_code issue = Some code) all_issues.

Record ValidationStatistics : Type := mkStatistics {
  total_files : Z;
  valid_files : Z;
  invalid_files : Z;
  total_errors : Z;
  total_warnings : Z;
  error_codes : gmap string Z;
  message_types : gmap string Z;
  ddex_versions : gmap string Z
}.

(** [ValidationStatistics()], without the two time stamps, which
    [add_result] does not touch. *)
Definition new_statistics : ValidationStatistics :=
  mkStatistics 0 0 0 0 0 ∅ ∅ ∅.

(** [d[k] = d.get(k, 0) + 1] *)
Definition count_up (k : string) (d : gmap string Z) : gmap string Z :=
  <[ k := default 0 (d !! k) + 1 ]> d.

(** [if k: d[k] = d.get(k, 0) + 1] *)
Definition count_up_if (k : option string) (d : gmap string Z)
  : gmap string Z :=
  match Py.truthy k with
  | Some k' => count_up k' d
  | None => d
  end.

(** [ValidationStatistics.add_result] *)
Definition add_result (self : ValidationStatistics) (result : ValidationResult)
  : ValidationStatistics :=
  mkStatistics
    (total_files self + 1)
    (if is_valid result then valid_files self + 1 else valid_files self)
    (if is_valid result then invalid_files self else invalid_files self + 1)
    (total_errors self + Z.of_nat (length (errors result)))
    (total_warnings self + Z.of_nat (length (warnings result)))
    (fold_left (fun d error => count_up_if (error_code error) d)
       (errors result) (error_codes self))
    (count_up_if (message_type result) (message_types self))
    (count_up_if (ddex_version result) (ddex_versions self)).

(* ================================================================== *)
(** * utils.py and validator.py: looking for the schema file           *)
(* ================================================================== *)

(** [s.replace(a, b)] for one-character [a] and [b]. *)
Fixpoint replace_char (a b : ascii) (s : string) : string :=
  match s with
  | EmptyString => EmptyString
  | String c s' =>
      String (if Ascii.eqb c a then b else c) (replace_char a b s')
  end.

Section SchemaFiles.

(** The file system and [os.path], as the validator meets them. *)
Variable path_exists : string -> bool.
Variable path_join : string -> string -> string.
Variable path_dirname : string -> string.

Definition possible_files (version : string) : list string :=
  [ "ddex_" +:+ replace_char "." "-" version +:+ ".xsd";
    "ern-main-" +:+ version +:+ ".xsd";
    "ern-main.xsd";
    "ddex_3-8-2.xsd" ].

(** One of the two loops of [find_schema_file]: the first file of the
    list that exists in the directory. *)
Fixpoint first_existing (dir : string) (filenames : list string)
  : option string :=
  match filenames with
  | [] => None
  | filename :: rest =>
      let filepath := path_join dir filename in
      if path_exists filepath then Some filepath
      else first_existing dir rest
  end.

(** [find_schema_file] *)
Definition find_schema_file (schema_dir version : string) : option string :=
  let version_dir := path_join schema_dir version in
  match (if path_exists version_dir
         then first_existing version_dir (possible_files version)
         else None) with
  | Some filepath => Some filepath
  | None => first_existing schema_dir (possible_files version)
  end.

(** [_get_schema_path], for a validator made with the given [schema_path]
    and [schema_dir]. *)
Definition _get_schema_path (schema_path : option string) (schema_dir : string)
    (ddex_version : option string) : option string :=
  match (match Py.truthy schema_path with
         | Some p => if path_exists p then Some p else None
         | None => None
         end) with
  | Some p => Some p
  | None =>
      match (match Py.truthy ddex_version, Py.truthy (Some schema_dir) with
             | Some v, Some dir => Py.truthy (find_schema_file dir v)
             | _, _ => None
             end) with
      | Some p => Some p
      | None =>
          match Py.truthy (find_schema_file schema_dir "3.8.2") with
          | Some p => Some p
          | None =>
              let root_schema :=
                path_join (path_dirname schema_dir) "ddex_3-8-2.xsd" in
              if path_exists root_schema then Some root_schema else None
          end
      end
  end.

End SchemaFiles.

(* ================================================================== *)
(** * Vocabulary of the properties of the format checks                *)
(* ================================================================== *)

(** The shapes of the values the patterns accept: a list of character
    classes, one for each character. *)
Definition isrc_shape : list (ascii -> bool) :=
  replicate 2 is_upper ++ replicate 3 is_upper_or_digit
  ++ replicate 7 Py.is_digit.

Definition grid_shape : list (ascii -> bool) :=
  literal "A1" ++ replicate 16 is_upper_or_digit.

Definition isan_shape : list (ascii -> bool) := replicate 12 is_hex_upper.

Definition visan_shape : list (ascii -> bool) := replicate 24 is_hex_upper.

Definition icpn_shapes : list (list (ascii -> bool)) :=
  [ replicate 12 Py.is_digit; replicate 13 Py.is_digit ].

Definition territory_shapes : list (list (ascii -> bool)) :=
  [ replicate 2 is_upper; literal "Worldwide" ].

Definition language_shapes : list (list (ascii -> bool)) :=
  [ replicate 2 is_lower;
    replicate 2 is_lower ++ literal "-" ++ replicate 2 is_upper;
    replicate 3 is_lower;
    replicate 3 is_lower ++ literal "-" ++ replicate 2 is_upper ].

Definition date_shapes : list (list (ascii -> bool)) :=
  [ replicate 4 Py.is_digit;
    replicate 4 Py.is_digit ++ literal "-" ++ replicate 2 Py.is_digit;
    replicate 4 Py.is_digit ++ literal "-" ++ replicate 2 Py.is_digit
    ++ literal "-" ++ replicate 2 Py.is_digit ].




(** The issue points to one of the elements with the given local names:
    its path is the path of that element from the root. *)
Definition located (root : Element) (names : list string)
    (i : ValidationIssue) : Prop :=
  exists n : Node,
    n ∈ xpath_local names [] root
    /\ element_path i = Some (path_spec root n.1).

(** The text [s] with the character at position [i] replaced by [c]. *)
Fixpoint replace_at (i : nat) (c : ascii) (s : string) : string :=
  match s, i with
  | EmptyString, _ => EmptyString
  | String _ s', O => String c s'
  | String a s', S i' => String a (replace_at i' c s')
  end.

(** The statistics of a batch: [add_result] on every result, in order,
    from fresh statistics. *)
Definition statistics_of (results : list ValidationResult)
  : ValidationStatistics :=
  fold_left add_result results new_statistics.

(** How often the key occurs in a list of optional keys; the empty key is
    not counted. *)
Definition occurrences (k : string) (keys : list (option string)) : Z :=
  if decide (k = "") then 0
  else Z.of_nat (length (filter (fun o => o = Some k) keys)).

(** The count a histogram holds for a key: [d.get(k, 0)]. *)
Definition count_of (d : gmap string Z) (k : string) : Z := default 0 (d !! k).



(** The issue is a [FUTURE_DATE] warning. *)
Definition is_future_date_warning (i : ValidationIssue) : Prop :=
  severity i = WARNING /\ error_code i = Some "FUTURE_DATE".

#[global] Instance is_future_date_warning_dec i :
  Decision (is_future_date_warning i).
Proof. unfold is_future_date_warning. apply _. Defined.



(** The text holds ASCII characters only. *)
Fixpoint is_ascii (s : string) : bool :=
  match s with
  | EmptyString => true
  | String c s' => (nat_of_ascii c <? 128)%nat && is_ascii s'
  end.


(** What a checker returned; nothing when it raised. *)
Definition returned (o : string + list ValidationIssue)
  : list ValidationIssue :=
  match o with
  | inr issues => issues
  | inl _ => []
  end.

(** A message with a bare [PT] duration beside one whose count of hours
    has 310 digits. *)
Definition long_hours : string :=
  "PT1" +:+ Py.join "" (replicate 309 "0") +:+ "H".

Definition overflowing_doc : Element :=
  Elem None "NewReleaseMessage" [] None
    [ Elem None "SoundRecording" [] None [leaf "Duration" (Some "PT")];
      Elem None "SoundRecording" [] None [leaf "Duration" (Some long_hours)] ].

(* ================================================================== *)
(** * The embedding on sample inputs                                 *)
(* ================================================================== *)

Example strip_ex : Py.strip (Py.of_bytes [32; 10; 65; 32; 66; 9; 194; 160]%nat) = "A B".
Proof. vm_compute. reflexivity. Qed.

Example split_ex : Py.split "}" "{http://ddex.net/xml/ern/382}ISRC"
                   = ["{http://ddex.net/xml/ern/382"; "ISRC"].
Proof. vm_compute. reflexivity. Qed.

Example range_ex : Py.range 1 11 2 = [1; 3; 5; 7; 9]%nat.
Proof. reflexivity. Qed.

Example isrc_ex : Re.match_ PATTERN_ISRC "USRC17607839" = true
                  /\ Re.match_ PATTERN_ISRC "US-RC17607839" = false.
Proof. vm_compute. split; reflexivity. Qed.

Example dur_ex : Re.match_ PATTERN_DURATION "PT3M45S" = true
                 /\ Re.match_ PATTERN_DURATION "PT" = true
                 /\ Re.match_ PATTERN_DURATION "PT1.5S" = true
                 /\ Re.match_ PATTERN_DURATION "PT3M4H" = false
                 /\ Re.match_ PATTERN_DURATION "P3M" = false.
Proof. vm_compute. repeat split; reflexivity. Qed.

Example icpn_ex : Re.match_ PATTERN_ICPN "036000291452" = true
                  /\ Re.match_ PATTERN_ICPN "4006381333931" = true
                  /\ Re.match_ PATTERN_ICPN "40063813339311" = false
                  /\ Re.match_ PATTERN_ICPN "03600029145" = false.
Proof. vm_compute. repeat split; reflexivity. Qed.

Example search_ex : Re.search_run Py.is_digit "H" "12.5S3H" = Some "3".
Proof. vm_compute. reflexivity. Qed.

Example path_ex :
  map (fun n => _get_element_path two_recordings_doc n.1) (xpath_local ["ISRC"] [] two_recordings_doc)
  = [Some "/NewReleaseMessage/ResourceList/SoundRecording[1]/ISRC";
     Some "/NewReleaseMessage/ResourceList/SoundRecording[2]/ISRC"].
Proof. vm_compute. reflexivity. Qed.

Example float_ex : Py.float "45" = Some (Py.float_const 45)
  /\ Py.float "1.5" = Some (SpecFloat.S754_finite false 6755399441055744 (-52))
  /\ Py.float "1." = Some (Py.float_const 1)
  /\ Py.float ".5" = Some (SpecFloat.S754_finite false 4503599627370496 (-53))
  /\ Py.float "0.1" = Some (SpecFloat.S754_finite false 7205759403792794 (-56))
  /\ Py.float "0.99999999999999999" = Some (Py.float_const 1)
  /\ Py.float "." = None /\ Py.float "1.2.3" = None.
Proof. vm_compute. repeat split; reflexivity. Qed.

Example float_of_int_ex :
  Py.float_of_int (2 ^ 1024 - 2 ^ 970 - 1)
  = Some (SpecFloat.S754_finite false 9007199254740991 971)
  /\ Py.float_of_int (2 ^ 1024 - 2 ^ 970) = None
  /\ Py.float_of_int (2 ^ 53 + 1) = Some (Py.float_const (2 ^ 53)).
Proof. vm_compute. repeat split; reflexivity. Qed.

Example dup_ex :
  map (fun i => (error_code i, element_path i)) (_validate_duplicate_identifiers references_doc)
  = [(Some "DUPLICATE_ISRC", Some "/NewReleaseMessage/SoundRecording[1]/ISRC[2]");
     (Some "DUPLICATE_ISRC", Some "/NewReleaseMessage/SoundRecording[2]/ISRC")].
Proof. vm_compute. reflexivity. Qed.

Example refs_ex :
  map (fun i => (error_code i, context i)) (_validate_resource_references references_doc)
  = [(Some "UNDEFINED_RESOURCE_REFERENCE", Some "資源引用: A3");
     (Some "UNUSED_RESOURCE", Some "資源錨點: A2")].
Proof. vm_compute. reflexivity. Qed.

Example dur2_ex :
  _parse_duration_to_seconds 4300 "PT3H0M0S" = inr (Some (Py.float_const 10800))
  /\ _parse_duration_to_seconds 4300 "PT" = inr (Some (Py.float_const 0))
  /\ _parse_duration_to_seconds 4300 "PT3M45S" = inr (Some (Py.float_const 225))
  /\ _parse_duration_to_seconds 4300 "PT0.99999999999999999S"
     = inr (Some (Py.float_const 1))
  /\ _parse_duration_to_seconds 4300 long_hours
     = inl "int too large to convert to float"
  /\ _parse_duration_to_seconds 300 long_hours = inr None.
Proof. vm_compute. repeat split; reflexivity. Qed.

Example icpn2_ex : _validate_icpn_checksum "036000291452" = true
  /\ _validate_icpn_checksum "036000291453" = false
  /\ _validate_icpn_checksum "4006381333931" = true.
Proof. vm_compute. repeat split; reflexivity. Qed.

Example invalid_isrc_ex :
  map (fun i => (severity i, error_code i, element_path i))
    (validate_identifiers 2026 (scenario_doc "ISRC" "US-RC17607839"))
  = [(ERROR, Some "INVALID_ISRC", Some "/NewReleaseMessage/SoundRecording/ISRC")].
Proof. vm_compute. reflexivity. Qed.

Example durations_ex :
  validate_durations 4300 (fun _ => "") (scenario_doc "Duration" "PT3M45S")
  = inr []
  /\ map (fun i => (severity i, error_code i))
       (returned (validate_durations 4300 (fun _ => "")
                    (scenario_doc "Duration" "PT3H0M0S")))
     = [(WARNING, Some "UNUSUALLY_LONG_DURATION")]
  /\ map (fun i => (severity i, error_code i))
       (returned (validate_durations 4300 (fun _ => "")
                    (scenario_doc "Duration" "3 minutes")))
     = [(ERROR, Some "INVALID_DURATION")]
  /\ validate_durations 4300 (fun _ => "") overflowing_doc
     = inl "int too large to convert to float".
Proof. vm_compute. repeat split; reflexivity. Qed.

Example not_xml_ex :
  let r := sample_validate_string
             {| enable_business_rules := true; strict_mode := false |}
             (XMLSyntaxError "Start tag expected") SchemaValid 0%Q None in
  map error_code (errors r) = [Some "XML_SYNTAX_ERROR"]
  /\ is_valid r = false /\ warnings r = [] /\ info r = [].
Proof. vm_compute. repeat split; reflexivity. Qed.

(* ================================================================== *)
(** * Properties of the result assembly                                *)
(* ================================================================== *)
Lemma classify_normal l e w i :
  fold_left (classify false) l (e, w, i)
  = (e ++ with_severity ERROR l, w ++ with_severity WARNING l,
     i ++ with_severity INFO l).
Proof.
  revert e w i. induction l as [|x l IH]; intros e w i; simpl.
  - unfold with_severity. simpl. by rewrite !app_nil_r.
  - unfold with_severity in *. rewrite !filter_cons.
    destruct (severity x) eqn:Hs; simpl; rewrite IH;
      repeat case_decide; try congruence; simpl;
      by rewrite <- ?app_assoc.
Qed.

Lemma classify_strict l e w i :
  fold_left (classify true) l (e, w, i)
  = (e ++ promoted l, w, i ++ with_severity INFO l).
Proof.
  revert e w i. induction l as [|x l IH]; intros e w i; simpl.
  - unfold with_severity. simpl. by rewrite !app_nil_r.
  - unfold with_severity in *. rewrite !filter_cons.
    destruct (severity x) eqn:Hs; simpl; rewrite IH;
      repeat case_decide; try congruence; simpl;
      by rewrite <- ?app_assoc.
Qed.

Lemma promoted_length l :
  length (promoted l)
  = (length (with_severity ERROR l) + length (with_severity WARNING l))%nat.
Proof.
  unfold with_severity. induction l as [|x l IH]; simpl; [done|].
  rewrite !filter_cons, length_app.
  destruct (severity x); repeat case_decide; try congruence; simpl; lia.
Qed.

Lemma promoted_sublist l : sublist (with_severity ERROR l) (promoted l).
Proof.
  unfold with_severity. induction l as [|x l IH]; simpl; [constructor|].
  rewrite filter_cons.
  destruct (severity x) eqn:Hs; case_decide; try congruence; simpl.
  - by constructor.
  - by constructor.
  - done.
Qed.

Section AssemblyProperties.

Variable now_year : Z.
Variable int_max_str_digits : nat.
Variable float_str : Py.pyfloat -> string.
Variables validate_dates validate_territories validate_languages
          validate_technical_details : Element -> Outcome.
Variable validate_required_elements : Element -> string -> Outcome.
Variables _extract_element_path _generate_suggestion : string -> option string.

Let validate_string' :=
  validate_string now_year int_max_str_digits float_str validate_dates
    validate_territories validate_languages validate_required_elements
    validate_technical_details _extract_element_path _generate_suggestion.

Let validate_file' :=
  validate_file now_year int_max_str_digits float_str validate_dates
    validate_territories validate_languages validate_required_elements
    validate_technical_details _extract_element_path _generate_suggestion.

Let business_issues :=
  _validate_business_rules now_year int_max_str_digits float_str
    validate_dates validate_territories validate_languages
    validate_required_elements validate_technical_details.

Let schema_errors xml :=
  _validate_schema _extract_element_path _generate_suggestion
    (detect_ddex_version xml).

(** The result of [validate_string] on a text that parses, in closed form. *)
Lemma validate_string_parsed self root nsmap schema elapsed enable :
  let xml := Parsed root nsmap in
  let run := (match enable with Some b => b | None => enable_business_rules self end)
             && negb (_has_critical_errors (schema_errors xml schema)) in
  let issues := if run then business_issues root (detect_message_type xml) else [] in
  let errors :=
    schema_errors xml schema
    ++ (if strict_mode self then promoted issues else with_severity ERROR issues) in
  validate_string' self xml schema elapsed enable
  = mkResult (bool_decide (length errors = 0%nat)) errors
      (if strict_mode self then [] else with_severity WARNING issues)
      (with_severity INFO issues ++ detection_info xml)
      (detect_message_type xml) (detect_ddex_version xml) (Some elapsed) None None.
Proof.
  cbv zeta.
  unfold validate_string', validate_string. cbv beta iota zeta.
  rewrite app_nil_l.
  unfold schema_errors, business_issues, detection_info, version_info, message_type_info.
  set (mt := detect_message_type (Parsed root nsmap)).
  set (ver := detect_ddex_version (Parsed root nsmap)).
  set (se := _validate_schema _ _ ver schema).
  set (bi := _validate_business_rules _ _ _ _ _ _ _ _ root mt).
  destruct (_ && negb (_has_critical_errors se)).
  - destruct (strict_mode self).
    + rewrite classify_strict. cbv beta iota zeta.
      destruct (Py.truthy ver), (Py.truthy mt); simpl;
        rewrite <- ?app_assoc, ?app_nil_r; reflexivity.
    + rewrite classify_normal. cbv beta iota zeta.
      destruct (Py.truthy ver), (Py.truthy mt); simpl;
        rewrite <- ?app_assoc, ?app_nil_r; reflexivity.
  - unfold with_severity, promoted. simpl flat_map. rewrite !filter_nil.
    cbv beta iota zeta. rewrite ?app_nil_r.
    destruct (strict_mode self);
      destruct (Py.truthy ver), (Py.truthy mt);
      rewrite ?app_nil_r; reflexivity.
Qed.

Lemma failure_shape msg code :
  code <> "" -> single_error_result code (failure msg (Some code)).
Proof.
  intros Hne. unfold single_error_result, failure. simpl.
  repeat split. eexists. repeat split.
  destruct code; [done | reflexivity].
Qed.

Lemma validate_string_valid self xml schema elapsed enable :
  is_valid (validate_string' self xml schema elapsed enable) = true
  <-> errors (validate_string' self xml schema elapsed enable) = [].
Proof.
  destruct xml as [root nsmap | e | e].
  - rewrite validate_string_parsed. simpl.
    rewrite bool_decide_eq_true. apply length_zero_iff_nil.
  - unfold validate_string', validate_string, failure. simpl. split; discriminate.
  - unfold validate_string', validate_string, failure. simpl. split; discriminate.
Qed.

(** C1. For every result returned by [validate_string] or [validate_file],
    [is_valid] is true if and only if the errors list is empty, whatever
    the warnings and info lists hold. *)
Theorem is_valid_iff_no_errors self xml path file schema elapsed enable :
  (is_valid (validate_string' self xml schema elapsed enable) = true
   <-> errors (validate_string' self xml schema elapsed enable) = [])
  /\ (is_valid (validate_file' self path file schema elapsed enable) = true
      <-> errors (validate_file' self path file schema elapsed enable) = []).
Proof.
  split; [apply validate_string_valid|].
  unfold validate_file', validate_file.
  destruct file as [ | size xml' | [[size xml']|] | e ];
    try (unfold failure; simpl; split; discriminate);
    unfold set_file; simpl; apply validate_string_valid.
Qed.

Lemma detection_info_codes xml i :
  i ∈ detection_info xml ->
  severity i = INFO
  /\ (error_code i = Some "DDEX_VERSION_DETECTED"
      \/ error_code i = Some "MESSAGE_TYPE_DETECTED").
Proof.
  unfold detection_info. intros Hi. apply elem_of_app in Hi.
  destruct Hi as [Hi | Hi].
  - destruct (Py.truthy (detect_ddex_version xml)).
    + apply list_elem_of_singleton in Hi. subst i. simpl. auto.
    + by apply elem_of_nil in Hi.
  - destruct (Py.truthy (detect_message_type xml)).
    + apply list_elem_of_singleton in Hi. subst i. simpl. auto.
    + by apply elem_of_nil in Hi.
Qed.

Lemma schema_error_codes xml schema i :
  i ∈ schema_errors xml schema ->
  error_code i = Some "SCHEMA_NOT_FOUND"
  \/ error_code i = Some "SCHEMA_LOAD_ERROR"
  \/ error_code i = Some "SCHEMA_VALIDATION_ERROR".
Proof.
  unfold schema_errors, _validate_schema. intros Hi.
  destruct schema as [? | ? ? | | ? ? ? ? | ? ? [ | ? [|? ?] | ]];
    try (apply list_elem_of_singleton in Hi; subst i; simpl; auto; fail);
    try (by apply elem_of_nil in Hi).
  apply list_elem_of_fmap in Hi. destruct Hi as ([[m ln] cn] & -> & _).
  simpl. auto.
Qed.

(** C2. For one input, with the detection, the schema step and the clock
    of the checkers the same in both runs, the strict run's errors contain
    the normal run's errors (in the same order), there are as many of them
    as errors and warnings of the normal run together, and the strict run
    has no warning. *)
Theorem strict_mode_promotes_warnings b xml schema elapsed1 elapsed2 enable :
  let normal :=
    validate_string' {| enable_business_rules := b; strict_mode := false |}
      xml schema elapsed1 enable in
  let strict :=
    validate_string' {| enable_business_rules := b; strict_mode := true |}
      xml schema elapsed2 enable in
  sublist (errors normal) (errors strict)
  /\ errors normal ⊆ errors strict
  /\ length (errors strict)
     = (length (errors normal) + length (warnings normal))%nat
  /\ warnings strict = [].
Proof.
  intros normal strict.
  assert (Hsub : sublist (errors normal) (errors strict)
                 /\ length (errors strict)
                    = (length (errors normal) + length (warnings normal))%nat
                 /\ warnings strict = []).
  { subst normal strict. destruct xml as [root nsmap | e | e].
    - rewrite !validate_string_parsed. simpl.
      split; [|split; [|done]].
      + apply sublist_app; [done | apply promoted_sublist].
      + rewrite !length_app, promoted_length. lia.
    - unfold validate_string', validate_string, failure. simpl. done.
    - unfold validate_string', validate_string, failure. simpl. done. }
  destruct Hsub as (Hs & Hl & Hw). repeat split; try done.
  intros e He. eapply elem_of_sublist; eauto.
Qed.

(** C7, as amended.  A file that cannot be read or decoded and a text that
    cannot be parsed give a result of exactly one ERROR with the code of
    the failure, not valid, without warnings and without info.  A schema
    that is not found or cannot be loaded, for a text that parses, gives
    exactly one ERROR ([SCHEMA_NOT_FOUND], [SCHEMA_LOAD_ERROR]), not valid
    and no warning, and the info list holds the detection notices. *)
Theorem fatal_step_results self path schema elapsed enable :
  (forall e, single_error_result "XML_SYNTAX_ERROR"
               (validate_string' self (XMLSyntaxError e) schema elapsed enable))
  /\ (forall e, single_error_result "XML_PARSE_ERROR"
                  (validate_string' self (ParseException e) schema elapsed enable))
  /\ single_error_result "FILE_NOT_FOUND"
       (validate_file' self path FileMissing schema elapsed enable)
  /\ single_error_result "FILE_ENCODING_ERROR"
       (validate_file' self path (FileDecodeError None) schema elapsed enable)
  /\ (forall e, single_error_result "FILE_READ_ERROR"
                  (validate_file' self path (FileException e) schema elapsed enable))
  /\ (forall root nsmap dir,
        schema_failure_result "SCHEMA_NOT_FOUND" (Parsed root nsmap)
          (validate_string' self (Parsed root nsmap)
             (SchemaPathMissing dir) elapsed enable))
  /\ (forall root nsmap e schema_path,
        schema_failure_result "SCHEMA_LOAD_ERROR" (Parsed root nsmap)
          (validate_string' self (Parsed root nsmap)
             (SchemaLoadException e schema_path) elapsed enable)).
Proof.
  split; [intros e; apply failure_shape; done|].
  split; [intros e; apply failure_shape; done|].
  split; [apply failure_shape; done|].
  split; [apply failure_shape; done|].
  split; [intros e; apply failure_shape; done|].
  split.
  - intros root nsmap dir. unfold schema_failure_result.
    rewrite validate_string_parsed. unfold schema_errors. simpl.
    rewrite andb_false_r. simpl.
    destruct (strict_mode self); eauto 10.
  - intros root nsmap e schema_path. unfold schema_failure_result.
    rewrite validate_string_parsed. unfold schema_errors. simpl.
    rewrite andb_false_r. simpl.
    destruct (strict_mode self); eauto 10.
Qed.

(** C8. For a text that parses, when the schema step returns an issue
    whose code is critical, the result holds the schema errors and nothing
    of the checkers: the errors are the schema errors, there is no warning
    and the info list holds the detection notices only. *)
Theorem critical_schema_error_skips_rules self root nsmap schema elapsed enable :
  let xml := Parsed root nsmap in
  _has_critical_errors (schema_errors xml schema) = true ->
  let r := validate_string' self xml schema elapsed enable in
  r = mkResult false (schema_errors xml schema) [] (detection_info xml)
        (detect_message_type xml) (detect_ddex_version xml) (Some elapsed)
        None None
  /\ errors r = schema_errors xml schema
  /\ warnings r = []
  /\ info r = detection_info xml
  /\ Forall (fun i => error_code i ∈ [Some "SCHEMA_NOT_FOUND";
                                       Some "SCHEMA_LOAD_ERROR";
                                       Some "SCHEMA_VALIDATION_ERROR"])
       (errors r)
  /\ Forall (fun i => severity i = INFO
                      /\ error_code i ∈ [Some "DDEX_VERSION_DETECTED";
                                          Some "MESSAGE_TYPE_DETECTED"])
       (info r).
Proof.
  intros xml Hcrit r. subst xml.
  assert (Hr : r = mkResult false (schema_errors (Parsed root nsmap) schema) []
                     (detection_info (Parsed root nsmap))
                     (detect_message_type (Parsed root nsmap))
                     (detect_ddex_version (Parsed root nsmap))
                     (Some elapsed) None None).
  { subst r. rewrite validate_string_parsed. cbv zeta.
    rewrite Hcrit. rewrite andb_false_r.
    unfold with_severity, promoted. simpl flat_map. rewrite !filter_nil.
    rewrite app_nil_l.
    destruct (schema_errors (Parsed root nsmap) schema) as [|e l] eqn:He;
      [discriminate|].
    destruct (strict_mode self); rewrite ?app_nil_r; reflexivity. }
  rewrite Hr. simpl. repeat split.
  - apply Forall_forall. intros i Hi.
    apply schema_error_codes in Hi as [-> | [-> | ->]];
      rewrite !elem_of_cons; auto.
  - apply Forall_forall. intros i Hi.
    apply detection_info_codes in Hi as [? [-> | ->]];
      rewrite !elem_of_cons; auto.
Qed.

End AssemblyProperties.

(* ================================================================== *)
(** * Properties of the document tree and its queries                  *)
(* ================================================================== *)

Lemma Element_ind' (P : Element -> Prop) :
  (forall nsp name attrs t cs, Forall P cs -> P (Elem nsp name attrs t cs)) ->
  forall e, P e.
Proof.
  intros HP. fix IH 1. intros [nsp name attrs t cs]. apply HP.
  induction cs as [|c cs IHcs]; constructor; [apply IH | apply IHcs].
Qed.

Lemma descendants_forest h e : descendants h e = forest h (children e) 0.
Proof.
  destruct e as [nsp name attrs t cs]. simpl.
  generalize 0%nat. induction cs as [|c cs IH]; intros i; simpl; [done|].
  by rewrite IH.
Qed.

(** Every selected element is reached from the context element by a
    non-empty sequence of child positions, which its handle records. *)
Lemma descendants_spec e :
  forall h (n : Node),
    n ∈ descendants h e ->
    exists p, p <> [] /\ descend e p = Some n.2 /\ n.1 = rev p ++ h.
Proof.
  induction e as [nsp name attrs t cs IHcs] using Element_ind'.
  intros h n. rewrite descendants_forest. simpl children.
  assert (Hf : forall i, n ∈ forest h cs i ->
             exists j c q, cs !! j = Some c /\ descend c q = Some n.2
                           /\ n.1 = rev q ++ (i + j)%nat :: h).
  { induction IHcs as [|c cs Hc _ IH]; intros i; simpl.
    - intros Hn. by apply elem_of_nil in Hn.
    - rewrite elem_of_cons, elem_of_app. intros [-> | [Hn | Hn]].
      + exists 0%nat, c, []. simpl. by rewrite Nat.add_0_r.
      + apply Hc in Hn as (p & _ & Hp & Hh).
        exists 0%nat, c, p. simpl. by rewrite Nat.add_0_r.
      + apply IH in Hn as (j & c' & q & Hj & Hq & Hh).
        exists (S j), c', q. simpl. split; [done|]. split; [done|].
        rewrite Hh. do 2 f_equal. lia. }
  intros Hn. apply Hf in Hn as (j & c & q & Hj & Hq & Hh).
  exists (j :: q). split; [done|]. simpl. rewrite Hj. split; [done|].
  rewrite Hh. by rewrite <- app_assoc.
Qed.





(** What a query returns from the root are elements of the tree, each
    once, under the handle that leads to it. *)
Lemma xpath_local_sound names root (n : Node) :
  n ∈ xpath_local names [] root ->
  deref root n.1 = Some n.2 /\ localname n.2 ∈ names.
Proof.
  unfold xpath_local. intros Hn. apply list_elem_of_filter in Hn as [Hname Hn].
  split; [|done].
  apply descendants_spec in Hn as (p & _ & Hp & Hh).
  unfold deref. rewrite Hh, app_nil_r, rev_involutive. done.
Qed.



(* ================================================================== *)
(** * Properties of the element path                                   *)
(* ================================================================== *)

#[local] Arguments Ascii.eqb : simpl never.

Lemma contains_brace_cons a s :
  Py.contains "}" (String a s) = Ascii.eqb "}" a || Py.contains "}" s.
Proof.
  simpl. unfold Py.startswith. simpl.
  destruct (Ascii.eqb "}" a); reflexivity.
Qed.

Lemma split_pieces_no_brace s :
  Py.contains "}" s = false -> Py.split_pieces "}" s = (s, []).
Proof.
  induction s as [|a s IH]; [done|].
  rewrite contains_brace_cons. intros H.
  apply orb_false_iff in H as [Ha Hs].
  simpl. rewrite (IH Hs). rewrite Ascii.eqb_sym, Ha. reflexivity.
Qed.

Lemma split_pieces_brace u s :
  Py.contains "}" u = false ->
  Py.split_pieces "}" (u +:+ String "}" s)
  = (u, let '(w, ws) := Py.split_pieces "}" s in w :: ws).
Proof.
  induction u as [|a u IH].
  - intros _. simpl. destruct (Py.split_pieces "}" s). reflexivity.
  - rewrite contains_brace_cons. intros H.
    apply orb_false_iff in H as [Ha Hu].
    simpl. rewrite (IH Hu). rewrite Ascii.eqb_sym, Ha.
    destruct (Py.split_pieces "}" s). reflexivity.
Qed.

Lemma contains_brace_app u s : Py.contains "}" (u +:+ String "}" s) = true.
Proof.
  induction u as [|a u IH]; [reflexivity|].
  change (String a u +:+ String "}" s) with (String a (u +:+ String "}" s)).
  rewrite contains_brace_cons, IH. apply orb_true_r.
Qed.

(** On well-formed names the code's stripping returns the local name. *)
Lemma strip_namespace_tag e :
  wf_name e = true -> strip_namespace (tag e) = Some (localname e).
Proof.
  unfold wf_name, strip_namespace, tag. intros H.
  apply andb_true_iff in H as [Hl Hn]. apply negb_true_iff in Hl.
  destruct (ns e) as [uri|].
  - apply negb_true_iff in Hn.
    change ("{" +:+ uri +:+ "}" +:+ localname e)
      with (String "{" uri +:+ String "}" (localname e)).
    rewrite contains_brace_app. unfold Py.split.
    rewrite split_pieces_brace by (rewrite contains_brace_cons, Hn; reflexivity).
    rewrite split_pieces_no_brace by done. reflexivity.
  - rewrite Hl. reflexivity.
Qed.

Lemma descend_app e p q :
  descend e (p ++ q) = descend e p ≫= fun x => descend x q.
Proof.
  revert e. induction p as [|i p IH]; intros e; simpl; [done|].
  destruct (children e !! i); simpl; [apply IH | done].
Qed.

Lemma segments_app e p q x :
  descend e p = Some x -> segments e (p ++ q) = segments e p ++ segments x q.
Proof.
  revert e. induction p as [|i p IH]; intros e; simpl.
  - by intros [= ->].
  - destruct (children e !! i) as [c|]; [|done].
    intros H. by rewrite (IH _ H).
Qed.

Lemma wf_tree_unfold e :
  wf_tree e = wf_name e && forallb wf_tree (children e).
Proof. destruct e; reflexivity. Qed.

Lemma wf_descend e p x :
  wf_tree e = true -> descend e p = Some x -> wf_tree x = true.
Proof.
  revert e. induction p as [|i p IH]; intros e Hwf; simpl.
  - by intros [= <-].
  - destruct (children e !! i) as [c|] eqn:Hc; [|done].
    apply IH. rewrite wf_tree_unfold in Hwf.
    apply andb_true_iff in Hwf as [_ Hcs].
    rewrite forallb_forall in Hcs. apply Hcs.
    apply list_elem_of_In. eapply list_elem_of_lookup_2; eauto.
Qed.

Lemma wf_tree_name e : wf_tree e = true -> wf_name e = true.
Proof.
  rewrite wf_tree_unfold. intros H. by apply andb_true_iff in H as [? _].
Qed.

(** Where [siblings.index(current)] finds the child at position [i]. *)
Lemma siblings_index t cs :
  forall k,
    let siblings :=
      (filter (fun jc : nat * Element => tag jc.2 = t)
         (imap (fun j => pair (k + j)%nat) cs)).*1 in
    length siblings = same_tag_count t cs
    /\ forall i c, cs !! i = Some c -> tag c = t ->
         list_index (k + i) siblings = Some (same_tag_count t (take i cs)).
Proof.
  unfold same_tag_count.
  induction cs as [|x cs IH]; intros k; cbv zeta.
  - split; [done|]. intros i c Hc. by rewrite lookup_nil in Hc.
  - rewrite imap_cons.
    rewrite (imap_ext _ (fun j => pair (S k + j)%nat) cs)
      by (intros; unfold compose; f_equal; lia).
    destruct (IH (S k)) as [Hlen Hidx].
    rewrite !filter_cons.
    change ((k + 0)%nat, x).2 with x.
    destruct (decide (tag x = t)) as [Hx|Hx].
    + rewrite fmap_cons. split; [by rewrite !length_cons, Hlen|].
      intros [|i] c Hc Ht.
      * simpl. by rewrite decide_True.
      * rewrite lookup_cons in Hc.
        change (take (S i) (x :: cs)) with (x :: take i cs).
        rewrite filter_cons, decide_True by done.
        replace (k + S i)%nat with (S k + i)%nat by lia.
        change (list_index (S k + i) (((k + 0)%nat, x).1 :: ?l))
          with (if decide (((k + 0)%nat, x).1 = (S k + i)%nat)
                then Some 0%nat else S <$> list_index (S k + i) l).
        rewrite decide_False by (simpl; lia).
        by rewrite (Hidx i c Hc Ht).
    + split; [done|].
      intros [|i] c Hc Ht.
      * simpl in Hc. congruence.
      * rewrite lookup_cons in Hc.
        change (take (S i) (x :: cs)) with (x :: take i cs).
        rewrite filter_cons, decide_False by done.
        replace (k + S i)%nat with (S k + i)%nat by lia.
        by rewrite (Hidx i c Hc Ht).
Qed.

Lemma same_tag_count_take_S t cs i c :
  cs !! i = Some c -> tag c = t ->
  same_tag_count t (take (S i) cs) = (same_tag_count t (take i cs) + 1)%nat.
Proof.
  intros Hc Ht. unfold same_tag_count.
  rewrite (take_S_r _ _ _ Hc), filter_app, length_app.
  rewrite filter_cons, decide_True by done. reflexivity.
Qed.

(** The suffix the loop computes is the one of [segment]. *)
Lemma loop_segment p i e :
  children p !! i = Some e ->
  (if decide (1 < length (siblings_with_tag (tag e) p))%nat
   then index ← list_index i (siblings_with_tag (tag e) p);
        Some (localname e +:+ "[" +:+ Py.str_nat (index + 1) +:+ "]")
   else Some (localname e))
  = Some (segment p i e).
Proof.
  intros Hc. unfold siblings_with_tag, segment.
  destruct (siblings_index (tag e) (children p) 0) as [Hlen Hidx].
  simpl in Hlen, Hidx.
  rewrite (imap_ext _ pair) in Hlen by done.
  rewrite Hlen.
  destruct (decide (1 < same_tag_count (tag e) (children p))%nat); [|done].
  specialize (Hidx i e Hc eq_refl).
  rewrite (imap_ext _ pair) in Hidx by done.
  rewrite Hidx. simpl.
  by rewrite (same_tag_count_take_S _ _ _ _ Hc eq_refl).
Qed.

Lemma path_loop_spec root :
  wf_tree root = true ->
  forall h e acc,
    deref root h = Some e ->
    path_loop root h acc
    = Some (localname root :: segments root (rev h) ++ acc).
Proof.
  intros Hwf. induction h as [|i parent IH]; intros e acc He.
  - unfold deref in He. simpl in He. injection He as <-.
    simpl. unfold deref. simpl.
    rewrite strip_namespace_tag by by apply wf_tree_name. reflexivity.
  - assert (Hd := He). unfold deref in Hd. simpl rev in Hd.
    rewrite descend_app in Hd.
    destruct (descend root (rev parent)) as [p|] eqn:Hp; [|done].
    simpl in Hd.
    destruct (children p !! i) as [c|] eqn:Hc; [|done].
    injection Hd as ->.
    change (path_loop root (i :: parent) acc)
      with (e' ← deref root (i :: parent);
            t ← strip_namespace (tag e');
            p' ← deref root parent;
            let siblings := siblings_with_tag (tag e') p' in
            t' ← (if decide (1 < length siblings)%nat
                  then index ← list_index i siblings;
                       Some (t +:+ "[" +:+ Py.str_nat (index + 1) +:+ "]")
                  else Some t);
            path_loop root parent (t' :: acc)).
    rewrite He. simpl.
    rewrite strip_namespace_tag
      by (apply wf_tree_name; eapply wf_descend; eauto).
    simpl. unfold deref at 1. rewrite Hp. simpl.
    rewrite (loop_segment p i e Hc). simpl.
    rewrite (IH p _ Hp).
    rewrite (segments_app root (rev parent) [i] p Hp). simpl.
    rewrite Hc. by rewrite <- app_assoc.
Qed.

Lemma path_loop_spec_path root h e :
  wf_tree root = true ->
  deref root h = Some e ->
  _get_element_path root h = Some (path_spec root h).
Proof.
  intros Hwf He. unfold _get_element_path, path_spec.
  rewrite (path_loop_spec root Hwf h e [] He). simpl.
  by rewrite app_nil_r.
Qed.

(** C9. For every element of a parsed tree, [_get_element_path] returns
    the slash-separated path from the root to the element, made of the
    local names of the element and its ancestors with the namespace
    stripped; a segment carries [[n]], counting from 1, exactly when the
    parent has more than one child with the element's tag.  A function of
    the tree and the element, it is the same at every call.  Namespace
    URIs and local names are taken without a closing brace. *)
Theorem element_path_is_path_spec root h e :
  wf_tree root = true ->
  deref root h = Some e ->
  _get_element_path root h = Some (path_spec root h).
Proof. apply path_loop_spec_path. Qed.

(** Hence every issue located at an element selected by a query carries
    the path of that element. *)
Lemma selected_element_path names root (n : Node) :
  wf_tree root = true ->
  n ∈ xpath_local names [] root ->
  _get_element_path root n.1 = Some (path_spec root n.1).
Proof.
  intros Hwf Hn. apply xpath_local_sound in Hn as [Hn _].
  by eapply (path_loop_spec_path root n.1 n.2).
Qed.

(* ================================================================== *)
(** * Properties of the duplicate-identifier check                     *)
(* ================================================================== *)


Section DuplicateLoop.

Variable mk : Node -> string -> ValidationIssue.
Variable v : string.
Variable P : ValidationIssue -> Prop.
Context `{forall i, Decision (P i)}.



End DuplicateLoop.


(* ================================================================== *)
(** * Properties of the resource-reference check                       *)
(* ================================================================== *)

Lemma fold_add_ref l :
  forall (s : gset string) v,
    v ∈ fold_left add_ref l s
    <-> v ∈ s \/ Exists (fun n => value_of n = Some v) l.
Proof.
  induction l as [|n l IH]; intros s v; simpl.
  - rewrite Exists_nil. tauto.
  - rewrite IH, Exists_cons. unfold add_ref, value_of.
    destruct (Py.truthy (text n.2)) as [t|]; simpl.
    + rewrite elem_of_union, elem_of_singleton. split.
      * intros [[->|Hs]|Hl]; [right; left; done | left; done | right; right; done].
      * intros [Hs|[Hv|Hl]];
          [left; right; done | left; left; congruence | right; done].
    + split.
      * intros [Hs|Hl]; [left | right; right]; done.
      * intros [Hs|[Hv|Hl]]; [left; done | discriminate | right; done].
Qed.

Lemma fold_add_anchor l :
  forall (s : gset string) v,
    v ∈ fold_left add_anchor l s
    <-> v ∈ s
        \/ Exists (fun n => Py.truthy (get "ResourceReference" (attrib n.2))
                            = Some v) l.
Proof.
  induction l as [|n l IH]; intros s v; simpl.
  - rewrite Exists_nil. tauto.
  - rewrite IH, Exists_cons. unfold add_anchor.
    destruct (Py.truthy (get "ResourceReference" (attrib n.2))) as [t|]; simpl.
    + rewrite elem_of_union, elem_of_singleton. split.
      * intros [[->|Hs]|Hl]; [right; left; done | left; done | right; right; done].
      * intros [Hs|[Hv|Hl]];
          [left; right; done | left; left; congruence | right; done].
    + split.
      * intros [Hs|Hl]; [left | right; right]; done.
      * intros [Hs|[Hv|Hl]]; [left; done | discriminate | right; done].
Qed.

Lemma resource_refs_spec root v : v ∈ resource_refs root <-> referenced root v.
Proof.
  unfold resource_refs, referenced. rewrite fold_add_ref.
  rewrite elem_of_empty. tauto.
Qed.

Lemma resource_anchors_spec root v : v ∈ resource_anchors root <-> defined root v.
Proof.
  unfold resource_anchors, defined, xpath_attr_or_local.
  rewrite fold_add_anchor, elem_of_empty, !Exists_exists.
  split.
  - intros [[]|(n & Hn & Hv)]. apply list_elem_of_filter in Hn as [_ Hn]. eauto.
  - intros (n & Hn & Hv). right. exists n. split; [|done].
    apply list_elem_of_filter. split; [|done]. left.
    destruct (get "ResourceReference" (attrib n.2)); [eauto | done].
Qed.






(* ================================================================== *)
(** * Properties of the identifier and duration checks                 *)
(* ================================================================== *)

Lemma digit_some s :
  all_digits s = true ->
  forall i, (i < String.length s)%nat ->
    (c ← Py.index s i; Py.int_char c) = Some (digit_at s i).
Proof.
  unfold digit_at, Py.index.
  induction s as [|a s IH]; intros Hs i Hi; simpl in Hi; [lia|].
  simpl in Hs. apply andb_true_iff in Hs as [Ha Hs].
  destruct i as [|i]; simpl.
  - unfold Py.int_char. rewrite Ha. reflexivity.
  - apply IH; [done | lia].
Qed.

Lemma sum_of_digits s l :
  all_digits s = true ->
  Forall (fun i => (i < String.length s)%nat) l ->
  Py.sum_of (fun i => c ← Py.index s i; Py.int_char c) l
  = Some (digits_sum s l).
Proof.
  intros Hs Hl. induction Hl as [|i l Hi Hl IH]; simpl; [done|].
  rewrite (digit_some s Hs i Hi), IH. reflexivity.
Qed.

(** C6. For 12 digits the checksum check accepts exactly when the digit at
    position 11 equals [(10 - ((3 * even + odd) mod 10)) mod 10], [even]
    the sum of the digits at the even positions 0 to 10 and [odd] at the
    odd positions 1 to 9; for 13 digits, exactly when the digit at
    position 12 equals the same with the weights swapped, over positions 0
    to 11; and a well-formed ICPN that fails the check yields one WARNING
    [INVALID_ICPN_CHECKSUM] and no ERROR. *)
Theorem icpn_checksum_formula :
  (forall s, all_digits s = true -> String.length s = 12%nat ->
     (_validate_icpn_checksum s = true <-> digit_at s 11 = upc_check_digit s))
  /\ (forall s, all_digits s = true -> String.length s = 13%nat ->
        (_validate_icpn_checksum s = true <-> digit_at s 12 = ean_check_digit s))
  /\ (forall root (icpn : Node) t,
        Py.truthy (text icpn.2) = Some t ->
        Re.match_ PATTERN_ICPN (Py.strip t) = true ->
        _validate_icpn_checksum (Py.strip t) = false ->
        exists i, check_icpn root icpn = [i]
                  /\ severity i = WARNING
                  /\ error_code i = Some "INVALID_ICPN_CHECKSUM"
                  /\ element_path i = _get_element_path root icpn.1).
Proof.
  split; [|split].
  - intros s Hs Hlen. unfold _validate_icpn_checksum, upc_check_digit. cbv zeta.
    rewrite decide_True by done.
    change (Py.range 0 11 2) with [0; 2; 4; 6; 8; 10]%nat.
    change (Py.range 1 11 2) with [1; 3; 5; 7; 9]%nat.
    rewrite !(sum_of_digits s) by (done || (repeat constructor; lia)).
    cbn [mbind option_bind].
    rewrite (digit_some s Hs 11) by lia.
    cbn [mbind option_bind default id]. rewrite bool_decide_eq_true.
    rewrite (Z.mul_comm _ 3). split; congruence.
  - intros s Hs Hlen. unfold _validate_icpn_checksum, ean_check_digit. cbv zeta.
    rewrite decide_False by lia. rewrite decide_True by done.
    change (Py.range 0 12 2) with [0; 2; 4; 6; 8; 10]%nat.
    change (Py.range 1 12 2) with [1; 3; 5; 7; 9; 11]%nat.
    rewrite !(sum_of_digits s) by (done || (repeat constructor; lia)).
    cbn [mbind option_bind].
    rewrite (digit_some s Hs 12) by lia.
    cbn [mbind option_bind default id]. rewrite bool_decide_eq_true.
    rewrite (Z.mul_comm _ 3). split; congruence.
  - intros root icpn t Ht Hm Hc. unfold check_icpn. rewrite Ht. cbv zeta.
    rewrite Hm, Hc. eexists. repeat split.
Qed.

(** Each identifier check reports at most one issue for an element, so
    an [EMPTY_] and an [INVALID_] error never come together. *)
Lemma identifier_checks_at_most_one now_year root (n : Node) :
  (length (check_grid root n) <= 1)%nat
  /\ (length (check_isrc now_year root n) <= 1)%nat
  /\ (length (check_isan root n) <= 1)%nat
  /\ (length (check_visan root n) <= 1)%nat
  /\ (length (check_icpn root n) <= 1)%nat.
Proof.
  unfold check_grid, check_isrc, check_isan, check_visan, check_icpn.
  repeat split; repeat case_match; simpl; lia.
Qed.

(** C3, on the code.  An empty GRid or ISRC element is reported
    ([EMPTY_GRID], [EMPTY_ISRC], and no [INVALID_] error with it), but an
    empty ISAN, V-ISAN or ICPN element is not reported at all. *)
Theorem empty_isan_visan_icpn_unreported now_year root h nsp name attrs cs :
  let n : Node := (h, Elem nsp name attrs None cs) in
  map error_code (check_grid root n) = [Some "EMPTY_GRID"]
  /\ map error_code (check_isrc now_year root n) = [Some "EMPTY_ISRC"]
  /\ check_isan root n = []
  /\ check_visan root n = []
  /\ check_icpn root n = []
  /\ map error_code (validate_identifiers now_year empty_identifiers_doc)
     = [Some "EMPTY_GRID"; Some "EMPTY_ISRC"].
Proof. repeat split. Qed.

Lemma for_each_spec body elements :
  match for_each body elements with
  | inr issues =>
      issues = flat_map (fun n => returned (body n)) elements
      /\ Forall (fun n => exists new, body n = inr new) elements
  | inl str_e => Exists (fun n => body n = inl str_e) elements
  end.
Proof.
  induction elements as [|n l IH]; simpl.
  - split; [done | constructor].
  - destruct (body n) as [e|new] eqn:Hn; [by left|].
    destruct (for_each body l) as [e|issues].
    + by right.
    + destruct IH as [-> Hl]. split; [done|].
      constructor; [by exists new | done].
Qed.



(* ================================================================== *)
(** * The properties on sample inputs                                  *)
(* ================================================================== *)

(** C7, as the specification states it, fails: when the schema is not
    found for a text that parses, the result has its one error and no
    warning, but the info list holds the notice of the detected message
    type. *)
Lemma schema_not_found_keeps_info :
  let r :=
    sample_validate_string
      {| enable_business_rules := true; strict_mode := false |}
      bare_message (SchemaPathMissing "schemas/ddex") 0%Q None in
  map error_code (errors r) = [Some "SCHEMA_NOT_FOUND"]
  /\ is_valid r = false
  /\ warnings r = []
  /\ map error_code (info r) = [Some "MESSAGE_TYPE_DETECTED"]
  /\ ~ single_error_result "SCHEMA_NOT_FOUND" r.
Proof.
  repeat split.
  intros (_ & _ & _ & Hinfo). vm_compute in Hinfo. discriminate Hinfo.
Qed.

(** C8 on a message that is only its root element, with the checkers of
    rules.py in their place: with a schema that cannot be loaded the
    result holds the schema error only, where with a schema that
    validates the checkers report two errors and a warning. *)
Lemma critical_schema_error_skips_rules_witness :
  let schema := SchemaLoadException "no such file" "schemas/ddex/ern-main.xsd" in
  let self := {| enable_business_rules := true; strict_mode := false |} in
  let r := sample_validate_with_rules self bare_message schema 0%Q None in
  let r' := sample_validate_with_rules self bare_message SchemaValid 0%Q None in
  _has_critical_errors (_validate_schema no_text no_text None schema) = true
  /\ errors r = _validate_schema no_text no_text None schema
  /\ warnings r = []
  /\ map error_code (info r) = [Some "MESSAGE_TYPE_DETECTED"]
  /\ map error_code (errors r')
     = [Some "MISSING_MESSAGE_HEADER"; Some "MISSING_RELEASE_LIST"]
  /\ map error_code (warnings r') = [Some "MISSING_RESOURCE_LIST"].
Proof.
  intros schema self r r'. split; [reflexivity|].
  destruct (critical_schema_error_skips_rules 2026 4300 (fun _ => "")
              (fun root => inr (validate_dates (2026, 11, 4) root))
              (fun root => inr (validate_territories root))
              (fun root => inr (validate_languages root))
              (fun root =>
                 inr (validate_technical_details (fun _ => "")
                        (fun _ => None) root))
              (fun root mt => inr (validate_required_elements root mt))
              no_text no_text self
              (Elem None "NewReleaseMessage" [] None []) [] schema 0%Q None
              eq_refl) as (_ & He & Hw & Hi & _).
  split; [exact He|]. split; [exact Hw|].
  split; [exact (f_equal (map error_code) Hi)|].
  split; vm_compute; reflexivity.
Defined.

(** C9 on the second of two sound recordings of a namespaced message. *)
Lemma element_path_is_path_spec_witness :
  wf_tree two_recordings_doc = true
  /\ deref two_recordings_doc [0; 2; 0]%nat = Some (leaf "ISRC" (Some "USRC17607839"))
  /\ _get_element_path two_recordings_doc [0; 2; 0]%nat
     = Some "/NewReleaseMessage/ResourceList/SoundRecording[2]/ISRC".
Proof.
  split; [reflexivity|]. split; [reflexivity|].
  rewrite (element_path_is_path_spec two_recordings_doc [0; 2; 0]%nat
             (leaf "ISRC" (Some "USRC17607839")) eq_refl eq_refl).
  reflexivity.
Defined.

(** C6 on a valid UPC, a valid EAN and a UPC with a wrong check digit. *)
Lemma icpn_checksum_formula_witness :
  (all_digits "036000291452" = true
   /\ String.length "036000291452" = 12%nat
   /\ (_validate_icpn_checksum "036000291452" = true
       <-> digit_at "036000291452" 11 = upc_check_digit "036000291452"))
  /\ (all_digits "4006381333931" = true
      /\ String.length "4006381333931" = 13%nat
      /\ (_validate_icpn_checksum "4006381333931" = true
          <-> digit_at "4006381333931" 12 = ean_check_digit "4006381333931"))
  /\ (let icpn : Node := ([0%nat], leaf "ICPN" (Some "036000291453")) in
      Py.truthy (text icpn.2) = Some "036000291453"
      /\ Re.match_ PATTERN_ICPN (Py.strip "036000291453") = true
      /\ _validate_icpn_checksum (Py.strip "036000291453") = false
      /\ exists i, check_icpn sample_release icpn = [i]
                   /\ severity i = WARNING
                   /\ error_code i = Some "INVALID_ICPN_CHECKSUM"
                   /\ element_path i = _get_element_path sample_release icpn.1).
Proof.
  destruct icpn_checksum_formula as (Hupc & Hean & Hwarn).
  split; [|split].
  - split; [reflexivity|]. split; [reflexivity|].
    apply Hupc; reflexivity.
  - split; [reflexivity|]. split; [reflexivity|].
    apply Hean; reflexivity.
  - split; [reflexivity|]. split; [vm_compute; reflexivity|].
    split; [vm_compute; reflexivity|].
    apply (Hwarn sample_release ([0%nat], leaf "ICPN" (Some "036000291453"))
             "036000291453");
      vm_compute; reflexivity.
Defined.




(* ================================================================== *)
(** * Further properties of the cross-document checks                  *)
(* ================================================================== *)





Lemma map_nil_iff {A B} (f : A -> B) l : map f l = [] <-> l = [].
Proof. destruct l; simpl; split; congruence. Qed.

Lemma reference_check_spec root :
  (_validate_resource_references root = []
   <-> forall v, referenced root v <-> defined root v)
  /\ with_severity ERROR (_validate_resource_references root)
     = map undefined_reference_issue
         (elements (resource_refs root ∖ resource_anchors root))
  /\ with_severity WARNING (_validate_resource_references root)
     = map unused_resource_issue
         (elements (resource_anchors root ∖ resource_refs root))
  /\ _validate_resource_references root
     = with_severity ERROR (_validate_resource_references root)
       ++ with_severity WARNING (_validate_resource_references root).
Proof.
  assert (He : forall l, with_severity ERROR (map undefined_reference_issue l)
                         = map undefined_reference_issue l).
  { induction l as [|x l IH]; [done|]. unfold with_severity in *. simpl.
    rewrite filter_cons, decide_True by done. by rewrite IH. }
  assert (He' : forall l, with_severity ERROR (map unused_resource_issue l) = []).
  { induction l as [|x l IH]; [done|]. unfold with_severity in *. simpl.
    by rewrite filter_cons, decide_False by done. }
  assert (Hw : forall l, with_severity WARNING (map unused_resource_issue l)
                         = map unused_resource_issue l).
  { induction l as [|x l IH]; [done|]. unfold with_severity in *. simpl.
    rewrite filter_cons, decide_True by done. by rewrite IH. }
  assert (Hw' : forall l, with_severity WARNING (map undefined_reference_issue l) = []).
  { induction l as [|x l IH]; [done|]. unfold with_severity in *. simpl.
    by rewrite filter_cons, decide_False by done. }
  unfold _validate_resource_references. cbv zeta.
  split; [|split; [|split]].
  - rewrite app_nil, !map_nil_iff, !elements_empty_iff.
    split.
    + intros [H1 H2] v. rewrite <- resource_refs_spec, <- resource_anchors_spec.
      split; intros Hv.
      * destruct (decide (v ∈ resource_anchors root)) as [|Hn]; [done|].
        exfalso. eapply (not_elem_of_empty (C:=gset string) v).
        rewrite <- H1. by apply elem_of_difference.
      * destruct (decide (v ∈ resource_refs root)) as [|Hn]; [done|].
        exfalso. eapply (not_elem_of_empty (C:=gset string) v).
        rewrite <- H2. by apply elem_of_difference.
    + intros Hv. split; intros v;
        rewrite elem_of_difference, resource_refs_spec, resource_anchors_spec;
        specialize (Hv v); split; try tauto;
        intros Hin; by apply not_elem_of_empty in Hin.
  - unfold with_severity at 1. rewrite filter_app.
    fold (with_severity ERROR (map undefined_reference_issue
            (elements (resource_refs root ∖ resource_anchors root)))).
    fold (with_severity ERROR (map unused_resource_issue
            (elements (resource_anchors root ∖ resource_refs root)))).
    by rewrite He, He', app_nil_r.
  - unfold with_severity at 1. rewrite filter_app.
    fold (with_severity WARNING (map undefined_reference_issue
            (elements (resource_refs root ∖ resource_anchors root)))).
    fold (with_severity WARNING (map unused_resource_issue
            (elements (resource_anchors root ∖ resource_refs root)))).
    by rewrite Hw, Hw'.
  - unfold with_severity. rewrite !filter_app.
    fold (with_severity ERROR (map undefined_reference_issue
            (elements (resource_refs root ∖ resource_anchors root)))).
    fold (with_severity ERROR (map unused_resource_issue
            (elements (resource_anchors root ∖ resource_refs root)))).
    fold (with_severity WARNING (map undefined_reference_issue
            (elements (resource_refs root ∖ resource_anchors root)))).
    fold (with_severity WARNING (map unused_resource_issue
            (elements (resource_anchors root ∖ resource_refs root)))).
    by rewrite He, He', Hw, Hw', app_nil_r.
Qed.

(** X3. The resource-reference check reports nothing exactly when the
    referenced values and the defined values are the same; otherwise it
    reports first the errors, one for each value referenced and not
    defined, then the warnings, one for each value defined and not
    referenced. *)
Theorem reference_check_silent_iff_sets_agree root :
  (_validate_resource_references root = []
   <-> forall v, referenced root v <-> defined root v)
  /\ with_severity ERROR (_validate_resource_references root)
     = map undefined_reference_issue
         (elements (resource_refs root ∖ resource_anchors root))
  /\ with_severity WARNING (_validate_resource_references root)
     = map unused_resource_issue
         (elements (resource_anchors root ∖ resource_refs root))
  /\ _validate_resource_references root
     = with_severity ERROR (_validate_resource_references root)
       ++ with_severity WARNING (_validate_resource_references root).
Proof. apply reference_check_spec. Qed.

(* ================================================================== *)
(** * Further properties of the result assembly                        *)
(* ================================================================== *)

Lemma with_severity_all s l : Forall (fun i => severity i = s) (with_severity s l).
Proof.
  apply Forall_forall. intros i Hi.
  by apply list_elem_of_filter in Hi as [? _].
Qed.

Lemma promoted_all_errors l : Forall (fun i => severity i = ERROR) (promoted l).
Proof.
  unfold promoted. induction l as [|x l IH]; simpl; [constructor|].
  apply Forall_app. split; [|done].
  destruct (severity x) eqn:Hs; repeat constructor; done.
Qed.

Lemma run_checkers_returned l :
  forall issues, run_checkers (map inr l) issues = issues ++ concat l.
Proof.
  induction l as [|x l IH]; intros issues; simpl.
  - by rewrite app_nil_r.
  - by rewrite IH, app_assoc.
Qed.

Section FurtherAssemblyProperties.

Variable now_year : Z.
Variable int_max_str_digits : nat.
Variable float_str : Py.pyfloat -> string.
Variables validate_dates validate_territories validate_languages
          validate_technical_details : Element -> Outcome.
Variable validate_required_elements : Element -> string -> Outcome.
Variables _extract_element_path _generate_suggestion : string -> option string.

Let validate_string' :=
  validate_string now_year int_max_str_digits float_str validate_dates
    validate_territories validate_languages validate_required_elements
    validate_technical_details _extract_element_path _generate_suggestion.

Let validate_file' :=
  validate_file now_year int_max_str_digits float_str validate_dates
    validate_territories validate_languages validate_required_elements
    validate_technical_details _extract_element_path _generate_suggestion.

Let business_issues :=
  _validate_business_rules now_year int_max_str_digits float_str
    validate_dates validate_territories validate_languages
    validate_required_elements validate_technical_details.

Let schema_errors xml :=
  _validate_schema _extract_element_path _generate_suggestion
    (detect_ddex_version xml).

Lemma schema_errors_are_errors xml schema :
  Forall (fun i => severity i = ERROR) (schema_errors xml schema).
Proof.
  unfold schema_errors, _validate_schema.
  destruct schema as [? | ? ? | | ? ? ? ? | ? ? [ | ? [|? ?] | ]];
    try solve [repeat constructor].
  apply Forall_forall. intros i Hi.
  apply list_elem_of_fmap in Hi as ([[m ln] cn] & -> & _). done.
Qed.

Lemma detection_info_are_info xml :
  Forall (fun i => severity i = INFO) (detection_info xml).
Proof.
  unfold detection_info. apply Forall_app.
  split; case_match; repeat constructor.
Qed.

Lemma sorted_by_severity_string self xml schema elapsed enable :
  let r := validate_string' self xml schema elapsed enable in
  Forall (fun i => severity i = ERROR) (errors r)
  /\ Forall (fun i => severity i = WARNING) (warnings r)
  /\ Forall (fun i => severity i = INFO) (info r).
Proof.
  destruct xml as [root nsmap | e | e]; cbv zeta.
  - unfold validate_string'. rewrite validate_string_parsed.
    cbn [errors warnings info].
    split; [|split].
    + apply Forall_app. split; [apply schema_errors_are_errors|].
      destruct (strict_mode self);
        [apply promoted_all_errors | apply with_severity_all].
    + destruct (strict_mode self); [constructor | apply with_severity_all].
    + apply Forall_app. split;
        [apply with_severity_all | apply detection_info_are_info].
  - unfold validate_string', validate_string, failure. simpl.
    repeat constructor.
  - unfold validate_string', validate_string, failure. simpl.
    repeat constructor.
Qed.

(** X4. In every result of [validate_string] and [validate_file] each
    issue sits in the list of its severity: [errors] holds ERROR issues
    only (the warnings promoted by strict mode included), [warnings]
    WARNING issues only and [info] INFO issues only. *)
Theorem issues_sorted_by_severity self xml path file schema elapsed enable :
  let sorted r :=
    Forall (fun i => severity i = ERROR) (errors r)
    /\ Forall (fun i => severity i = WARNING) (warnings r)
    /\ Forall (fun i => severity i = INFO) (info r) in
  sorted (validate_string' self xml schema elapsed enable)
  /\ sorted (validate_file' self path file schema elapsed enable).
Proof.
  cbv zeta. split; [apply sorted_by_severity_string|].
  unfold validate_file', validate_file.
  destruct file as [ | size xml' | [[size xml']|] | e ];
    try (unfold failure; simpl; repeat constructor; fail);
    unfold set_file; simpl; apply sorted_by_severity_string.
Qed.

Lemma critical_iff_unavailable version schema :
  _has_critical_errors
    (_validate_schema _extract_element_path _generate_suggestion version schema)
  = schema_unavailable schema.
Proof.
  unfold _validate_schema.
  destruct schema as [? | ? ? | | ? ? ? ? | ? ? [ | e [|p l] | ]];
    try reflexivity.
  cbv beta iota. unfold schema_unavailable.
  generalize (p :: l). intros entries.
  induction entries as [|[[m ln] cn] entries IH]; simpl; [reflexivity | exact IH].
Qed.

(** X5. The schema step stops the business rules exactly when no schema
    file could be used (not found, or not loadable): a document that
    fails the XSD validation is still checked by the business rules. *)
Theorem only_unavailable_schema_is_critical version schema :
  _has_critical_errors
    (_validate_schema _extract_element_path _generate_suggestion version schema)
  = schema_unavailable schema.
Proof. apply critical_iff_unavailable. Qed.

(** X7. With the business rules switched off the result holds the schema
    errors and the detection notices only, with or without strict mode;
    and the argument of the call, when given, takes the place of the
    validator's own setting. *)
Theorem disabled_rules_leave_schema_errors self self' root nsmap schema elapsed b :
  let xml := Parsed root nsmap in
  let r := validate_string' self xml schema elapsed (Some false) in
  errors r = schema_errors xml schema
  /\ warnings r = []
  /\ info r = detection_info xml
  /\ validate_string'
       {| enable_business_rules := false; strict_mode := strict_mode self |}
       xml schema elapsed None = r
  /\ validate_string'
       {| enable_business_rules := enable_business_rules self';
          strict_mode := strict_mode self |} xml schema elapsed (Some b)
     = validate_string' self xml schema elapsed (Some b).
Proof.
  cbv zeta. unfold validate_string'. rewrite !validate_string_parsed. simpl.
  unfold with_severity, promoted. simpl. rewrite !filter_nil.
  destruct (strict_mode self); rewrite ?app_nil_r; repeat split.
Qed.

(** X8. For one input, the strict run is valid exactly when the normal run
    has no error and no warning. *)
Theorem strict_valid_iff_no_error_no_warning b xml schema elapsed1 elapsed2 enable :
  let normal :=
    validate_string' {| enable_business_rules := b; strict_mode := false |}
      xml schema elapsed1 enable in
  let strict :=
    validate_string' {| enable_business_rules := b; strict_mode := true |}
      xml schema elapsed2 enable in
  is_valid strict = true <-> errors normal = [] /\ warnings normal = [].
Proof.
  cbv zeta. destruct xml as [root nsmap | e | e].
  - unfold validate_string'. rewrite !validate_string_parsed. simpl.
    rewrite bool_decide_eq_true.
    rewrite <- !length_zero_iff_nil, !length_app, promoted_length. lia.
  - unfold validate_string', validate_string, failure. simpl.
    split; [discriminate | intros [H _]; discriminate H].
  - unfold validate_string', validate_string, failure. simpl.
    split; [discriminate | intros [H _]; discriminate H].
Qed.

End FurtherAssemblyProperties.

Lemma version_of_nsmap_values nsmap :
  match version_of_nsmap nsmap with
  | Some v => v = "3.8.2" \/ v = "4.1"
  | None => True
  end.
Proof.
  induction nsmap as [|[p uri] l IH]; simpl; [done|].
  destruct (Py.contains "ddex.net/xml/ern" uri); [|exact IH].
  destruct (Py.contains "382" uri); [auto|].
  destruct (Py.contains "41" uri); [auto | exact IH].
Qed.

(** X9. The detected DDEX version is never the empty string: it is
    [3.8.2] or [4.1], read from a namespace of the root, or else the
    [MessageSchemaVersionId] attribute of the root; for a text that does
    not parse there is none. *)
Theorem detected_version_values xml :
  match detect_ddex_version xml with
  | Some v =>
      v <> ""
      /\ (v = "3.8.2" \/ v = "4.1"
          \/ exists root nsmap,
               xml = Parsed root nsmap
               /\ get "MessageSchemaVersionId" (attrib root) = Some v)
  | None => True
  end
  /\ (forall e, detect_ddex_version (XMLSyntaxError e) = None)
  /\ (forall e, detect_ddex_version (ParseException e) = None).
Proof.
  split; [|done].
  destruct xml as [root nsmap | e | e]; simpl; try done.
  pose proof (version_of_nsmap_values nsmap) as Hv.
  destruct (version_of_nsmap nsmap) as [v|].
  - destruct Hv as [-> | ->]; split; auto; discriminate.
  - destruct (get "MessageSchemaVersionId" (attrib root)) as [[|a v]|] eqn:Hg;
      simpl; try done.
    split; [discriminate|]. right. right. eauto.
Qed.

Lemma run_checkers_raised before str_e after :
  forall issues,
    run_checkers (map inr before ++ inl str_e :: after) issues
    = issues ++ concat before ++ [processing_error str_e].
Proof.
  induction before as [|x l IH]; intros issues; simpl.
  - reflexivity.
  - rewrite IH, <- !app_assoc. reflexivity.
Qed.

Ltac done_checkers :=
  cbn [run_checkers app]; unfold processing_error;
  rewrite <- ?app_assoc; reflexivity.

(** X6. In [_validate_business_rules], when a checker raises, the issues
    of the checkers before it are kept, one
    [BUSINESS_RULE_PROCESSING_ERROR] with the text of the exception is
    appended, and the checkers after it contribute nothing; when none
    raises, the issues are those of all the checkers in order.  With the
    checkers of rules.py in their place this happens for
    [validate_durations] only: when it raises, the issues are those of
    [validate_identifiers] and the processing error. *)
Theorem first_exception_ends_the_checkers now_year today int_max_str_digits
    float_str float_of_text
    (dates territories languages technical : Element -> Outcome)
    (required : Element -> string -> Outcome) root mt :
  let ids := validate_identifiers now_year root in
  let logic := validate_business_logic root in
  let rules :=
    _validate_business_rules now_year int_max_str_digits float_str dates
      territories languages required technical root mt in
  let required_step :=
    match Py.truthy mt with
    | Some m => required root m
    | None => inr []
    end in
  match validate_durations int_max_str_digits float_str root with
  | inl e => rules = ids ++ [processing_error e]
  | inr durs =>
  match dates root with
  | inl e => rules = ids ++ durs ++ [processing_error e]
  | inr ds =>
  match territories root with
  | inl e => rules = ids ++ durs ++ ds ++ [processing_error e]
  | inr ts =>
  match languages root with
  | inl e => rules = ids ++ durs ++ ds ++ ts ++ [processing_error e]
  | inr ls =>
  match required_step with
  | inl e => rules = ids ++ durs ++ ds ++ ts ++ ls ++ [processing_error e]
  | inr rs =>
  match technical root with
  | inl e =>
      rules = ids ++ durs ++ ds ++ ts ++ ls ++ rs ++ logic
              ++ [processing_error e]
  | inr tds => rules = ids ++ durs ++ ds ++ ts ++ ls ++ rs ++ logic ++ tds
  end end end end end end
  /\ business_rules now_year today int_max_str_digits float_str float_of_text
       root mt
     = match validate_durations int_max_str_digits float_str root with
       | inl e => ids ++ [processing_error e]
       | inr durs =>
           ids ++ durs ++ validate_dates today root
           ++ validate_territories root ++ validate_languages root
           ++ match Py.truthy mt with
              | Some m => validate_required_elements root m
              | None => []
              end
           ++ logic
           ++ validate_technical_details float_str float_of_text root
       end.
Proof.
  cbv zeta. unfold business_rules, _validate_business_rules.
  split.
  - destruct (validate_durations _ _ root) as [e|durs]; [reflexivity|].
    destruct (dates root) as [e|ds]; [done_checkers|].
    destruct (territories root) as [e|ts]; [done_checkers|].
    destruct (languages root) as [e|ls]; [done_checkers|].
    destruct (Py.truthy mt) as [m|].
    + destruct (required root m) as [e|rs]; [done_checkers|].
      destruct (technical root) as [e|tds]; done_checkers.
    + destruct (technical root) as [e|tds]; done_checkers.
  - destruct (validate_durations _ _ root) as [e|durs]; [reflexivity|].
    destruct (Py.truthy mt) as [m|]; done_checkers.
Qed.


(* ================================================================== *)
(** * The matcher and the language of a pattern                        *)
(* ================================================================== *)

Lemma append_nil_inv s1 s2 : s1 +:+ s2 = "" -> s1 = "" /\ s2 = "".
Proof. destruct s1; [done | discriminate]. Qed.

Lemma append_cons c s t : String c s +:+ t = String c (s +:+ t).
Proof. reflexivity. Qed.

Lemma append_nil_l s : "" +:+ s = s.
Proof. reflexivity. Qed.



Lemma lang_void s : ~ lang Re.Void s.
Proof. intros H. inversion H. Qed.

Lemma lang_eps_iff s : lang Re.Eps s <-> s = "".
Proof. split; [intros H; by inversion H | intros ->; constructor]. Qed.

Lemma lang_range_iff lo hi s :
  lang (Re.Range lo hi) s <-> exists c, s = String c "" /\ Re.in_range lo hi c = true.
Proof.
  split.
  - intros H. inversion H; subst. eauto.
  - intros (c & -> & Hc). by constructor.
Qed.

Lemma lang_alt_iff r1 r2 s : lang (Re.Alt r1 r2) s <-> lang r1 s \/ lang r2 s.
Proof.
  split.
  - intros H. inversion H; subst; auto.
  - intros [H | H]; [by apply lang_alt_l | by apply lang_alt_r].
Qed.

Lemma lang_cat_iff r1 r2 s :
  lang (Re.Cat r1 r2) s <-> exists s1 s2, s = s1 +:+ s2 /\ lang r1 s1 /\ lang r2 s2.
Proof.
  split.
  - intros H. inversion H; subst. eauto.
  - intros (s1 & s2 & -> & H1 & H2). by constructor.
Qed.

Lemma lang_cat_void_l r s : ~ lang (Re.Cat Re.Void r) s.
Proof. intros H. inversion H; subst. by eapply lang_void. Qed.

Lemma lang_cat_void_r r s : ~ lang (Re.Cat r Re.Void) s.
Proof. intros H. inversion H; subst. by eapply lang_void. Qed.

Lemma lang_cat_eps_l r s : lang (Re.Cat Re.Eps r) s <-> lang r s.
Proof.
  split.
  - intros H. inversion H as [ | | r1 r2 s1 s2 H1 H2 | | | | ]; subst.
    apply lang_eps_iff in H1 as ->. exact H2.
  - intros H. rewrite <- (append_nil_l s). constructor; [constructor | exact H].
Qed.

Lemma lang_smart_cat r1 r2 s : lang (Re.cat r1 r2) s <-> lang (Re.Cat r1 r2) s.
Proof.
  destruct r1; [ | destruct r2 .. ]; simpl; try reflexivity;
    try (split; intros H; exfalso;
         first [ by apply lang_void in H
               | by apply lang_cat_void_l in H
               | by apply lang_cat_void_r in H ]);
    symmetry; apply lang_cat_eps_l.
Qed.

Lemma lang_smart_alt r1 r2 s : lang (Re.alt r1 r2) s <-> lang (Re.Alt r1 r2) s.
Proof.
  rewrite lang_alt_iff.
  destruct r1, r2; simpl; rewrite ?lang_alt_iff; try tauto;
    split; try tauto; intros [H | H]; try done; by apply lang_void in H.
Qed.

Lemma nullable_spec r : Re.nullable r = true <-> lang r "".
Proof.
  split.
  - induction r as [| | lo hi | r1 IH1 r2 IH2 | r1 IH1 r2 IH2 | r IH];
      simpl; intros H; try discriminate.
    + constructor.
    + apply andb_true_iff in H as [H1 H2].
      change "" with ("" +:+ ""). constructor; auto.
    + apply orb_true_iff in H as [H | H];
        [apply lang_alt_l | apply lang_alt_r]; auto.
    + constructor.
  - intros H. remember "" as s eqn:Hs.
    induction H as [ | lo hi c Hc | r1 r2 s1 s2 H1 IH1 H2 IH2
                   | r1 r2 s H IH | r1 r2 s H IH | r | r s1 s2 H1 IH1 H2 IH2 ];
      simpl; try done.
    + apply append_nil_inv in Hs as [-> ->]. by rewrite IH1, IH2.
    + by rewrite IH.
    + rewrite IH by done. apply orb_true_r.
Qed.

Lemma deriv_sound c r : forall s, lang (Re.deriv c r) s -> lang r (String c s).
Proof.
  induction r as [| | lo hi | r1 IH1 r2 IH2 | r1 IH1 r2 IH2 | r IH];
    simpl; intros s H.
  - by apply lang_void in H.
  - by apply lang_void in H.
  - destruct (Re.in_range lo hi c) eqn:Hc; [|by apply lang_void in H].
    apply lang_eps_iff in H as ->. by constructor.
  - apply lang_smart_alt, lang_alt_iff in H as [H | H].
    + apply lang_smart_cat, lang_cat_iff in H as (s1 & s2 & -> & H1 & H2).
      change (String c (s1 +:+ s2)) with (String c s1 +:+ s2).
      constructor; auto.
    + destruct (Re.nullable r1) eqn:Hn; [|by apply lang_void in H].
      change (String c s) with ("" +:+ String c s).
      constructor; [by apply nullable_spec | auto].
  - apply lang_smart_alt, lang_alt_iff in H as [H | H];
      [apply lang_alt_l | apply lang_alt_r]; auto.
  - apply lang_smart_cat, lang_cat_iff in H as (s1 & s2 & -> & H1 & H2).
    change (String c (s1 +:+ s2)) with (String c s1 +:+ s2).
    constructor; auto.
Qed.

Lemma deriv_complete r s0 :
  lang r s0 -> forall c s, s0 = String c s -> lang (Re.deriv c r) s.
Proof.
  intros H.
  induction H as [ | lo hi c' Hc | r1 r2 s1 s2 H1 IH1 H2 IH2
                 | r1 r2 s' H IH | r1 r2 s' H IH | r | r s1 s2 H1 IH1 H2 IH2 ];
    intros c s Hs; simpl.
  - discriminate.
  - injection Hs as -> <-. rewrite Hc. constructor.
  - apply lang_smart_alt, lang_alt_iff.
    destruct s1 as [|c1 s1].
    + right. rewrite append_nil_l in Hs. apply nullable_spec in H1. rewrite H1. auto.
    + left. rewrite append_cons in Hs. injection Hs as -> <-.
      apply lang_smart_cat. constructor; auto.
  - apply lang_smart_alt, lang_alt_l. auto.
  - apply lang_smart_alt, lang_alt_r. auto.
  - discriminate.
  - destruct s1 as [|c1 s1].
    + rewrite append_nil_l in Hs. specialize (IH2 c s Hs). exact IH2.
    + rewrite append_cons in Hs. injection Hs as -> <-.
      apply lang_smart_cat. constructor; auto.
Qed.

(** The matcher decides the language. *)
Lemma fullmatch_spec s : forall r, Re.fullmatch r s = true <-> lang r s.
Proof.
  induction s as [|c s IH]; intros r; simpl.
  - apply nullable_spec.
  - rewrite IH. split; [apply deriv_sound | intros H; by eapply deriv_complete].
Qed.

Lemma classes_match_app cls1 cls2 s :
  classes_match (cls1 ++ cls2) s = true
  <-> exists s1 s2, s = s1 +:+ s2
                    /\ classes_match cls1 s1 = true
                    /\ classes_match cls2 s2 = true.
Proof.
  revert s. induction cls1 as [|f cls1 IH]; intros s.
  - change ([] ++ cls2) with cls2. split.
    + intros H. exists "", s. done.
    + intros (s1 & s2 & -> & H1 & H2).
      destruct s1; [by rewrite append_nil_l | discriminate].
  - change ((f :: cls1) ++ cls2) with (f :: (cls1 ++ cls2)).
    destruct s as [|c s].
    + split; [discriminate|].
      intros (s1 & s2 & Hs & H1 & H2). destruct s1; discriminate.
    + change (classes_match (f :: cls1 ++ cls2) (String c s))
        with (f c && classes_match (cls1 ++ cls2) s).
      rewrite andb_true_iff, IH. split.
      * intros (Hf & s1 & s2 & -> & H1 & H2).
        exists (String c s1), s2. rewrite append_cons.
        split; [done|]. split; [|done].
        change (f c && classes_match cls1 s1 = true). by rewrite Hf, H1.
      * intros ([|c' s1] & s2 & Hs & H1 & H2); [discriminate|].
        rewrite append_cons in Hs. injection Hs as -> ->.
        change (f c' && classes_match cls1 s1 = true) in H1.
        apply andb_true_iff in H1 as [Hf H1]. eauto 6.
Qed.

Lemma char_class_spec r f :
  char_class r = Some f ->
  forall s, lang r s <-> exists c, s = String c "" /\ f c = true.
Proof.
  revert f.
  induction r as [| | lo hi | r1 IH1 r2 IH2 | r1 IH1 r2 IH2 | r IH];
    intros f Hf s; simpl in Hf; try discriminate.
  - injection Hf as <-. apply lang_range_iff.
  - destruct (char_class r1) as [f1|]; [|discriminate].
    destruct (char_class r2) as [f2|]; [|discriminate].
    injection Hf as <-.
    rewrite lang_alt_iff, (IH1 f1 eq_refl), (IH2 f2 eq_refl).
    split.
    + intros [(c & -> & H) | (c & -> & H)]; exists c; rewrite H;
        split; auto using orb_true_r.
    + intros (c & -> & H). apply orb_true_iff in H as [H | H]; eauto.
Qed.

Lemma shape_matches_iff shapes s :
  shape_matches shapes s = true
  <-> exists cls, cls ∈ shapes /\ classes_match cls s = true.
Proof.
  unfold shape_matches. rewrite existsb_exists.
  split; intros (cls & Hin & H); exists cls; split; try done;
    by apply list_elem_of_In.
Qed.

(** The shapes of a pattern are its language. *)
Lemma shapes_of_spec r :
  forall shapes, shapes_of r = Some shapes ->
  forall s, lang r s <-> shape_matches shapes s = true.
Proof.
  induction r as [| | lo hi | r1 IH1 r2 IH2 | r1 IH1 r2 IH2 | r IH];
    intros shapes Hs s; simpl in Hs; try discriminate.
  - injection Hs as <-. rewrite lang_eps_iff. simpl.
    destruct s; simpl; split; done.
  - injection Hs as <-. rewrite lang_range_iff. simpl.
    destruct s as [|c [|c' s]]; simpl; rewrite ?orb_false_r, ?andb_true_r,
      ?andb_false_r; split; try done; try (by intros (? & ? & ?)).
    + intros (c0 & [= ->] & H). done.
    + eauto.
  - destruct (shapes_of r1) as [l1|]; [|discriminate].
    destruct (shapes_of r2) as [l2|]; [|discriminate].
    injection Hs as <-.
    rewrite lang_cat_iff, shape_matches_iff. split.
    + intros (s1 & s2 & -> & H1 & H2).
      apply (IH1 l1 eq_refl), shape_matches_iff in H1 as (a & Ha & H1).
      apply (IH2 l2 eq_refl), shape_matches_iff in H2 as (b & Hb & H2).
      exists (a ++ b). split.
      * apply list_elem_of_In, in_flat_map. exists a.
        split; [by apply list_elem_of_In|].
        apply in_map. by apply list_elem_of_In.
      * apply classes_match_app. eauto.
    + intros (cls & Hin & H).
      apply list_elem_of_In, in_flat_map in Hin as (a & Ha & Hin).
      apply in_map_iff in Hin as (b & <- & Hb).
      apply classes_match_app in H as (s1 & s2 & -> & H1 & H2).
      exists s1, s2. split; [done|]. split.
      * apply (IH1 l1 eq_refl), shape_matches_iff. exists a.
        split; [by apply list_elem_of_In | done].
      * apply (IH2 l2 eq_refl), shape_matches_iff. exists b.
        split; [by apply list_elem_of_In | done].
  - destruct (char_class r1) as [f1|] eqn:Hc1;
      [destruct (char_class r2) as [f2|] eqn:Hc2|].
    + injection Hs as <-.
      rewrite (char_class_spec (Re.Alt r1 r2) (fun c => f1 c || f2 c))
        by (simpl; by rewrite Hc1, Hc2).
      simpl. destruct s as [|c [|c' s]]; simpl;
        rewrite ?orb_false_r, ?andb_true_r, ?andb_false_r;
        split; try done; try (by intros (? & ? & ?)).
      * intros (c0 & [= ->] & H). done.
      * eauto.
    + destruct (shapes_of r1) as [l1|]; [|discriminate].
      destruct (shapes_of r2) as [l2|]; [|discriminate].
      injection Hs as <-.
      rewrite lang_alt_iff, (IH1 l1 eq_refl), (IH2 l2 eq_refl).
      unfold shape_matches. rewrite existsb_app, orb_true_iff. done.
    + destruct (shapes_of r1) as [l1|]; [|discriminate].
      destruct (shapes_of r2) as [l2|]; [|discriminate].
      injection Hs as <-.
      rewrite lang_alt_iff, (IH1 l1 eq_refl), (IH2 l2 eq_refl).
      unfold shape_matches. rewrite existsb_app, orb_true_iff. done.
Qed.

Lemma bool_eq_iff (a b : bool) : (a = true <-> b = true) -> a = b.
Proof. destruct a, b; intros [H1 H2]; auto; symmetry; auto. Qed.

(** [re.match] on a pattern without repetition, by its shapes. *)
Lemma match_by_shapes r shapes :
  shapes_of r = Some shapes ->
  forall s, Re.match_ r s = line_matches shapes s.
Proof.
  intros Hs s. unfold Re.match_, line_matches. f_equal.
  - apply bool_eq_iff. rewrite fullmatch_spec. by apply shapes_of_spec.
  - apply bool_eq_iff. rewrite fullmatch_spec. apply shapes_of_spec.
    simpl. rewrite Hs. simpl. f_equal.
Qed.

Lemma is_char_spec a c : is_char a c = true <-> c = a.
Proof.
  unfold is_char, Re.in_range.
  rewrite andb_true_iff, !Nat.leb_le. split.
  - intros [H1 H2].
    rewrite <- (ascii_nat_embedding c), <- (ascii_nat_embedding a).
    f_equal. lia.
  - intros ->. lia.
Qed.

Lemma classes_match_literal w s :
  classes_match (literal w) s = true <-> s = w.
Proof.
  revert s. induction w as [|a w IH]; intros [|c s]; simpl;
    try (split; [discriminate | discriminate]); try done.
  rewrite andb_true_iff, is_char_spec, IH. split.
  - by intros [-> ->].
  - by intros [= -> ->].
Qed.

(** X10. What the identifier patterns accept. *)
Theorem identifier_pattern_shapes (s : string) :
  Re.match_ PATTERN_ISRC s = line_matches [isrc_shape] s
  /\ Re.match_ PATTERN_GRID s = line_matches [grid_shape] s
  /\ Re.match_ PATTERN_ISAN s = line_matches [isan_shape] s
  /\ Re.match_ PATTERN_VISAN s = line_matches [visan_shape] s
  /\ Re.match_ PATTERN_ICPN s = line_matches icpn_shapes s.
Proof.
  repeat split; apply match_by_shapes; reflexivity.
Qed.

(** X11. What the patterns of territories, languages and dates accept. *)
Theorem code_pattern_shapes (s : string) :
  Re.match_ PATTERN_TERRITORY s = line_matches territory_shapes s
  /\ Re.match_ PATTERN_LANGUAGE s = line_matches language_shapes s
  /\ Re.match_ PATTERN_DATE s = line_matches date_shapes s.
Proof.
  repeat split; apply match_by_shapes; reflexivity.
Qed.

(* ================================================================== *)
(** * Stripped text has no line feed at its end                        *)
(* ================================================================== *)


















(* ================================================================== *)
(** * Properties of the format checks                                  *)
(* ================================================================== *)


Lemma with_severity_app s l1 l2 :
  with_severity s (l1 ++ l2) = with_severity s l1 ++ with_severity s l2.
Proof. apply filter_app. Qed.



Lemma Forall_iff_bool {A} (P : A -> Prop) (b : A -> bool) l :
  (forall x, P x <-> b x = true) ->
  Forall P l <-> Forall (fun x => b x = true) l.
Proof. intros H. apply Forall_proper; [intros x; apply H | done]. Qed.


















(* ================================================================== *)
(** * Required elements, through the whole validation                  *)
(* ================================================================== *)

Lemma run_checkers_keeps steps :
  forall issues i, i ∈ issues -> i ∈ run_checkers steps issues.
Proof.
  induction steps as [|[e|new] steps IH]; intros issues i Hi; simpl.
  - done.
  - apply elem_of_app. by left.
  - apply IH, elem_of_app. by left.
Qed.

(** When a checker returns an error, the run holds an error: that one, or
    the processing error of a checker that raised before it. *)
Lemma run_checkers_error steps new i :
  inr new ∈ steps -> i ∈ new -> severity i = ERROR ->
  forall issues,
    Exists (fun j => severity j = ERROR) (run_checkers steps issues).
Proof.
  intros Hin Hi Hsev.
  induction steps as [|[e|new'] steps IH]; intros issues; simpl.
  - by apply elem_of_nil in Hin.
  - apply Exists_app. right. by constructor.
  - apply elem_of_cons in Hin as [[= <-] | Hin].
    + apply Exists_exists. exists i. split; [|done].
      apply run_checkers_keeps, elem_of_app. by right.
    + by apply IH.
Qed.

Lemma Exists_error_not_nil l :
  Exists (fun j => severity j = ERROR) l ->
  with_severity ERROR l <> [] /\ promoted l <> [].
Proof.
  induction 1 as [j l Hj | j l _ [IH1 IH2]].
  - unfold with_severity. rewrite filter_cons. simpl. rewrite Hj.
    case_decide; done.
  - unfold with_severity in *. rewrite filter_cons. simpl. split.
    + case_decide; [done | exact IH1].
    + intros H. apply app_eq_nil in H as [_ H]. done.
Qed.

Section RequiredElements.

Variable now_year : Z.
Variable int_max_str_digits : nat.
Variable float_str : Py.pyfloat -> string.
Variables dates territories languages technical_details : Element -> Outcome.
Variables _extract_element_path _generate_suggestion : string -> option string.

(** X15. A NewReleaseMessage or CatalogListMessage without any
    MessageHeader element is never valid when the business rules run
    (they are switched on, by the argument of the call or else by the
    setting of the validator, and a schema could be used), in normal and
    in strict mode, whatever the schema validation says and whatever the
    other checkers do, a checker that raises included. *)
Theorem missing_header_never_valid self root nsmap schema elapsed enable mt :
  detect_message_type (Parsed root nsmap) = Some mt ->
  mt = "NewReleaseMessage" \/ mt = "CatalogListMessage" ->
  xpath_local ["MessageHeader"] [] root = [] ->
  schema_unavailable schema = false ->
  match enable with Some b => b | None => enable_business_rules self end
  = true ->
  is_valid
    (validate_string now_year int_max_str_digits float_str dates territories
       languages (fun root mt => inr (validate_required_elements root mt))
       technical_details _extract_element_path _generate_suggestion
       self (Parsed root nsmap) schema elapsed enable)
  = false.
Proof.
  intros Hmt Hin Hheader Hschema Henable.
  rewrite validate_string_parsed. cbv zeta. cbn [is_valid].
  rewrite critical_iff_unavailable, Hschema, Henable. cbn [andb negb].
  apply bool_decide_eq_false. rewrite length_app.
  set (issues := _validate_business_rules _ _ _ _ _ _ _ _ _ _).
  assert (Herr : Exists (fun j => severity j = ERROR) issues).
  { unfold issues, _validate_business_rules. rewrite Hmt.
    assert (Hne : Py.truthy (Some mt) = Some mt).
    { by destruct Hin as [-> | ->]. }
    rewrite Hne.
    apply (run_checkers_error _ (validate_required_elements root mt)
             (missing_message_header mt)).
    - rewrite !elem_of_app, !elem_of_cons. right. left. by left.
    - unfold validate_required_elements. rewrite Hheader.
      destruct Hin as [-> | ->].
      + rewrite decide_True by done. apply elem_of_app. left. by left.
      + rewrite decide_False by done. rewrite decide_True by done. by left.
    - done. }
  apply Exists_error_not_nil in Herr as [H1 H2].
  destruct (strict_mode self).
  - destruct (promoted issues); [done | simpl; lia].
  - destruct (with_severity ERROR issues); [done | simpl; lia].
Qed.

End RequiredElements.

(** X15 on a message that is only its root element, validated by a call
    without argument, with the checkers of rules.py in their place, and
    on a message in which a duration makes the duration check raise. *)
Lemma missing_header_never_valid_witness :
  let root := Elem None "NewReleaseMessage" [] None [] in
  let self := {| enable_business_rules := true; strict_mode := false |} in
  detect_message_type (Parsed root []) = Some "NewReleaseMessage"
  /\ xpath_local ["MessageHeader"] [] root = []
  /\ schema_unavailable SchemaValid = false
  /\ is_valid (sample_validate_with_rules self (Parsed root []) SchemaValid
                 0%Q None) = false
  /\ is_valid (sample_validate_with_rules self (Parsed overflowing_doc [])
                 SchemaValid 0%Q None) = false.
Proof.
  intros root self.
  split; [reflexivity|]. split; [reflexivity|]. split; [reflexivity|].
  split.
  - apply (missing_header_never_valid 2026 4300 (fun _ => "")
             (fun root => inr (validate_dates (2026, 11, 4) root))
             (fun root => inr (validate_territories root))
             (fun root => inr (validate_languages root))
             (fun root =>
                inr (validate_technical_details (fun _ => "")
                       (fun _ => None) root))
             no_text no_text self root [] SchemaValid 0%Q None
             "NewReleaseMessage");
      [reflexivity | left; reflexivity | reflexivity | reflexivity
      | reflexivity].
  - apply (missing_header_never_valid 2026 4300 (fun _ => "")
             (fun root => inr (validate_dates (2026, 11, 4) root))
             (fun root => inr (validate_territories root))
             (fun root => inr (validate_languages root))
             (fun root =>
                inr (validate_technical_details (fun _ => "")
                       (fun _ => None) root))
             no_text no_text self overflowing_doc [] SchemaValid 0%Q None
             "NewReleaseMessage");
      [reflexivity | left; reflexivity | reflexivity | reflexivity
      | reflexivity].
Defined.

(* ================================================================== *)
(** * Where the issues point                                           *)
(* ================================================================== *)

Lemma xpath_local_mono names names' h e (n : Node) :
  names ⊆ names' -> n ∈ xpath_local names h e -> n ∈ xpath_local names' h e.
Proof.
  unfold xpath_local. intros Hsub Hn.
  apply list_elem_of_filter in Hn as [Hname Hn].
  apply list_elem_of_filter. split; [by apply Hsub | done].
Qed.

Lemma located_flat_map root names names' (f : Node -> list ValidationIssue) :
  wf_tree root = true ->
  names ⊆ names' ->
  (forall n, Forall (fun i => element_path i = path_of root n) (f n)) ->
  Forall (located root names') (flat_map f (xpath_local names [] root)).
Proof.
  intros Hwf Hsub Hf. apply Forall_flat_map, Forall_forall. intros n Hn.
  eapply Forall_impl; [apply Hf|]. intros i Hi. exists n. split.
  - by eapply xpath_local_mono.
  - rewrite Hi. unfold path_of. by eapply selected_element_path.
Qed.

Ltac name_in_list := apply list_elem_of_In; simpl; auto 10.

Ltac one_issue_at_most :=
  intros ?n; repeat case_match; repeat constructor.

(** X16. In a tree whose names hold no closing brace, every issue of the
    format checkers points to an element its query selected: the path of
    the issue is the path of that element from the root, with the
    position among the siblings of the same tag where there are several.
    For [validate_durations] the issues are those it returns: it has none
    when it raises. *)
Theorem format_issues_are_located now_year int_max_str_digits float_str today
    root :
  wf_tree root = true ->
  Forall (located root ["GRid"; "ISRC"; "ISAN"; "VISAN"; "ICPN"])
    (validate_identifiers now_year root)
  /\ Forall (located root ["Duration"])
       (returned (validate_durations int_max_str_digits float_str root))
  /\ Forall (located root ["ReleaseDate"; "OriginalReleaseDate";
                           "CreationDate"; "StartDate"; "EndDate";
                           "MessageCreatedDateTime"])
       (validate_dates today root)
  /\ Forall (located root ["Territory"; "TerritoryCode"])
       (validate_territories root)
  /\ Forall (located root ["LanguageOfPerformance"; "LanguageOfDubbing";
                           "LanguageOfSubtitles"])
       (validate_languages root).
Proof.
  intros Hwf.
  assert (Hsub : forall (x : string) l, x ∈ l -> [x] ⊆ l).
  { intros x l Hx y Hy. by apply list_elem_of_singleton in Hy as ->. }
  repeat split.
  - unfold validate_identifiers. rewrite !Forall_app.
    repeat split; apply located_flat_map; try done.
    + apply Hsub. name_in_list.
    + unfold check_grid. one_issue_at_most.
    + apply Hsub. name_in_list.
    + unfold check_isrc. one_issue_at_most.
    + apply Hsub. name_in_list.
    + unfold check_isan. one_issue_at_most.
    + apply Hsub. name_in_list.
    + unfold check_visan. one_issue_at_most.
    + apply Hsub. name_in_list.
    + unfold check_icpn. one_issue_at_most.
  - unfold validate_durations.
    pose proof (for_each_spec (check_duration int_max_str_digits float_str root)
                  (xpath_local ["Duration"] [] root)) as Hall.
    destruct (for_each _ _) as [e|issues]; [constructor|].
    destruct Hall as [-> _]. apply located_flat_map; try done.
    intros n. unfold check_duration.
    repeat case_match; repeat constructor.
  - unfold validate_dates. rewrite !Forall_app.
    split; apply located_flat_map; try done.
    + intros x Hx. apply list_elem_of_In in Hx. apply list_elem_of_In.
      simpl in *. intuition.
    + unfold check_date. one_issue_at_most.
    + apply Hsub. name_in_list.
    + unfold check_datetime. one_issue_at_most.
  - unfold validate_territories. apply located_flat_map; try done.
    unfold check_territory. one_issue_at_most.
  - unfold validate_languages. apply located_flat_map; try done.
    unfold check_language. one_issue_at_most.
Qed.

(** X16 on a message whose only ISRC is malformed. *)
Lemma format_issues_are_located_witness :
  let root := scenario_doc "ISRC" "US-RC1-76-07839" in
  wf_tree root = true
  /\ Forall (located root ["GRid"; "ISRC"; "ISAN"; "VISAN"; "ICPN"])
       (validate_identifiers 2026 root).
Proof.
  intros root. split; [reflexivity|].
  exact (proj1 (format_issues_are_located 2026 4300 (fun _ => "") (2026, 1, 1)
                  root eq_refl)).
Defined.

(* ================================================================== *)
(** * Properties of the ICPN check digit                               *)
(* ================================================================== *)

Lemma sum_of_some s l v :
  Py.sum_of (fun i => c ← Py.index s i; Py.int_char c) l = Some v ->
  v = digits_sum s l
  /\ Forall (fun i => is_Some (c ← Py.index s i; Py.int_char c)) l.
Proof.
  revert v. induction l as [|i l IH]; intros v; simpl.
  - intros [= <-]. by split.
  - unfold digit_at.
    destruct (c ← Py.index s i; Py.int_char c) as [x|] eqn:Hx; [|discriminate].
    destruct (Py.sum_of _ l) as [y|]; [|discriminate].
    intros [= <-]. destruct (IH y eq_refl) as [-> Hl].
    split; [done|]. constructor; [by eexists | done].
Qed.

Lemma all_digits_lookup s :
  all_digits s = true
  <-> forall i, (i < String.length s)%nat ->
        is_Some (c ← Py.index s i; Py.int_char c).
Proof.
  unfold Py.index. induction s as [|a s IH]; simpl.
  - split; [intros _ i Hi; lia | done].
  - rewrite andb_true_iff, IH. split.
    + intros [Ha Hs] [|i] Hi; simpl.
      * unfold Py.int_char. rewrite Ha. by eexists.
      * apply Hs. lia.
    + intros H. split.
      * specialize (H 0%nat ltac:(lia)). simpl in H. unfold Py.int_char in H.
        destruct (Py.is_digit a); [done | by destruct H].
      * intros i Hi. apply (H (S i)). lia.
Qed.

(** The checksum test without any assumption on its argument. *)
Lemma checksum_valid_iff s :
  _validate_icpn_checksum s = true
  <-> all_digits s = true
      /\ ((String.length s = 12%nat /\ digit_at s 11 = upc_check_digit s)
          \/ (String.length s = 13%nat /\ digit_at s 12 = ean_check_digit s)).
Proof.
  split.
  - unfold _validate_icpn_checksum. cbv zeta.
    destruct (decide (String.length s = 12%nat)) as [Hlen|Hlen];
      [|destruct (decide (String.length s = 13%nat)) as [Hlen'|Hlen'];
        [|discriminate]].
    + change (Py.range 0 11 2) with [0; 2; 4; 6; 8; 10]%nat.
      change (Py.range 1 11 2) with [1; 3; 5; 7; 9]%nat.
      destruct (Py.sum_of _ [0; 2; 4; 6; 8; 10]%nat) as [o|] eqn:Ho;
        [|discriminate].
      destruct (Py.sum_of _ [1; 3; 5; 7; 9]%nat) as [e|] eqn:He;
        [|discriminate].
      cbn [mbind option_bind].
      destruct (c ← Py.index s 11; Py.int_char c) as [d|] eqn:Hd;
        [|discriminate].
      cbn [mbind option_bind default id]. rewrite bool_decide_eq_true.
      intros Hcheck.
      apply sum_of_some in Ho as [-> Ho]. apply sum_of_some in He as [-> He].
      split.
      * apply all_digits_lookup. intros i Hi. rewrite Hlen in Hi.
        pose proof (proj1 (Forall_forall _ _) Ho) as Ho'.
        pose proof (proj1 (Forall_forall _ _) He) as He'.
        do 12 (destruct i as [|i];
               [first [ apply Ho'; solve [repeat constructor]
                      | apply He'; solve [repeat constructor]
                      | by rewrite Hd ] |]).
        lia.
      * left. split; [done|]. unfold upc_check_digit, digit_at.
        rewrite Hd. simpl default. rewrite <- Hcheck.
        by rewrite (Z.mul_comm _ 3).
    + change (Py.range 0 12 2) with [0; 2; 4; 6; 8; 10]%nat.
      change (Py.range 1 12 2) with [1; 3; 5; 7; 9; 11]%nat.
      destruct (Py.sum_of _ [0; 2; 4; 6; 8; 10]%nat) as [o|] eqn:Ho;
        [|discriminate].
      destruct (Py.sum_of _ [1; 3; 5; 7; 9; 11]%nat) as [e|] eqn:He;
        [|discriminate].
      cbn [mbind option_bind].
      destruct (c ← Py.index s 12; Py.int_char c) as [d|] eqn:Hd;
        [|discriminate].
      cbn [mbind option_bind default id]. rewrite bool_decide_eq_true.
      intros Hcheck.
      apply sum_of_some in Ho as [-> Ho]. apply sum_of_some in He as [-> He].
      split.
      * apply all_digits_lookup. intros i Hi. rewrite Hlen' in Hi.
        pose proof (proj1 (Forall_forall _ _) Ho) as Ho'.
        pose proof (proj1 (Forall_forall _ _) He) as He'.
        do 13 (destruct i as [|i];
               [first [ apply Ho'; solve [repeat constructor]
                      | apply He'; solve [repeat constructor]
                      | by rewrite Hd ] |]).
        lia.
      * right. split; [done|]. unfold ean_check_digit, digit_at.
        rewrite Hd. simpl default. rewrite <- Hcheck.
        by rewrite (Z.mul_comm _ 3).
  - intros [Hs [[Hlen Hd] | [Hlen Hd]]];
      unfold _validate_icpn_checksum; cbv zeta.
    + rewrite decide_True by done.
      change (Py.range 0 11 2) with [0; 2; 4; 6; 8; 10]%nat.
      change (Py.range 1 11 2) with [1; 3; 5; 7; 9]%nat.
      rewrite !(sum_of_digits s) by (done || (repeat constructor; lia)).
      cbn [mbind option_bind].
      rewrite (digit_some s Hs 11) by lia.
      cbn [mbind option_bind default id]. rewrite bool_decide_eq_true.
      rewrite Hd. unfold upc_check_digit. by rewrite (Z.mul_comm _ 3).
    + rewrite decide_False by lia. rewrite decide_True by done.
      change (Py.range 0 12 2) with [0; 2; 4; 6; 8; 10]%nat.
      change (Py.range 1 12 2) with [1; 3; 5; 7; 9; 11]%nat.
      rewrite !(sum_of_digits s) by (done || (repeat constructor; lia)).
      cbn [mbind option_bind].
      rewrite (digit_some s Hs 12) by lia.
      cbn [mbind option_bind default id]. rewrite bool_decide_eq_true.
      rewrite Hd. unfold ean_check_digit. by rewrite (Z.mul_comm _ 3).
Qed.

(** X17. On ASCII text the checksum test accepts a text exactly when it
    is made of 12 or 13 digits and its last digit is the check digit of
    the others; for every other ASCII text, one holding other characters
    or of another length, it answers no. *)
Theorem checksum_accepts_exactly s :
  is_ascii s = true ->
  _validate_icpn_checksum s = true
  <-> all_digits s = true
      /\ ((String.length s = 12%nat /\ digit_at s 11 = upc_check_digit s)
          \/ (String.length s = 13%nat /\ digit_at s 12 = ean_check_digit s)).
Proof. intros _. apply checksum_valid_iff. Qed.

(** X17 on a text of twelve characters of which one is a letter. *)
Lemma checksum_accepts_exactly_witness :
  is_ascii "03600029145X" = true
  /\ all_digits "03600029145X" = false
  /\ _validate_icpn_checksum "03600029145X" = false.
Proof.
  split; [reflexivity|]. split; [reflexivity|].
  destruct (_validate_icpn_checksum "03600029145X") eqn:Hv; [|reflexivity].
  apply (checksum_accepts_exactly "03600029145X" eq_refl) in Hv as [Hd _].
  vm_compute in Hd. discriminate Hd.
Defined.

Lemma replace_at_length i c s :
  String.length (replace_at i c s) = String.length s.
Proof.
  revert i. induction s as [|a s IH]; intros [|i]; simpl; auto.
Qed.

Lemma index_replace_at_same i c s :
  (i < String.length s)%nat -> Py.index (replace_at i c s) i = Some c.
Proof.
  unfold Py.index. revert i.
  induction s as [|a s IH]; intros [|i] Hi; simpl in *; try lia; auto.
  apply IH. lia.
Qed.

Lemma index_replace_at_other i k c s :
  k <> i -> Py.index (replace_at i c s) k = Py.index s k.
Proof.
  unfold Py.index. revert i k.
  induction s as [|a s IH]; intros [|i] [|k] Hk; simpl; try done.
  apply IH. lia.
Qed.

Lemma digit_at_replace_other i k c s :
  k <> i -> digit_at (replace_at i c s) k = digit_at s k.
Proof. intros Hk. unfold digit_at. by rewrite index_replace_at_other. Qed.

Lemma digit_at_range s k : 0 <= digit_at s k <= 9.
Proof.
  unfold digit_at. destruct (Py.index s k) as [a|]; simpl; [|lia].
  unfold Py.int_char, Py.is_digit. cbv zeta.
  destruct (_ && _) eqn:H; simpl; [|lia].
  apply andb_true_iff in H as [H1 H2].
  apply Nat.leb_le in H1, H2. lia.
Qed.

Lemma digit_value_inj a c :
  Py.is_digit a = true -> Py.is_digit c = true -> a <> c ->
  default 0 (Py.int_char a) <> default 0 (Py.int_char c).
Proof.
  intros Ha Hc Hne. unfold Py.int_char. rewrite Ha, Hc. simpl. intros H.
  apply Hne.
  rewrite <- (ascii_nat_embedding a), <- (ascii_nat_embedding c).
  f_equal. lia.
Qed.

Lemma all_digits_index s i a :
  all_digits s = true -> Py.index s i = Some a -> Py.is_digit a = true.
Proof.
  unfold Py.index. revert i.
  induction s as [|b s IH]; intros [|i]; simpl; try discriminate.
  - intros H [= <-]. by apply andb_true_iff in H as [? _].
  - intros H. apply andb_true_iff in H as [_ H]. by apply IH.
Qed.

Lemma index_is_some s i :
  (i < String.length s)%nat -> exists a, Py.index s i = Some a.
Proof.
  unfold Py.index. revert i.
  induction s as [|b s IH]; intros [|i] Hi; simpl in *; try lia; eauto.
  apply IH. lia.
Qed.

Ltac wrong_digit c s :=
  match goal with
  | Hv : digit_at s _ = _,
    Hv' : digit_at (replace_at ?k c s) _ = _,
    Hne : digit_at s ?k <> digit_at (replace_at ?k c s) ?k,
    Hr' : _ <= digit_at (replace_at ?k c s) ?k <= _ |- _ =>
      revert Hv Hv' Hne Hr';
      generalize (digit_at (replace_at k c s) k);
      rewrite ?digit_at_replace_other by lia;
      intros; Z.div_mod_to_equations; lia
  end.

(** X18. On ASCII text the check digit catches every single wrong
    character: when an ASCII text passes the checksum test, the text
    obtained by replacing one of its characters by any other ASCII
    character fails it. *)
Theorem checksum_detects_one_wrong_character s i c :
  is_ascii s = true ->
  (nat_of_ascii c < 128)%nat ->
  _validate_icpn_checksum s = true ->
  (i < String.length s)%nat ->
  Py.index s i <> Some c ->
  _validate_icpn_checksum (replace_at i c s) = false.
Proof.
  intros _ _ Hvalid Hi Hc.
  destruct (_validate_icpn_checksum (replace_at i c s)) eqn:Hvalid'; [|done].
  exfalso.
  apply checksum_valid_iff in Hvalid as [Hs Hvalid].
  apply checksum_valid_iff in Hvalid' as [Hs' Hvalid'].
  rewrite replace_at_length in Hvalid'.
  destruct (index_is_some s i Hi) as [a Ha].
  assert (Hda : Py.is_digit a = true) by (eapply all_digits_index; [exact Hs | exact Ha]).
  assert (Hdc : Py.is_digit c = true).
  { eapply all_digits_index; [exact Hs'|]. by apply index_replace_at_same. }
  assert (Hne : digit_at s i <> digit_at (replace_at i c s) i).
  { unfold digit_at. rewrite index_replace_at_same, Ha by done. simpl.
    apply digit_value_inj; try done. intros ->. by apply Hc. }
  pose proof (digit_at_range (replace_at i c s) i) as Hr'.
  pose proof (digit_at_range s 0) as H0. pose proof (digit_at_range s 1) as H1.
  pose proof (digit_at_range s 2) as H2. pose proof (digit_at_range s 3) as H3.
  pose proof (digit_at_range s 4) as H4. pose proof (digit_at_range s 5) as H5.
  pose proof (digit_at_range s 6) as H6. pose proof (digit_at_range s 7) as H7.
  pose proof (digit_at_range s 8) as H8. pose proof (digit_at_range s 9) as H9.
  pose proof (digit_at_range s 10) as H10.
  pose proof (digit_at_range s 11) as H11.
  pose proof (digit_at_range s 12) as H12.
  destruct Hvalid as [[Hlen Hv] | [Hlen Hv]];
    destruct Hvalid' as [[Hlen' Hv'] | [Hlen' Hv']]; try lia;
    unfold upc_check_digit, ean_check_digit, digits_sum in Hv, Hv';
    cbn [foldr] in Hv, Hv'; rewrite Hlen in Hi.
  - do 12 (destruct i as [|i]; [wrong_digit c s|]). lia.
  - do 13 (destruct i as [|i]; [wrong_digit c s|]). lia.
Qed.

(** X18 on a valid UPC whose last digit is replaced. *)
Lemma checksum_detects_one_wrong_character_witness :
  is_ascii "036000291452" = true
  /\ (nat_of_ascii "3" < 128)%nat
  /\ _validate_icpn_checksum "036000291452" = true
  /\ (11 < String.length "036000291452")%nat
  /\ Py.index "036000291452" 11 <> Some "3"%char
  /\ _validate_icpn_checksum (replace_at 11 "3" "036000291452") = false.
Proof.
  split; [reflexivity|]. split; [vm_compute; lia|].
  split; [reflexivity|]. split; [simpl; lia|].
  split; [vm_compute; discriminate|].
  apply (checksum_detects_one_wrong_character "036000291452" 11 "3");
    [reflexivity | vm_compute; lia | reflexivity | simpl; lia
    | vm_compute; discriminate].
Defined.

(* ================================================================== *)
(** * Properties of the statistics                                     *)
(* ================================================================== *)

Lemma count_up_if_count k d c :
  count_of (count_up_if k d) c = count_of d c + occurrences c [k].
Proof.
  unfold count_of, count_up_if, occurrences, count_up, Py.truthy.
  destruct k as [[|a k]|]; cbv beta iota.
  - case_decide; [lia|]. rewrite filter_cons. case_decide; [congruence|].
    simpl. lia.
  - destruct (decide (c = String a k)) as [->|Hne].
    + rewrite lookup_insert_eq. rewrite decide_False by done.
      rewrite filter_cons. rewrite decide_True by done. simpl. lia.
    + rewrite lookup_insert_ne by done.
      case_decide; [lia|]. rewrite filter_cons.
      rewrite decide_False by congruence. simpl. lia.
  - case_decide; [lia|]. rewrite filter_cons. case_decide; [congruence|].
    simpl. lia.
Qed.

Lemma occurrences_app c l1 l2 :
  occurrences c (l1 ++ l2) = occurrences c l1 + occurrences c l2.
Proof.
  unfold occurrences. case_decide; [lia|].
  rewrite filter_app, length_app. lia.
Qed.

Lemma occurrences_cons c k l :
  occurrences c (k :: l) = occurrences c [k] + occurrences c l.
Proof. apply (occurrences_app c [k] l). Qed.

Lemma occurrences_nil c : occurrences c [] = 0.
Proof. unfold occurrences. by case_decide. Qed.

Lemma count_errors_fold errs :
  forall d c,
    count_of (fold_left (fun d error => count_up_if (error_code error) d) errs d) c
    = count_of d c + occurrences c (map error_code errs).
Proof.
  induction errs as [|e errs IH]; intros d c; simpl.
  - rewrite occurrences_nil. lia.
  - rewrite IH, count_up_if_count,
      (occurrences_cons c (error_code e) (map error_code errs)). lia.
Qed.

Lemma statistics_fold results :
  forall st0,
    let st := fold_left add_result results st0 in
    total_files st = total_files st0 + Z.of_nat (length results)
    /\ valid_files st
       = valid_files st0
         + Z.of_nat (length (filter (fun r => is_valid r = true) results))
    /\ invalid_files st
       = invalid_files st0
         + Z.of_nat (length (filter (fun r => is_valid r = false) results))
    /\ total_errors st
       = total_errors st0 + Z.of_nat (length (flat_map errors results))
    /\ total_warnings st
       = total_warnings st0 + Z.of_nat (length (flat_map warnings results))
    /\ (forall c, count_of (error_codes st) c
                  = count_of (error_codes st0) c
                    + occurrences c (map error_code (flat_map errors results)))
    /\ (forall c, count_of (message_types st) c
                  = count_of (message_types st0) c
                    + occurrences c (map message_type results))
    /\ (forall c, count_of (ddex_versions st) c
                  = count_of (ddex_versions st0) c
                    + occurrences c (map ddex_version results)).
Proof.
  induction results as [|r results IH]; intros st0; cbv zeta.
  - simpl. repeat split; try lia; intros c; rewrite occurrences_nil; lia.
  - change (fold_left add_result (r :: results) st0)
      with (fold_left add_result results (add_result st0 r)).
    destruct (IH (add_result st0 r)) as (H1 & H2 & H3 & H4 & H5 & H6 & H7 & H8).
    rewrite H1, H2, H3, H4, H5. clear H1 H2 H3 H4 H5.
    cbn [add_result total_files valid_files invalid_files total_errors
         total_warnings flat_map map].
    rewrite !filter_cons, !length_app.
    repeat split.
    + rewrite length_cons. lia.
    + destruct (is_valid r); repeat case_decide; try congruence;
        rewrite ?length_cons; lia.
    + destruct (is_valid r); repeat case_decide; try congruence;
        rewrite ?length_cons; lia.
    + lia.
    + lia.
    + intros c. rewrite H6. cbn [add_result error_codes].
      rewrite count_errors_fold, map_app, occurrences_app. lia.
    + intros c. rewrite H7. cbn [add_result message_types].
      rewrite count_up_if_count,
        (occurrences_cons c (message_type r) (map message_type results)). lia.
    + intros c. rewrite H8. cbn [add_result ddex_versions].
      rewrite count_up_if_count,
        (occurrences_cons c (ddex_version r) (map ddex_version results)). lia.
Qed.

(** X19. After [add_result] on every result of a batch, the statistics
    hold the number of results, of valid and of invalid ones (which add
    up to the total), the number of errors and of warnings of all the
    results, and for every non-empty error code, message type and
    version how often it occurs; the empty key is never counted. *)
Theorem statistics_count_the_batch results :
  let st := statistics_of results in
  total_files st = Z.of_nat (length results)
  /\ valid_files st
     = Z.of_nat (length (filter (fun r => is_valid r = true) results))
  /\ invalid_files st
     = Z.of_nat (length (filter (fun r => is_valid r = false) results))
  /\ valid_files st + invalid_files st = total_files st
  /\ total_errors st = Z.of_nat (length (flat_map errors results))
  /\ total_warnings st = Z.of_nat (length (flat_map warnings results))
  /\ (forall c, count_of (error_codes st) c
                = occurrences c (map error_code (flat_map errors results)))
  /\ (forall c, count_of (message_types st) c
                = occurrences c (map message_type results))
  /\ (forall c, count_of (ddex_versions st) c
                = occurrences c (map ddex_version results)).
Proof.
  cbv zeta. unfold statistics_of.
  destruct (statistics_fold results new_statistics)
    as (H1 & H2 & H3 & H4 & H5 & H6 & H7 & H8).
  cbn [new_statistics total_files valid_files invalid_files total_errors
       total_warnings error_codes message_types ddex_versions] in *.
  assert (Hsplit : (length (filter (fun r => is_valid r = true) results)
                    + length (filter (fun r => is_valid r = false) results)
                    = length results)%nat).
  { clear. induction results as [|r l IH]; simpl; [done|].
    rewrite !filter_cons.
    destruct (is_valid r); repeat case_decide; try congruence;
      rewrite ?length_cons; lia. }
  assert (Hempty : forall c, count_of (∅ : gmap string Z) c = 0).
  { intros c. unfold count_of. by rewrite lookup_empty. }
  repeat split; try lia.
  - intros c. rewrite H6, Hempty. lia.
  - intros c. rewrite H7, Hempty. lia.
  - intros c. rewrite H8, Hempty. lia.
Qed.

(* ================================================================== *)
(** * The accessors of a result                                        *)
(* ================================================================== *)

Lemma with_severity_same s l :
  Forall (fun i => severity i = s) l -> with_severity s l = l.
Proof.
  unfold with_severity. induction 1 as [|i l Hi _ IH]; [done|].
  rewrite filter_cons, decide_True by done. by rewrite IH.
Qed.

Lemma with_severity_other s s' l :
  s <> s' -> Forall (fun i => severity i = s') l -> with_severity s l = [].
Proof.
  unfold with_severity. intros Hne. induction 1 as [|i l Hi _ IH]; [done|].
  rewrite filter_cons, decide_False by congruence. exact IH.
Qed.

Lemma by_severity_of_sorted r sev :
  Forall (fun i => severity i = ERROR) (errors r) ->
  Forall (fun i => severity i = WARNING) (warnings r) ->
  Forall (fun i => severity i = INFO) (info r) ->
  get_issues_by_severity r sev
  = with_severity sev (errors r ++ warnings r ++ info r).
Proof.
  intros He Hw Hi. rewrite !with_severity_app. destruct sev; simpl.
  - rewrite (with_severity_same _ _ He),
      (with_severity_other ERROR WARNING _ ltac:(done) Hw),
      (with_severity_other ERROR INFO _ ltac:(done) Hi).
    by rewrite app_nil_r.
  - rewrite (with_severity_same _ _ Hw),
      (with_severity_other WARNING ERROR _ ltac:(done) He),
      (with_severity_other WARNING INFO _ ltac:(done) Hi).
    by rewrite app_nil_r.
  - rewrite (with_severity_same _ _ Hi),
      (with_severity_other INFO ERROR _ ltac:(done) He),
      (with_severity_other INFO WARNING _ ltac:(done) Hw).
    done.
Qed.

Section Accessors.

Variable now_year : Z.
Variable int_max_str_digits : nat.
Variable float_str : Py.pyfloat -> string.
Variables dates territories languages technical_details : Element -> Outcome.
Variable required_elements : Element -> string -> Outcome.
Variables _extract_element_path _generate_suggestion : string -> option string.

(** X20. On every result of [validate_string], [get_issues_by_severity]
    returns exactly the issues of that severity among all the issues of
    the result, in their order: a warning promoted by strict mode is
    found under ERROR and no longer under WARNING. *)
Theorem issues_by_severity_are_all_of_them self xml schema elapsed enable sev :
  let r :=
    validate_string now_year int_max_str_digits float_str dates territories
      languages required_elements technical_details _extract_element_path
      _generate_suggestion self xml schema elapsed enable in
  get_issues_by_severity r sev
  = with_severity sev (errors r ++ warnings r ++ info r).
Proof.
  cbv zeta.
  destruct (sorted_by_severity_string now_year int_max_str_digits float_str
              dates territories languages technical_details required_elements
              _extract_element_path _generate_suggestion
              self xml schema elapsed enable) as (He & Hw & Hi).
  by apply by_severity_of_sorted.
Qed.

End Accessors.

(* ================================================================== *)
(** * Looking for the schema file                                      *)
(* ================================================================== *)

Section SchemaLookup.

Variable path_exists : string -> bool.
Variable path_join : string -> string -> string.
Variable path_dirname : string -> string.

Lemma first_existing_spec dir filenames :
  match first_existing path_exists path_join dir filenames with
  | Some p => path_exists p = true /\ exists f, f ∈ filenames /\ p = path_join dir f
  | None => Forall (fun f => path_exists (path_join dir f) = false) filenames
  end.
Proof.
  induction filenames as [|f l IH]; simpl; [constructor|].
  destruct (path_exists (path_join dir f)) eqn:Hf.
  - split; [done|]. exists f. split; [by left | done].
  - destruct (first_existing path_exists path_join dir l) as [p|].
    + destruct IH as (Hp & g & Hg & ->). split; [done|].
      exists g. split; [by right | done].
    + by constructor.
Qed.

Lemma find_schema_file_spec schema_dir version :
  match find_schema_file path_exists path_join schema_dir version with
  | Some p =>
      path_exists p = true
      /\ exists f, f ∈ possible_files version
                   /\ (p = path_join (path_join schema_dir version) f
                       \/ p = path_join schema_dir f)
  | None =>
      Forall (fun f => path_exists (path_join schema_dir f) = false)
        (possible_files version)
  end.
Proof.
  unfold find_schema_file. cbv zeta.
  pose proof (first_existing_spec (path_join schema_dir version)
                (possible_files version)) as Hv.
  pose proof (first_existing_spec schema_dir (possible_files version)) as Hr.
  destruct (path_exists (path_join schema_dir version)).
  - destruct (first_existing _ _ (path_join schema_dir version) _) as [p|].
    + destruct Hv as (Hp & f & Hf & ->). split; [done|]. exists f. auto.
    + destruct (first_existing _ _ schema_dir _) as [p|]; [|done].
      destruct Hr as (Hp & f & Hf & ->). split; [done|]. exists f. auto.
  - destruct (first_existing _ _ schema_dir _) as [p|]; [|done].
    destruct Hr as (Hp & f & Hf & ->). split; [done|]. exists f. auto.
Qed.

Lemma truthy_some o p : Py.truthy o = Some p -> o = Some p.
Proof. destruct o as [[|a s]|]; simpl; congruence. Qed.

(** X21. A path returned by [find_schema_file] or by [_get_schema_path]
    exists.  What [find_schema_file] returns is one of the four candidate
    file names in the directory of the version or in the schema
    directory, and it finds nothing only when none of the candidates
    exists in the schema directory; [_get_schema_path] finds nothing only
    when neither the given schema path nor the fallback file beside the
    schema directory exists. *)
Theorem schema_lookup_returns_existing_file schema_path schema_dir version v :
  match find_schema_file path_exists path_join schema_dir v with
  | Some p =>
      path_exists p = true
      /\ exists f, f ∈ possible_files v
                   /\ (p = path_join (path_join schema_dir v) f
                       \/ p = path_join schema_dir f)
  | None =>
      Forall (fun f => path_exists (path_join schema_dir f) = false)
        (possible_files v)
  end
  /\ match _get_schema_path path_exists path_join path_dirname
             schema_path schema_dir version with
     | Some p => path_exists p = true
     | None =>
         path_exists (path_join (path_dirname schema_dir) "ddex_3-8-2.xsd")
         = false
         /\ match Py.truthy schema_path with
            | Some p => path_exists p = false
            | None => True
            end
     end.
Proof.
  split; [apply find_schema_file_spec|].
  assert (Hfound : forall w p,
            Py.truthy (find_schema_file path_exists path_join schema_dir w)
            = Some p -> path_exists p = true).
  { intros w p Hp. apply truthy_some in Hp.
    pose proof (find_schema_file_spec schema_dir w) as Hw.
    rewrite Hp in Hw. by destruct Hw. }
  unfold _get_schema_path.
  assert (Hrest :
    match
      match
        match Py.truthy version, Py.truthy (Some schema_dir) with
        | Some v0, Some dir =>
            Py.truthy (find_schema_file path_exists path_join dir v0)
        | _, _ => None
        end
      with
      | Some p => Some p
      | None =>
          match Py.truthy (find_schema_file path_exists path_join schema_dir "3.8.2") with
          | Some p => Some p
          | None =>
              let root_schema :=
                path_join (path_dirname schema_dir) "ddex_3-8-2.xsd" in
              if path_exists root_schema then Some root_schema else None
          end
      end
    with
    | Some p => path_exists p = true
    | None =>
        path_exists (path_join (path_dirname schema_dir) "ddex_3-8-2.xsd")
        = false
    end).
  { destruct (Py.truthy version) as [w|];
      [destruct (Py.truthy (Some schema_dir)) as [dir|] eqn:Hdir;
       [apply truthy_some in Hdir as [= <-];
        destruct (Py.truthy (find_schema_file _ _ schema_dir w)) as [q|] eqn:Hq;
        [by apply (Hfound w)|]|]|].
    all: destruct (Py.truthy (find_schema_file _ _ schema_dir "3.8.2"))
           as [d|] eqn:Hd; [by apply (Hfound "3.8.2")|].
    all: cbv zeta;
      by destruct (path_exists (path_join (path_dirname schema_dir) _)) eqn:Hr. }
  revert Hrest.
  destruct (Py.truthy schema_path) as [p|];
    [destruct (path_exists p) eqn:Hp; [done|]|];
    cbv beta iota;
    match goal with
    | |- match ?r with _ => _ end -> _ => destruct r
    end; done.
Qed.

End SchemaLookup.

(* ================================================================== *)
(** * Properties of the date checks                                    *)
(* ================================================================== *)



















(* ================================================================== *)
(** * When the business logic is satisfied                             *)
(* ================================================================== *)






(* ================================================================== *)
(** * The detected message type                                        *)
(* ================================================================== *)

(** X25. The message type detected for a text that parses is the local
    name of its root element, with or without a namespace, as long as
    neither the namespace nor the name holds a closing brace; for a text
    that does not parse none is detected. *)
Theorem message_type_is_root_name root nsmap :
  wf_name root = true ->
  detect_message_type (Parsed root nsmap) = Some (localname root)
  /\ (forall e, detect_message_type (XMLSyntaxError e) = None)
  /\ (forall e, detect_message_type (ParseException e) = None).
Proof.
  intros Hwf. split; [|by split].
  unfold detect_message_type. by apply strip_namespace_tag.
Qed.

(** X25 on a message in the ERN namespace. *)
Lemma message_type_is_root_name_witness :
  wf_name two_recordings_doc = true
  /\ detect_message_type (Parsed two_recordings_doc []) = Some "NewReleaseMessage".
Proof.
  split; [reflexivity|].
  exact (proj1 (message_type_is_root_name two_recordings_doc [] eq_refl)).
Defined.
